(** * The AI decision pipeline of the trading bot

    A shallow embedding of [internal/ai/deepseek/client.go] (prompt synthesis,
    resilient invocation, response parsing, decision validation) together with
    the parts of the Go runtime library the code calls.

    Go values are modelled as follows.
    - [string]: a Go string is a sequence of bytes; Rocq's [string] is the
      same thing.  Text is UTF-8 only by convention, and the library
      functions below decode it the way package [unicode/utf8] does.
    - [float64]: the kernel's binary64 [float], so comparisons and arithmetic
      are IEEE 754, NaN included.
    - [int]: [Z] (the values that occur stay far below 2^63).
    - [error]: a message, a dynamic type tag and an optional wrapped error. *)

From Stdlib Require Import Floats ZArith NArith Ascii String Lia.
From stdpp Require Import base option list gmap strings sorting pretty.

#[local] Open Scope Z_scope.
#[local] Set Warnings "-register-all".

(** ** Parts of the Go library that are tables or long algorithms

    The case tables of package [unicode], the shortest-digits search of
    package [strconv] and the platform's float-to-int conversion outside the
    range of [int] are not part of the repository.  The code is verified for
    every choice of them. *)
Class GoLib := {
(** [unicode.ToLower] on runes from U+0080 on *)
  unicode_ToLower : N → N;
(** [unicode.ToUpper] on runes from U+0080 on *)
  unicode_ToUpper : N → N;
(** [strconv.FormatFloat(x, 'g', -1, 64)] where the digits are not the
      plain digits of a small integer *)
  strconv_shortest_g : float → string;
(** [json.Marshal] of a finite [float64] *)
  json_encode_float : float → string;
(** [int(x)] for a float outside the range of [int] (left to the
      implementation by the language) *)
  int_of_float_unspecified : float → Z;
}.

(** ** Bytes and UTF-8 (package [unicode/utf8]) *)
Module utf8.

Definition RuneError : N := 0xFFFD.
Definition RuneSelf : N := 0x80.
Definition MaxRune : N := 0x10FFFF.

Definition byte (c : ascii) : N := N_of_ascii c.
Definition chr (n : N) : ascii := ascii_of_N (n mod 256).

(** Continuation bytes are 10xxxxxx. *)
Definition is_cont (b : N) : bool := (0x80 <=? b)%N && (b <=? 0xBF)%N.

(** [RuneStart]: the byte is not a continuation byte. *)
Definition RuneStart (c : ascii) : bool := negb (is_cont (byte c)).

(** The table [first] and [acceptRanges]: for a leading byte, the length of
      the sequence and the range allowed for the second byte. *)
Definition first (b0 : N) : option (nat * N * N) :=
    if (b0 <? 0xC2)%N then None
    else if (b0 <=? 0xDF)%N then Some (2%nat, 0x80, 0xBF)%N
    else if (b0 =? 0xE0)%N then Some (3%nat, 0xA0, 0xBF)%N
    else if (b0 =? 0xED)%N then Some (3%nat, 0x80, 0x9F)%N
    else if (b0 <=? 0xEF)%N then Some (3%nat, 0x80, 0xBF)%N
    else if (b0 =? 0xF0)%N then Some (4%nat, 0x90, 0xBF)%N
    else if (b0 <=? 0xF3)%N then Some (4%nat, 0x80, 0xBF)%N
    else if (b0 =? 0xF4)%N then Some (4%nat, 0x80, 0x8F)%N
    else None.

(** [DecodeRuneInString]: the first rune of [s] and its width in bytes;
      [(RuneError, 0)] on the empty string and [(RuneError, 1)] on a byte that
      starts no valid encoding. *)
Definition DecodeRuneInString (s : string) : N * nat :=
    match s with
    | "" => (RuneError, 0%nat)
    | String c0 s1 =>
      let b0 := byte c0 in
      if (b0 <? RuneSelf)%N then (b0, 1%nat) else
      match first b0, s1 with
      | Some (sz, lo, hi), String c1 s2 =>
        let b1 := byte c1 in
        if (b1 <? lo)%N || (hi <? b1)%N then (RuneError, 1%nat) else
        if (sz <=? 2)%nat then
          (N.lor (N.shiftl (N.land b0 0x1F) 6) (N.land b1 0x3F), 2%nat)
        else
        match s2 with
        | String c2 s3 =>
          let b2 := byte c2 in
          if negb (is_cont b2) then (RuneError, 1%nat) else
          if (sz <=? 3)%nat then
            (N.lor (N.shiftl (N.land b0 0x0F) 12)
               (N.lor (N.shiftl (N.land b1 0x3F) 6) (N.land b2 0x3F)), 3%nat)
          else
          match s3 with
          | String c3 _ =>
            let b3 := byte c3 in
            if negb (is_cont b3) then (RuneError, 1%nat) else
            (N.lor (N.shiftl (N.land b0 0x07) 18)
               (N.lor (N.shiftl (N.land b1 0x3F) 12)
                  (N.lor (N.shiftl (N.land b2 0x3F) 6) (N.land b3 0x3F))), 4%nat)
          | "" => (RuneError, 1%nat)
          end
        | "" => (RuneError, 1%nat)
        end
      | _, _ => (RuneError, 1%nat)
      end
    end.

(** [DecodeLastRuneInString], on the reversed string: the last rune of the
      string and its width.  Go looks back over at most [UTFMax] bytes for a
      byte that can start a rune, decodes from there, and answers
      [(RuneError, 1)] unless that rune ends exactly at the end. *)
Definition DecodeLastRuneRev (rs : string) : N * nat :=
    match rs with
    | "" => (RuneError, 0%nat)
    | String c1 r1 =>
      if (byte c1 <? RuneSelf)%N then (byte c1, 1%nat) else
      let window : option string :=
        match r1 with
        | String c2 r2 =>
          if RuneStart c2 then Some (String c2 (String c1 "")) else
          match r2 with
          | String c3 r3 =>
            if RuneStart c3 then Some (String c3 (String c2 (String c1 ""))) else
            match r3 with
            | String c4 _ =>
              if RuneStart c4
              then Some (String c4 (String c3 (String c2 (String c1 ""))))
              else None
            | "" => None
            end
          | "" => None
          end
        | "" => None
        end in
      match window with
      | Some w =>
        let '(r, size) := DecodeRuneInString w in
        if (size =? String.length w)%nat then (r, size) else (RuneError, 1%nat)
      | None => (RuneError, 1%nat)
      end
    end.

Definition DecodeLastRuneInString (s : string) : N * nat :=
    DecodeLastRuneRev (String.rev s).

(** [EncodeRune] / [AppendRune]: surrogates and values above [MaxRune] are
      written as U+FFFD. *)
Definition EncodeRune (r : N) : string :=
    let tx (n : N) := chr (N.lor 0x80 (N.land n 0x3F)) in
    let three (r : N) :=
      String (chr (N.lor 0xE0 (N.shiftr r 12)))
        (String (tx (N.shiftr r 6)) (String (tx r) "")) in
    if (r <=? 0x7F)%N then String (chr r) ""
    else if (r <=? 0x7FF)%N then
      String (chr (N.lor 0xC0 (N.shiftr r 6))) (String (tx r) "")
    else if (MaxRune <? r)%N || ((0xD800 <=? r)%N && (r <=? 0xDFFF)%N) then
      three RuneError
    else if (r <=? 0xFFFF)%N then three r
    else
      String (chr (N.lor 0xF0 (N.shiftr r 18)))
        (String (tx (N.shiftr r 12))
           (String (tx (N.shiftr r 6)) (String (tx r) ""))).

(** The runes of a string as [for _, r := range s] yields them: each byte
      that starts no valid encoding counts as one U+FFFD. *)
Fixpoint runes_from (skip : nat) (s : string) : list N :=
    match s with
    | "" => []
    | String _ s' =>
      match skip with
      | S k => runes_from k s'
      | O => let '(r, n) := DecodeRuneInString s in r :: runes_from (n - 1) s'
      end
    end.

Definition runes (s : string) : list N := runes_from 0 s.

End utf8.

(** ** Package [unicode] *)

(** [unicode.IsSpace]: the White_Space property. *)
Definition unicode_IsSpace (r : N) : bool :=
  ((0x09 <=? r) && (r <=? 0x0D) || (r =? 0x20) || (r =? 0x85) || (r =? 0xA0)
   || (r =? 0x1680) || (0x2000 <=? r) && (r <=? 0x200A)
   || (r =? 0x2028) || (r =? 0x2029) || (r =? 0x202F) || (r =? 0x205F)
   || (r =? 0x3000))%N.

(** ** Package [strings] *)

Fixpoint string_drop (n : nat) (s : string) : string :=
  match n, s with
  | S k, String _ s' => string_drop k s'
  | _, _ => s
  end.

Fixpoint string_take (n : nat) (s : string) : string :=
  match n, s with
  | S k, String c s' => String c (string_take k s')
  | _, _ => ""
  end.

(** [s[lo:hi]] for indices in range. *)
Definition string_slice (lo hi : Z) (s : string) : string :=
  string_take (Z.to_nat (hi - lo)) (string_drop (Z.to_nat lo) s).

Definition strings_HasPrefix (s prefix : string) : bool := String.prefix prefix s.

Definition strings_TrimPrefix (s prefix : string) : string :=
  if strings_HasPrefix s prefix then string_drop (String.length prefix) s else s.

Definition strings_HasSuffix (s suffix : string) : bool :=
  String.prefix (String.rev suffix) (String.rev s).

Definition strings_TrimSuffix (s suffix : string) : string :=
  if strings_HasSuffix s suffix
  then string_take (String.length s - String.length suffix) s else s.

(** [strings.Index]: the byte index of the first occurrence, or -1. *)
Fixpoint Index_from (i : Z) (s substr : string) : Z :=
  if String.prefix substr s then i else
  match s with
  | "" => -1
  | String _ s' => Index_from (i + 1) s' substr
  end.

Definition strings_Index (s substr : string) : Z := Index_from 0 s substr.

Definition strings_Contains (s substr : string) : bool :=
  0 <=? strings_Index s substr.

(** [strings.LastIndex]: the byte index of the last occurrence, or -1. *)
Fixpoint LastIndex_from (i last : Z) (s substr : string) : Z :=
  let last := if String.prefix substr s then i else last in
  match s with
  | "" => last
  | String _ s' => LastIndex_from (i + 1) last s' substr
  end.

Definition strings_LastIndex (s substr : string) : Z :=
  LastIndex_from 0 (-1) s substr.

(** [strings.TrimLeftFunc]: drop leading runes while [f] holds. *)
Fixpoint TrimLeftFunc_from (f : N → bool) (skip : nat) (s : string) : string :=
  match s with
  | "" => ""
  | String _ s' =>
    match skip with
    | S k => TrimLeftFunc_from f k s'
    | O =>
      let '(r, n) := utf8.DecodeRuneInString s in
      if f r then TrimLeftFunc_from f (n - 1) s' else s
    end
  end.

Definition strings_TrimLeftFunc (s : string) (f : N → bool) : string :=
  TrimLeftFunc_from f 0 s.

(** [strings.TrimRightFunc]: drop trailing runes, decoded from the end, while
    [f] holds.  The traversal runs over the reversed string. *)
Fixpoint TrimRightFunc_from (f : N → bool) (skip : nat) (rs : string) : string :=
  match rs with
  | "" => ""
  | String _ rs' =>
    match skip with
    | S k => TrimRightFunc_from f k rs'
    | O =>
      let '(r, n) := utf8.DecodeLastRuneRev rs in
      if f r then TrimRightFunc_from f (n - 1) rs' else rs
    end
  end.

Definition strings_TrimRightFunc (s : string) (f : N → bool) : string :=
  String.rev (TrimRightFunc_from f 0 (String.rev s)).

(** [strings.TrimSpace]: all leading and trailing white space removed, as
    defined by Unicode.  (Go runs a byte loop over ASCII first and falls back
    to [TrimFunc(s, unicode.IsSpace)]; both give the same slice.) *)
Definition strings_TrimSpace (s : string) : string :=
  strings_TrimRightFunc (strings_TrimLeftFunc s unicode_IsSpace) unicode_IsSpace.

(** [strings.Trim(s, cutset)] for a cutset of one ASCII byte. *)
Fixpoint trimLeftByte (s : string) (c : ascii) : string :=
  match s with
  | String c0 s' => if Ascii.eqb c0 c then trimLeftByte s' c else s
  | "" => ""
  end.

Definition trimRightByte (s : string) (c : ascii) : string :=
  String.rev (trimLeftByte (String.rev s) c).

Definition strings_Trim1 (s : string) (c : ascii) : string :=
  trimLeftByte (trimRightByte s c) c.

Section case_mapping.
Context `{GoLib}.

Definition rune_ToLower (r : N) : N :=
    if (r <? 0x80)%N
    then (if (0x41 <=? r)%N && (r <=? 0x5A)%N then r + 32 else r)%N
    else unicode_ToLower r.

Definition rune_ToUpper (r : N) : N :=
    if (r <? 0x80)%N
    then (if (0x61 <=? r)%N && (r <=? 0x7A)%N then r - 32 else r)%N
    else unicode_ToUpper r.

(** [strings.Map]: every rune of [s], invalid bytes read as U+FFFD, is
      mapped and written back in UTF-8. *)
Definition strings_Map (mapping : N → N) (s : string) : string :=
    foldr (λ r acc, utf8.EncodeRune (mapping r) +:+ acc) "" (utf8.runes s).

Definition strings_ToLower (s : string) : string := strings_Map rune_ToLower s.
Definition strings_ToUpper (s : string) : string := strings_Map rune_ToUpper s.
End case_mapping.

(** Go's escapes for the characters a Rocq string cannot hold directly. *)
Definition LF : string := String (ascii_of_N 10) "".
Definition DQUOTE : ascii := ascii_of_N 34.
Definition QUOTE : string := String DQUOTE "".
Definition FENCE : string := "```".

(** ** Package [fmt] *)

(** [%d] *)
Definition fmt_d (z : Z) : string := pretty z.

Fixpoint zeros (n : nat) : string :=
  match n with O => "" | S k => String "0" (zeros k) end.

(** A natural number in decimal, padded with zeros on the left to [width]. *)
Definition pad_digits (width : nat) (n : Z) : string :=
  let d := pretty n in
  zeros (width - String.length d) +:+ d.

(** [num / den] rounded to the nearest integer, halves to even. *)
Definition round_half_even (num den : Z) : Z :=
  let q := num / den in
  let r := num mod den in
  if 2 * r <? den then q
  else if den <? 2 * r then q + 1
  else if Z.even q then q else q + 1.

(** [%.<prec>f] and, with [plus], [%+.<prec>f]: the exact binary value
    rounded to [prec] decimals, halves to even. *)
Definition fmt_f (plus : bool) (prec : nat) (x : float) : string :=
  let sign (neg : bool) := if neg then "-" else if plus then "+" else "" in
  let fixed (n : Z) :=
    let scale := 10 ^ Z.of_nat prec in
    pretty (n / scale) +:+
    (if prec is O then "" else "." +:+ pad_digits prec (n mod scale)) in
  match Prim2SF x with
  | S754_nan => if plus then "+NaN" else "NaN"
  | S754_infinity neg => if neg then "-Inf" else "+Inf"
  | S754_zero neg => sign neg +:+ fixed 0
  | S754_finite neg m e =>
    let scaled := Z.pos m * 10 ^ Z.of_nat prec in
    let n := if 0 <=? e then scaled * 2 ^ e else round_half_even scaled (2 ^ (- e)) in
    sign neg +:+ fixed n
  end.

(** ** Errors (packages [errors], [net]) *)

(** The dynamic type of an error value, as far as [errors.As] in
    [isNetworkError] can tell: whether it implements [net.Error] (and what its
    [Timeout()] answers), and whether it is a [*net.DNSError] or a
    [*net.OpError]; both of these implement [net.Error] too. *)
Inductive error_type :=
  | PlainError
  | NetError (timeout : bool)
  | DNSError (timeout : bool)
  | OpError (timeout : bool).

(** An error: its dynamic type, what [Error()] returns and, for an error
    that wraps another, what [Unwrap()] returns. *)
Inductive error :=
  | NewError (ty : error_type) (msg : string)
  | WrapError (ty : error_type) (msg : string) (inner : error).

Definition Error (e : error) : string :=
  match e with NewError _ m | WrapError _ m _ => m end.

Definition Unwrap (e : error) : option error :=
  match e with NewError _ _ => None | WrapError _ _ i => Some i end.

Definition error_ty (e : error) : error_type :=
  match e with NewError t _ | WrapError t _ _ => t end.

(** [errors.New(msg)], and [fmt.Errorf] without [%w]. *)
Definition errors_New (msg : string) : error := NewError PlainError msg.

(** [fmt.Errorf(prefix + "%w", err)] *)
Definition Errorf_w (prefix : string) (err : error) : error :=
  WrapError PlainError (prefix +:+ Error err) err.

Inductive result (A : Type) :=
  | Ok (a : A)
  | Err (e : error).
Arguments Ok {A} a.
Arguments Err {A} e.

(** ** The data model ([internal/ai/types.go]) *)

Record RiskLimits := {
  MaxDailyLossPercent : float;
  MaxPositionNotionalUSD : float;
  MaxConcurrentPositions : Z;
  MaxLeverage : float;
  BtcEthNotionalMultiple : float;
  AltNotionalMultiple : float;
  MinRiskRewardRatio : float;
}.

Record AdjustmentPlan := {
  SizeMultiplier : float;
  TargetLeverage : float;
  StopLossPercent : float;
  TakeProfitPercent : float;
  TrailingStopPercent : float;
}.

Record DecisionResponse := {
  Action : string;
  Confidence : float;
  Reason : string;
  Adjustments : AdjustmentPlan;
  RiskNotes : list string;
  RawContent : string;
  CoTTrace : string;
}.

Definition zero_AdjustmentPlan : AdjustmentPlan :=
  {| SizeMultiplier := 0; TargetLeverage := 0; StopLossPercent := 0;
     TakeProfitPercent := 0; TrailingStopPercent := 0 |}%float.

(** [ai.DecisionResponse{}] *)
Definition zero_DecisionResponse : DecisionResponse :=
  {| Action := ""; Confidence := 0%float; Reason := "";
     Adjustments := zero_AdjustmentPlan; RiskNotes := [];
     RawContent := ""; CoTTrace := "" |}.

(** ** Decision validation *)

#[local] Set Warnings "-inexact-float".

Definition validActions : gset string :=
  {[ "open_long"; "open_short"; "increase_long"; "increase_short";
     "close"; "exit"; "reduce"; "hold"; "wait" ]}.

Section validation.
Context `{GoLib}.
  #[local] Open Scope float_scope.

(** [validateDecisionResponse]: [None] is Go's [nil]. *)
Definition validateDecisionResponse
      (decision : DecisionResponse) (limits : RiskLimits) : option error :=
    let action := strings_ToLower (strings_TrimSpace (Action decision)) in
    if negb (bool_decide (action ∈ validActions)) && negb (String.eqb action "")
    then Some (errors_New ("未知 action: " +:+ Action decision)) else
    let targetLev := TargetLeverage (Adjustments decision) in
    if targetLev <? 0
    then Some (errors_New "targetLeverage 不得为负数") else
    if (0 <? MaxLeverage limits) && (MaxLeverage limits <? targetLev)
    then Some (errors_New ("targetLeverage " +:+ fmt_f false 2 targetLev +:+
                           " 超过上限 " +:+ fmt_f false 2 (MaxLeverage limits)))
    else
    let sl := StopLossPercent (Adjustments decision) in
    let tp := TakeProfitPercent (Adjustments decision) in
    if (0 <? sl) && (0 <? tp) && (0 <? MinRiskRewardRatio limits)
       && (tp / sl + 1e-9 <? MinRiskRewardRatio limits)
    then Some (errors_New ("风险回报 " +:+ fmt_f false 2 (tp / sl) +:+
                           " 低于要求 " +:+
                           fmt_f false 2 (MinRiskRewardRatio limits)))
    else None.
End validation.


(** A decision that differs from [d] in [Confidence] only. *)
Definition with_Confidence (c : float) (d : DecisionResponse) : DecisionResponse :=
  {| Action := Action d; Confidence := c; Reason := Reason d;
     Adjustments := Adjustments d; RiskNotes := RiskNotes d;
     RawContent := RawContent d; CoTTrace := CoTTrace d |}.

Section validation_predicates.
Context `{GoLib}.
  #[local] Open Scope float_scope.

(** The action as validation compares it. *)
Definition normalized_action (d : DecisionResponse) : string :=
    strings_ToLower (strings_TrimSpace (Action d)).

Definition action_ok (d : DecisionResponse) : bool :=
    bool_decide (normalized_action d ∈ validActions)
    || String.eqb (normalized_action d) "".

Definition leverage_ok (d : DecisionResponse) (limits : RiskLimits) : bool :=
    negb (TargetLeverage (Adjustments d) <? 0)
    && negb ((0 <? MaxLeverage limits)
             && (MaxLeverage limits <? TargetLeverage (Adjustments d))).

(** The error validation returns for an action outside the enumeration. *)
Definition unknown_action_error (d : DecisionResponse) : error :=
    errors_New ("未知 action: " +:+ Action d).

(** The error of the risk/reward veto. *)
Definition risk_reward_error (d : DecisionResponse) (limits : RiskLimits) : error :=
    errors_New ("风险回报 " +:+
                fmt_f false 2 (TakeProfitPercent (Adjustments d)
                               / StopLossPercent (Adjustments d)) +:+
                " 低于要求 " +:+ fmt_f false 2 (MinRiskRewardRatio limits)).
End validation_predicates.

(** A decision and limits for examples: only the fields validation reads vary. *)
Definition example_decision (action : string) (lev sl tp : float) : DecisionResponse :=
  {| Action := action; Confidence := 0%float; Reason := "";
     Adjustments := {| SizeMultiplier := 1%float; TargetLeverage := lev;
                       StopLossPercent := sl; TakeProfitPercent := tp;
                       TrailingStopPercent := 0%float |};
     RiskNotes := []; RawContent := ""; CoTTrace := "" |}.

Definition example_limits (maxLev minRR : float) : RiskLimits :=
  {| MaxDailyLossPercent := 0%float; MaxPositionNotionalUSD := 0%float;
     MaxConcurrentPositions := 0; MaxLeverage := maxLev;
     BtcEthNotionalMultiple := 0%float; AltNotionalMultiple := 0%float;
     MinRiskRewardRatio := minRR |}.

(** An instance of the library parameters, for closed examples.  The case
    tables leave every rune from U+0080 on unchanged. *)
Definition example_lib : GoLib :=
  {| unicode_ToLower := λ r, r; unicode_ToUpper := λ r, r;
     strconv_shortest_g := λ _, ""; json_encode_float := λ _, "";
     int_of_float_unspecified := λ _, 0 |}.

(** ** Prompt synthesis *)

Record PerformanceStats := {
  SharpeRatio : float;
  WinRate : float;
  TotalTrades : Z;
  ProfitFactor : float;
}.

Module PositionSnapshot.
Record t := {
  Symbol : string;
  Side : string;
  Quantity : float;
  EntryPrice : float;
  Leverage : float;
  UnrealizedPNL : float;
}.
End PositionSnapshot.

Module AccountContext.
Record t := {
  TotalEquity : float;
  Available : float;
  UnrealizedPNL : float;
  DailyRealized : float;
  MaxDrawdown : float;
  MarginUsage : float;
}.
End AccountContext.

Module PositionContext.
Record t := {
  Symbol : string;
  Side : string;
  Quantity : float;
  EntryPrice : float;
  Leverage : float;
  UnrealizedPNL : float;
  HoldingMinutes : Z;
  MarkPrice : float;
  UnrealizedPct : float;
  MarginUsed : float;
  Liquidation : float;
}.
End PositionContext.

Module CandidateContext.
Record t := {
  Symbol : string;
  Weight : float;
  Reason : string;
}.
End CandidateContext.

Module MarketDataSnapshot.
Record t := {
  Symbol : string;
  CurrentPrice : float;
  PriceChange1h : float;
  PriceChange4h : float;
  EMA20 : float;
  MACD : float;
  MACDSignal : float;
  RSI7 : float;
  RSI14 : float;
  FundingRate : float;
  OpenInterest : float;
  Volume24h : float;
  DataInterval : string;
}.
(** The zero value, which indexing a map yields for a missing key. *)
Definition zero : t :=
  {| Symbol := ""; CurrentPrice := 0; PriceChange1h := 0; PriceChange4h := 0;
     EMA20 := 0; MACD := 0; MACDSignal := 0; RSI7 := 0; RSI14 := 0;
     FundingRate := 0; OpenInterest := 0; Volume24h := 0; DataInterval := "" |}%float.
End MarketDataSnapshot.

Module OITopSnapshot.
Record t := {
  Symbol : string;
  Rank : Z;
  OpenInterest : float;
  Notional : float;
}.
End OITopSnapshot.

Module DecisionContext.
Record t := {
  CurrentTime : string;
  RuntimeMinutes : Z;
  CallCount : Z;
  Account : AccountContext.t;
  Positions : list PositionContext.t;
  CandidateCoins : list CandidateContext.t;
  MarketData : gmap string MarketDataSnapshot.t;
  OITopData : gmap string OITopSnapshot.t;
  Performance : PerformanceStats;
  BTCETHLeverage : Z;
  AltcoinLeverage : Z;
  MarginUsage : float;
  InitialEquity : float;
  PnLPercent : float;
}.
End DecisionContext.

(** [news.SentimentSummary] *)
Module SentimentSummary.
Record t := {
  Sentiment : string;
  Score : float;
  Highlights : list string;
  RiskFactors : list string;
}.
End SentimentSummary.

Module DecisionRequest.
Record t := {
  TraderName : string;
  Exchange : string;
  Symbol : string;
  CurrentPrice : float;
  StrategySignal : string;
  AccountBalance : float;
  AvailableBalance : float;
  UnrealizedPNL : float;
  Positions : list PositionSnapshot.t;
  LearningSnippets : list string;
  NewsSentiment : SentimentSummary.t;
  Limits : RiskLimits;  (* the field [RiskLimits] *)
  Ctx : DecisionContext.t;  (* the field [Context] *)
}.
End DecisionRequest.

(** [promptContext] *)
Module promptContext.
Record t := {
  Request : DecisionRequest.t;
  Performance : PerformanceStats;
  Positions : list PositionContext.t;
}.
End promptContext.

Definition newPromptContext (req : DecisionRequest.t)
    (performance : PerformanceStats) (positions : list PositionContext.t)
    : promptContext.t :=
  {| promptContext.Request := req;
     promptContext.Performance := performance;
     promptContext.Positions := positions |}.

(** A [strings.Builder]: the strings written, in order; [String()] is their
    concatenation. *)
Definition Builder_String (writes : list string) : string :=
  foldr String.append "" writes.

(** [len] of a slice, as an [int]. *)
Definition len {A} (l : list A) : Z := Z.of_nat (List.length l).

(** [int(x)] for a [float64]: truncation toward zero where the result fits. *)
Definition int_of_float `{GoLib} (x : float) : Z :=
  match Prim2SF x with
  | S754_zero _ => 0
  | S754_finite neg m e =>
    let mag := if 0 <=? e then Z.pos m * 2 ^ e else Z.pos m / 2 ^ (- e) in
    let v := if neg then - mag else mag in
    if (- 2 ^ 63 <=? v) && (v <? 2 ^ 63) then v else int_of_float_unspecified x
  | _ => int_of_float_unspecified x
  end.

Definition formatNewsSummary (sentiment : string) (score : float) : string :=
  if String.eqb sentiment "" then "无"
  else if (score =? 0)%float then sentiment
  else sentiment +:+ "(" +:+ fmt_f false 2 score +:+ ")".

(** The four directive bundles of the reflection policy, in the order in
    which [buildReflectionPrompt] tests for them. *)
Definition directive_halt : string :=
  Builder_String [
    "**夏普比率 < -0.5** (持续亏损):" +:+ LF;
    "  → 🛑 停止交易，连续观望至少6个周期（18分钟）" +:+ LF;
    "  → 🔍 深度反思：" +:+ LF;
    "     • 交易频率过高？（每小时>2次就是过度）" +:+ LF;
    "     • 持仓时间过短？（<30分钟就是过早平仓）" +:+ LF;
    "     • 信号强度不足？（信心度<75）" +:+ LF;
    "     • 是否在做空？（单边做多是错误的）" +:+ LF +:+ LF ].

Definition directive_caution : string :=
  Builder_String [
    "**夏普比率 -0.5 ~ 0** (轻微亏损):" +:+ LF;
    "  → ⚠️ 严格风控：信心度>80，每小时≤1笔" +:+ LF;
    "  → 📉 降低风险：减少仓位规模，提高止损比例" +:+ LF +:+ LF ].

Definition directive_steady : string :=
  Builder_String [
    "**夏普比率 0 ~ 0.7** (稳定盈利):" +:+ LF;
    "  → ✅ 维持策略：继续当前交易模式" +:+ LF;
    "  → 📈 小幅优化：寻找改进机会" +:+ LF +:+ LF ].

Definition directive_expand : string :=
  Builder_String [
    "**夏普比率 > 0.7** (优秀表现):" +:+ LF;
    "  → 🚀 优化扩张：适度扩大仓位，复制成功模式" +:+ LF +:+ LF ].

Section prompts.
Context `{GoLib}.
#[local] Open Scope float_scope.

(** One line of the holding analysis in [buildReflectionPrompt]; positions
    that are not held for a positive number of minutes write nothing. *)
Definition reflection_position_line (pos : PositionContext.t) : string :=
  if (0 <? PositionContext.HoldingMinutes pos)%Z then
    let holdingText :=
      if (PositionContext.HoldingMinutes pos <? 60)%Z
      then "持仓" +:+ fmt_d (PositionContext.HoldingMinutes pos) +:+ "分钟"
      else
        let durationHour := (PositionContext.HoldingMinutes pos ÷ 60)%Z in
        let durationMinRemainder := Z.rem (PositionContext.HoldingMinutes pos) 60 in
        "持仓" +:+ fmt_d durationHour +:+ "小时" +:+
        fmt_d durationMinRemainder +:+ "分钟" in
    "- " +:+ PositionContext.Symbol pos +:+ " " +:+
    strings_ToUpper (PositionContext.Side pos) +:+ ": " +:+ holdingText +:+
    ", 盈亏" +:+ fmt_f true 2 (PositionContext.UnrealizedPct pos) +:+ "%" +:+ LF
  else "".

(** [buildReflectionPrompt] *)
Definition buildReflectionPrompt (sharpeRatio : float)
    (performance : PerformanceStats) (positions : list PositionContext.t) : string :=
  Builder_String [
    "## 📊 夏普比率驱动的反思框架" +:+ LF +:+ LF;
    (if sharpeRatio <? -0.5 then directive_halt
     else if sharpeRatio <? 0 then directive_caution
     else if sharpeRatio <? 0.7 then directive_steady
     else directive_expand);
    "## 📏 多维度反思指标" +:+ LF +:+ LF;
    "**量化标准**:" +:+ LF;
    "- 优秀交易员：每天2-4笔 = 每小时0.1-0.2笔" +:+ LF;
    "- 过度交易：每小时>2笔 = 严重问题" +:+ LF;
    "- 最佳节奏：开仓后持有至少30-60分钟" +:+ LF +:+ LF;
    "**自查**:" +:+ LF;
    "如果你发现自己每个周期都在交易 → 说明标准太低" +:+ LF +:+ LF;
    "**开仓标准（严格）**:" +:+ LF;
    "- 信心度 ≥ 75（100为极度自信）" +:+ LF;
    "- 多维度确认（价格+指标+量+OI+趋势）" +:+ LF;
    "- 风险回报比 ≥ 1:3（硬性要求）" +:+ LF;
    "- 避免单一指标决策" +:+ LF +:+ LF;
    "**避免低质量信号**:" +:+ LF;
    "- 单一维度（只看一个指标）" +:+ LF;
    "- 相互矛盾（涨但量萎缩）" +:+ LF;
    "- 横盘震荡" +:+ LF +:+ LF;
    (if (0 <? len positions)%Z then
       Builder_String [
         "## ⏰ 当前持仓分析" +:+ LF;
         Builder_String (map reflection_position_line positions);
         LF ]
     else "");
    "## 🔄 反思执行流程" +:+ LF;
    "1. **分析夏普比率**: 当前策略是否有效？需要调整吗？" +:+ LF;
    "2. **评估持仓**: 趋势是否改变？是否该止盈/止损？" +:+ LF;
    "3. **寻找新机会**: 有强信号吗？多空机会？" +:+ LF;
    "4. **输出决策**: 思维链分析 + JSON" +:+ LF +:+ LF ].

(** [buildSystemPrompt] *)
Definition buildSystemPrompt (accountEquity : float)
    (btcEthLeverage altcoinLeverage : Z) (limits : RiskLimits)
    (performance : PerformanceStats) (positions : list PositionContext.t) : string :=
  let btcEthLeverage :=
    if (btcEthLeverage <=? 0)%Z then int_of_float (MaxLeverage limits)
    else btcEthLeverage in
  let btcEthLeverage := if (btcEthLeverage <=? 0)%Z then 5%Z else btcEthLeverage in
  let altcoinLeverage :=
    if (altcoinLeverage <=? 0)%Z then btcEthLeverage else altcoinLeverage in
  Builder_String [
    "你是专业的加密货币交易AI，在币安合约市场进行自主交易。" +:+ LF +:+ LF;
    "# 🎯 核心目标" +:+ LF +:+ LF;
    "**最大化夏普比率（Sharpe Ratio）**，并保持资本曲线稳定。" +:+ LF +:+ LF;
    buildReflectionPrompt (SharpeRatio performance) performance positions;
    "# 📏 硬性约束" +:+ LF +:+ LF;
    "- 所有决策必须以 JSON 形式输出，且字段完整。" +:+ LF;
    "- 必须严格遵守风险参数：" +:+ LF;
    "  * BTC/ETH 最大杠杆 " +:+ fmt_d btcEthLeverage +:+ "x，名义仓位上限 " +:+
      fmt_f false 1 (BtcEthNotionalMultiple limits) +:+ " × 账户净值。" +:+ LF;
    "  * 山寨币最大杠杆 " +:+ fmt_d altcoinLeverage +:+ "x，名义仓位上限 " +:+
      fmt_f false 1 (AltNotionalMultiple limits) +:+ " × 账户净值。" +:+ LF;
    (if 0 <? MaxPositionNotionalUSD limits then
       "  * 单笔名义价值不得超过 " +:+ fmt_f false 2 (MaxPositionNotionalUSD limits)
       +:+ " USDT。" +:+ LF
     else "");
    (if (0 <? MaxConcurrentPositions limits)%Z then
       "  * 最大同时持仓数：" +:+ fmt_d (MaxConcurrentPositions limits) +:+ "。" +:+ LF
     else "");
    (if 0 <? MinRiskRewardRatio limits then
       "  * 止盈/止损需满足风险回报 ≥ " +:+ fmt_f false 1 (MinRiskRewardRatio limits)
       +:+ "。" +:+ LF
     else "");
    (if 0 <? accountEquity then
       "- 当前账户净值≈" +:+ fmt_f false 2 accountEquity +:+
       " USDT，请优先考虑 8~10 USDT 保证金的开仓规模。" +:+ LF
     else "");
    LF +:+ "# ✅ 决策必备字段" +:+ LF +:+ LF;
    "返回 JSON 时必须包含 action、confidence、reason、adjustments{sizeMultiplier,targetLeverage,stopLossPercent,takeProfitPercent,trailingStopPercent} 以及 riskNotes。" +:+ LF;
    "若无信号，请返回 action=" +:+ QUOTE +:+ "wait" +:+ QUOTE +:+ " 并说明理由。" +:+ LF ].

End prompts.

(** [json.Marshal] of a [RiskLimits]; the empty string stands for the [nil]
    that [Marshal] returns, with an error the caller drops, when a field is
    NaN or infinite. *)
Definition float_is_finite (x : float) : bool :=
  match Prim2SF x with
  | S754_nan | S754_infinity _ => false
  | _ => true
  end.

Definition json_Marshal_RiskLimits `{GoLib} (l : RiskLimits) : string :=
  if forallb float_is_finite
       [MaxDailyLossPercent l; MaxPositionNotionalUSD l; MaxLeverage l;
        BtcEthNotionalMultiple l; AltNotionalMultiple l; MinRiskRewardRatio l]
  then
    Builder_String [
      "{"; QUOTE; "maxDailyLossPercent"; QUOTE; ":";
      json_encode_float (MaxDailyLossPercent l);
      ","; QUOTE; "maxPositionNotionalUsd"; QUOTE; ":";
      json_encode_float (MaxPositionNotionalUSD l);
      ","; QUOTE; "maxConcurrentPositions"; QUOTE; ":";
      fmt_d (MaxConcurrentPositions l);
      ","; QUOTE; "maxLeverage"; QUOTE; ":"; json_encode_float (MaxLeverage l);
      ","; QUOTE; "btcEthNotionalMultiple"; QUOTE; ":";
      json_encode_float (BtcEthNotionalMultiple l);
      ","; QUOTE; "altNotionalMultiple"; QUOTE; ":";
      json_encode_float (AltNotionalMultiple l);
      ","; QUOTE; "minRiskRewardRatio"; QUOTE; ":";
      json_encode_float (MinRiskRewardRatio l);
      "}" ]
  else "".

(** [sort.Strings] *)
Definition sort_Strings (l : list string) : list string :=
  merge_sort String.le l.

Section user_prompt.
Context `{GoLib}.
#[local] Open Scope float_scope.

Definition user_position_lines (idx : nat) (pos : PositionContext.t) : string :=
  let holdingText :=
    if (0 <? PositionContext.HoldingMinutes pos)%Z
    then " | 持仓" +:+ fmt_d (PositionContext.HoldingMinutes pos) +:+ "分钟"
    else "" in
  let liquidation :=
    if 0 <? PositionContext.Liquidation pos
    then fmt_f false 4 (PositionContext.Liquidation pos)
    else "--" in
  Builder_String [
    fmt_d (Z.of_nat idx + 1) +:+ ". " +:+ PositionContext.Symbol pos +:+ " " +:+
    strings_ToUpper (PositionContext.Side pos) +:+
    " | 入场价" +:+ fmt_f false 4 (PositionContext.EntryPrice pos) +:+
    " 当前价" +:+ fmt_f false 4 (PositionContext.MarkPrice pos) +:+
    " | 盈亏" +:+ fmt_f true 2 (PositionContext.UnrealizedPct pos) +:+ "%" +:+
    " | 杠杆" +:+ fmt_f false 1 (PositionContext.Leverage pos) +:+ "x" +:+
    " | 保证金" +:+ fmt_f false 2 (PositionContext.MarginUsed pos) +:+
    " | 强平价" +:+ liquidation +:+ holdingText +:+ LF;
    "- 数量" +:+ fmt_f false 4 (PositionContext.Quantity pos) +:+
    " | 未实现PnL " +:+ fmt_f true 2 (PositionContext.UnrealizedPNL pos) +:+
    LF +:+ LF ].

Definition market_data_line (m : gmap string MarketDataSnapshot.t)
    (symbol : string) : string :=
  let snapshot := default MarketDataSnapshot.zero (m !! symbol) in
  "- " +:+ symbol +:+
  " 现价" +:+ fmt_f false 4 (MarketDataSnapshot.CurrentPrice snapshot) +:+
  " 1h:" +:+ fmt_f true 2 (MarketDataSnapshot.PriceChange1h snapshot) +:+ "%" +:+
  " 4h:" +:+ fmt_f true 2 (MarketDataSnapshot.PriceChange4h snapshot) +:+ "%" +:+
  " EMA20=" +:+ fmt_f false 2 (MarketDataSnapshot.EMA20 snapshot) +:+
  " MACD=" +:+ fmt_f false 4 (MarketDataSnapshot.MACD snapshot) +:+
  " RSI7=" +:+ fmt_f false 2 (MarketDataSnapshot.RSI7 snapshot) +:+
  " RSI14=" +:+ fmt_f false 2 (MarketDataSnapshot.RSI14 snapshot) +:+
  " Funding=" +:+ fmt_f false 5 (MarketDataSnapshot.FundingRate snapshot) +:+
  " OI=" +:+ fmt_f false 2 (MarketDataSnapshot.OpenInterest snapshot) +:+ LF.

(** [buildUserPrompt].  Besides its argument the Go function reads two things
    from its surroundings, which are arguments here: [now], the text of
    [time.Now().Format("2006-01-02 15:04:05")], and [rangeOrder], the order in
    which [for symbol := range context.MarketData] delivers the keys of the
    map (any order of the keys, chosen by the runtime at each call). *)
Definition buildUserPrompt (now : string) (rangeOrder : list string)
    (ctx : promptContext.t) : string :=
  let request := promptContext.Request ctx in
  let context := DecisionRequest.Ctx request in
  let newsSummary :=
    formatNewsSummary
      (SentimentSummary.Sentiment (DecisionRequest.NewsSentiment request))
      (SentimentSummary.Score (DecisionRequest.NewsSentiment request)) in
  let account := DecisionContext.Account context in
  Builder_String [
    "**时间**: " +:+ now +:+ " | **运行**: " +:+
      fmt_d (DecisionContext.RuntimeMinutes context) +:+ "分钟 | **周期**: #" +:+
      fmt_d (DecisionContext.CallCount context) +:+ LF +:+ LF;
    "**账户**: 净值" +:+ fmt_f false 2 (AccountContext.TotalEquity account) +:+
      " | 可用" +:+ fmt_f false 2 (AccountContext.Available account) +:+
      " | 未实现PnL " +:+ fmt_f true 2 (AccountContext.UnrealizedPNL account) +:+
      " | 持仓" +:+ fmt_d (len (DecisionContext.Positions context)) +:+ "个" +:+
      LF +:+ LF;
    "**交易对**: " +:+ DecisionRequest.Symbol request +:+
      " (" +:+ strings_ToUpper (DecisionRequest.Exchange request) +:+ ")" +:+
      " | 当前价格 " +:+ fmt_f false 2 (DecisionRequest.CurrentPrice request) +:+
      " | 策略信号 " +:+ DecisionRequest.StrategySignal request +:+ LF +:+ LF;
    (if (0 <? len (DecisionContext.Positions context))%Z then
       Builder_String [
         "## 持仓明细" +:+ LF;
         Builder_String (imap user_position_lines (DecisionContext.Positions context)) ]
     else "## 持仓明细" +:+ LF +:+ "- 当前空仓" +:+ LF +:+ LF);
    (if negb (String.eqb newsSummary "") && negb (String.eqb newsSummary "无") then
       Builder_String [
         "## 新闻情绪" +:+ LF +:+ "- 总结: " +:+ newsSummary +:+ LF;
         Builder_String
           (map (λ highlight, "- " +:+ highlight +:+ LF)
              (SentimentSummary.Highlights (DecisionRequest.NewsSentiment request)));
         LF ]
     else "");
    (if (0 <? len (DecisionRequest.LearningSnippets request))%Z then
       Builder_String [
         "## 历史学习片段" +:+ LF;
         Builder_String
           (map (λ snippet, "- " +:+ snippet +:+ LF)
              (DecisionRequest.LearningSnippets request));
         LF ]
     else "");
    (if (0 <? len (DecisionContext.CandidateCoins context))%Z then
       Builder_String [
         "## 候选币种" +:+ LF;
         Builder_String
           (map (λ coin, "- " +:+ CandidateContext.Symbol coin +:+
                         " 权重" +:+ fmt_f false 2 (CandidateContext.Weight coin) +:+
                         " 理由:" +:+ CandidateContext.Reason coin +:+ LF)
              (DecisionContext.CandidateCoins context));
         LF ]
     else "");
    (if (0 <? Z.of_nat (size (DecisionContext.MarketData context)))%Z then
       let symbols := sort_Strings rangeOrder in
       Builder_String [
         "## 市场数据快照" +:+ LF;
         Builder_String
           (map (market_data_line (DecisionContext.MarketData context)) symbols);
         LF ]
     else "");
    (if (0 <? TotalTrades (DecisionContext.Performance context))%Z then
       Builder_String [
         "## 历史绩效" +:+ LF;
         "- 交易次数: " +:+ fmt_d (TotalTrades (DecisionContext.Performance context)) +:+ LF +:+
         "- 胜率: " +:+
           fmt_f false 2 (WinRate (DecisionContext.Performance context) * 100) +:+
           "%" +:+ LF +:+
         "- 夏普比: " +:+
           fmt_f false 2 (SharpeRatio (DecisionContext.Performance context)) +:+ LF +:+
         "- Profit Factor: " +:+
           fmt_f false 2 (ProfitFactor (DecisionContext.Performance context)) +:+
           LF +:+ LF ]
     else "");
    "## 系统约束" +:+ LF;
    FENCE +:+ "json" +:+ LF +:+
      json_Marshal_RiskLimits (DecisionRequest.Limits request) +:+ LF +:+
      FENCE +:+ LF ].

End user_prompt.

(** ** Resilient invocation *)

Definition maxRetries : Z := 3.

(** [2 * time.Second], a [time.Duration] in nanoseconds *)
Definition baseRetryDelay : Z := 2 * 1000000000.

(** [errors.As]: the first error of the chain whose dynamic type passes
    [target]. *)
Fixpoint errors_As (target : error_type → bool) (err : error) : option error :=
  if target (error_ty err) then Some err else
  match err with
  | WrapError _ _ inner => errors_As target inner
  | NewError _ _ => None
  end.

Definition implements_net_Error (ty : error_type) : bool :=
  match ty with PlainError => false | _ => true end.

Definition Timeout (ty : error_type) : bool :=
  match ty with
  | NetError t | DNSError t | OpError t => t
  | PlainError => false
  end.

Definition is_DNSError (ty : error_type) : bool :=
  match ty with DNSError _ => true | _ => false end.

Definition is_OpError (ty : error_type) : bool :=
  match ty with OpError _ => true | _ => false end.

(** [isNetworkError]; [None] is a [nil] error. *)
Definition isNetworkError (err : option error) : bool :=
  match err with
  | None => false
  | Some err =>
    if match errors_As implements_net_Error err with
       | Some netErr => Timeout (error_ty netErr)
       | None => false
       end
    then true
    else if bool_decide (is_Some (errors_As is_DNSError err)) then true
    else if bool_decide (is_Some (errors_As is_OpError err)) then true
    else if strings_Contains (Error err) "connection"
            || strings_Contains (Error err) "network"
            || strings_Contains (Error err) "timeout"
            || strings_Contains (Error err) "reset"
            || strings_Contains (Error err) "refused"
    then true
    else false
  end.

Record completionMessage := {
  Role : string;
  Content : string;
}.

(** [completionResponse]: the messages of [choices], and the message of
    [error] when the field is present. *)
Record completionResponse := {
  Choices : list completionMessage;
  ErrorField : option string;
}.

(** [config.DeepseekConfig] *)
Record DeepseekConfig := {
  Enabled : bool;
  BaseURL : string;
  Model : string;
  Temperature : float;
  TopP : float;
  MaxTokens : Z;
}.

(** [Client]; the logger only writes log lines and is left out. *)
Record Client := {
  mcpClient : option string;  (* the base URL of the [*mcp.Client], or [nil] *)
  cfg : DeepseekConfig;
  apiKey : string;
}.

(** What a call of [mcp.Client.PostJSON] meets outside the program: the
    request cannot be built, the transport fails, or a response with a status
    code arrives whose body decodes into a [completionResponse] or does not. *)
Inductive exchange :=
  | MarshalFails (e : error)
  | NewRequestFails (e : error)
  | DoFails (e : error)
  | Response (status : Z) (body : result completionResponse).

(** The world around a call: what each call of [PostJSON] in turn meets, how
    many calls were made, and the sleeps made so far (oldest first). *)
Record World := {
  exchanges : nat → exchange;
  calls : nat;
  slept : list Z;
}.

Definition time_Sleep (d : Z) (w : World) : World :=
  {| exchanges := exchanges w; calls := calls w; slept := slept w ++ [d] |}.

(** [mcp.Client.PostJSON] for the completion request. *)
Definition PostJSON (c : option string) (w : World)
    : result completionResponse * World :=
  match c with
  | None => (Err (errors_New "mcp client is nil"), w)
  | Some _ =>
    let w' := {| exchanges := exchanges w; calls := S (calls w);
                 slept := slept w |} in
    match exchanges w (calls w) with
    | MarshalFails e => (Err (Errorf_w "marshal request: " e), w')
    | NewRequestFails e => (Err (Errorf_w "new request: " e), w')
    | DoFails e => (Err (Errorf_w "do request: " e), w')
    | Response status body =>
      if 400 <=? status
      then (Err (errors_New ("http status " +:+ fmt_d status)), w')
      else match body with
           | Err e => (Err (Errorf_w "decode response: " e), w')
           | Ok payload => (Ok payload, w')
           end
    end
  end.

Definition zero_completionMessage : completionMessage :=
  {| Role := ""; Content := "" |}.

(** [sendCompletion] *)
Definition sendCompletion (c : Client) (messages : list completionMessage)
    (w : World) : result completionMessage * World :=
  if len messages =? 0 then (Err (errors_New "messages为空"), w) else
  if String.eqb (apiKey c) "" then (Err (errors_New "deepseek api key 未设置"), w) else
  match PostJSON (mcpClient c) w with
  | (Err err, w) => (Err (Errorf_w "deepseek request: " err), w)
  | (Ok payload, w) =>
    match ErrorField payload with
    | Some message => (Err (errors_New message), w)
    | None =>
      match Choices payload with
      | [] => (Err (errors_New "deepseek无返回结果"), w)
      | result :: _ => (Ok result, w)
      end
    end
  end.

(** The loop of [CallWithMessages], with [remaining] iterations to go. *)
Fixpoint retry_loop (c : Client) (messages : list completionMessage)
    (remaining : nat) (attempt : Z) (lastErr : option error) (w : World)
    : result string * World :=
  match remaining with
  | O =>
    let prefix := "重试" +:+ fmt_d maxRetries +:+ "次后仍然失败: " in
    match lastErr with
    | Some e => (Err (Errorf_w prefix e), w)
    | None => (Err (errors_New (prefix +:+ "%!w(<nil>)")), w)
    end
  | S remaining =>
    match sendCompletion c messages w with
    | (Ok response, w) => (Ok (Content response), w)
    | (Err err, w) =>
      if isNetworkError (Some err)
      then retry_loop c messages remaining (attempt + 1) (Some err)
             (time_Sleep (attempt * baseRetryDelay) w)
      else (Err err, w)
    end
  end.

(** [CallWithMessages]; [None] is a [nil] client. *)
Definition CallWithMessages (c : option Client) (systemPrompt userPrompt : string)
    (w : World) : result string * World :=
  match c with
  | None => (Err (errors_New "deepseek client is nil"), w)
  | Some c =>
    if String.eqb (apiKey c) "" then (Err (errors_New "deepseek api key 未设置"), w) else
    let messages := [ {| Role := "system"; Content := systemPrompt |};
                      {| Role := "user"; Content := userPrompt |} ] in
    retry_loop c messages (Z.to_nat maxRetries) 1 None w
  end.

(** ** Response parsing: fences and the reasoning trace *)

Section fences.
Context `{GoLib}.

(** [trimJSONFences] *)
Definition trimJSONFences (s : string) : string :=
  let trimmed := strings_TrimSpace s in
  if strings_HasPrefix trimmed FENCE then
    let trimmed := strings_TrimPrefix trimmed FENCE in
    let trimmed := strings_TrimSpace trimmed in
    let lower := strings_ToLower trimmed in
    let trimmed :=
      if strings_HasPrefix lower "json" then
        let idx := strings_Index trimmed LF in
        if negb (idx =? -1)
        then string_drop (Z.to_nat (idx + 1)) trimmed
        else ""
      else trimmed in
    let trimmed := strings_TrimSpace trimmed in
    let trimmed :=
      if strings_HasSuffix trimmed FENCE
      then strings_TrimSuffix trimmed FENCE else trimmed in
    strings_TrimSpace trimmed
  else trimmed.

(** [extractCoTTrace] *)
Definition extractCoTTrace (raw : string) : string :=
  let trimmed := strings_TrimSpace raw in
  let lower := strings_ToLower trimmed in
  let trimmed :=
    if strings_HasPrefix lower (FENCE +:+ "json") then
      let idx := strings_Index trimmed LF in
      if negb (idx =? -1)
      then strings_TrimSpace (string_drop (Z.to_nat (idx + 1)) trimmed)
      else trimmed
    else trimmed in
  let idx := strings_Index trimmed "{" in
  if idx <=? 0 then "" else
  let trace := strings_TrimSpace (string_take (Z.to_nat idx) trimmed) in
  let trace := strings_Trim1 trace "`" in
  strings_TrimSpace trace.

End fences.

(** ** Package [strconv]: decimal numbers to [float64] *)

Definition is_digit (c : ascii) : bool :=
  (0x30 <=? utf8.byte c)%N && (utf8.byte c <=? 0x39)%N.

Fixpoint span_digits (s : string) : string * string :=
  match s with
  | String c s' =>
    if is_digit c then let '(ds, rest) := span_digits s' in (String c ds, rest)
    else ("", s)
  | "" => ("", "")
  end.

(** The value of a string of decimal digits. *)
Definition digits_value (ds : string) : Z :=
  (fix go (acc : Z) (s : string) : Z :=
     match s with
     | String c s' => go (10 * acc + Z.of_N (utf8.byte c - 0x30)) s'
     | "" => acc
     end) 0 ds.

(** [num / den], for positive [num] and [den], rounded to binary64 by
    round-to-nearest-even.  The quotient is taken with at least 64 bits and a
    sticky bit below them. *)
Definition round_ratio (neg : bool) (num den : Z) : spec_float :=
  let k := Z.max 0 (66 + Z.log2 den - Z.log2 num) in
  let q := (num * 2 ^ k) / den in
  let r := (num * 2 ^ k) mod den in
  match 2 * q + (if r =? 0 then 0 else 1) with
  | Z.pos m => SpecFloat.binary_round 53 1024 neg m (- k - 1)
  | _ => S754_zero neg
  end.

(** [strconv.ParseFloat(lit, 64)] on a literal of JSON's number grammar:
    the nearest [float64], and [None] for the range error Go reports when the
    value rounds to an infinity. *)
Definition strconv_ParseFloat (lit : string) : option float :=
  let '(neg, s) :=
    match lit with String "-" s => (true, s) | _ => (false, lit) end in
  let '(int_digits, s) := span_digits s in
  let '(frac_digits, s) :=
    match s with String "." s => span_digits s | _ => ("", s) end in
  let exp10 :=
    match s with
    | String _ (String "-" s) => - digits_value s
    | String _ (String "+" s) => digits_value s
    | String _ s => digits_value s
    | "" => 0
    end in
  let mant := digits_value (int_digits +:+ frac_digits) in
  let e := exp10 - Z.of_nat (String.length frac_digits) in
  let sf :=
    if mant =? 0 then S754_zero neg
    else if 0 <=? e then round_ratio neg (mant * 10 ^ e) 1
    else round_ratio neg mant (10 ^ (- e)) in
  match sf with
  | S754_infinity _ | S754_nan => None
  | _ => Some (SF2Prim sf)
  end.

(** ** Package [encoding/json]: syntax *)

(** A JSON value.  A string holds its contents after unquoting, a number its
    literal; each member of an object holds its key after unquoting and the
    text of its value as it stands in the input (what a [json.RawMessage]
    field receives). *)
Inductive json :=
  | JNull
  | JBool (b : bool)
  | JNumber (lit : string)
  | JString (s : string)
  | JArray (elems : list json)
  | JObject (members : list (string * (string * json))).

Inductive parse_result (A : Type) :=
  | Parsed (a : A)
  | SyntaxError
  | OutOfFuel.
Arguments Parsed {A} a.
Arguments SyntaxError {A}.
Arguments OutOfFuel {A}.

Definition is_json_space (c : ascii) : bool :=
  match c with
  | " "%char | "009"%char | "010"%char | "013"%char => true
  | _ => false
  end.

Fixpoint skip_ws (s : string) : string :=
  match s with
  | String c s' => if is_json_space c then skip_ws s' else s
  | "" => ""
  end.

Definition is_hex (c : ascii) : bool :=
  let b := utf8.byte c in
  (is_digit c || (0x61 <=? b) && (b <=? 0x66) || (0x41 <=? b) && (b <=? 0x46))%N.

Definition hex_value (c : ascii) : N :=
  let b := utf8.byte c in
  (if is_digit c then b - 0x30
   else if (0x61 <=? b) then b - 0x61 + 10 else b - 0x41 + 10)%N.

(** The scanner's states inside a string literal. *)
Inductive string_state :=
  | InString
  | InStringEsc
  | InStringEscU (remaining : nat).

(** After the opening quote: the text up to the closing quote, and what
    follows it.  Control characters and unknown escapes are errors. *)
Fixpoint scan_string (st : string_state) (s : string) : option (string * string) :=
  match s with
  | "" => None
  | String c s' =>
    let continue (st' : string_state) :=
      match scan_string st' s' with
      | Some (body, rest) => Some (String c body, rest)
      | None => None
      end in
    match st with
    | InString =>
      if Ascii.eqb c DQUOTE then Some ("", s')
      else if Ascii.eqb c "\" then continue InStringEsc
      else if (utf8.byte c <? 0x20)%N then None
      else continue InString
    | InStringEsc =>
      if existsb (Ascii.eqb c) (DQUOTE :: ["b"; "f"; "n"; "r"; "t"; "\"; "/"]%char)
      then continue InString
      else if Ascii.eqb c "u" then continue (InStringEscU 3)
      else None
    | InStringEscU n =>
      if is_hex c
      then continue (match n with O => InString | S k => InStringEscU k end)
      else None
    end
  end.

(** [getu4]: the code unit of a leading [\uXXXX], if there is one. *)
Definition getu4 (s : string) : option N :=
  match s with
  | String "\" (String "u" (String h1 (String h2 (String h3 (String h4 _))))) =>
    if is_hex h1 && is_hex h2 && is_hex h3 && is_hex h4
    then Some (hex_value h1 * 4096 + hex_value h2 * 256
               + hex_value h3 * 16 + hex_value h4)%N
    else None
  | _ => None
  end.

(** [utf16.DecodeRune] *)
Definition utf16_DecodeRune (r1 r2 : N) : N :=
  if ((0xD800 <=? r1) && (r1 <? 0xDC00) && (0xDC00 <=? r2) && (r2 <? 0xE000))%N
  then ((r1 - 0xD800) * 1024 + (r2 - 0xDC00) + 0x10000)%N
  else utf8.RuneError.

(** One step of [unquoteBytes]: the bytes written and the number of bytes
    read. *)
Definition unquote_step (s : string) : option (string * nat) :=
  match s with
  | "" => None
  | String c s1 =>
    if Ascii.eqb c "\" then
      match s1 with
      | "" => None
      | String c1 _ =>
        if existsb (Ascii.eqb c1) (DQUOTE :: ["\"; "/"; "'"]%char)
        then Some (String c1 "", 2%nat)
        else if Ascii.eqb c1 "b" then Some (String "008" "", 2%nat)
        else if Ascii.eqb c1 "f" then Some (String "012" "", 2%nat)
        else if Ascii.eqb c1 "n" then Some (String "010" "", 2%nat)
        else if Ascii.eqb c1 "r" then Some (String "013" "", 2%nat)
        else if Ascii.eqb c1 "t" then Some (String "009" "", 2%nat)
        else if Ascii.eqb c1 "u" then
          match getu4 s with
          | None => None
          | Some rr =>
            if ((0xD800 <=? rr) && (rr <? 0xE000))%N then
              let dec :=
                match getu4 (string_drop 6 s) with
                | Some rr1 => utf16_DecodeRune rr rr1
                | None => utf8.RuneError
                end in
              if negb (dec =? utf8.RuneError)%N
              then Some (utf8.EncodeRune dec, 12%nat)
              else Some (utf8.EncodeRune utf8.RuneError, 6%nat)
            else Some (utf8.EncodeRune rr, 6%nat)
          end
        else None
      end
    else if Ascii.eqb c DQUOTE || (utf8.byte c <? 0x20)%N then None
    else if (utf8.byte c <? utf8.RuneSelf)%N then Some (String c "", 1%nat)
    else
      let '(rr, size) := utf8.DecodeRuneInString s in
      Some (utf8.EncodeRune rr, size)
  end.

Fixpoint unquote_from (skip : nat) (s : string) : option string :=
  match s with
  | "" => Some ""
  | String _ s' =>
    match skip with
    | S k => unquote_from k s'
    | O =>
      match unquote_step s with
      | Some (out, n) =>
        match unquote_from (n - 1) s' with
        | Some rest => Some (out +:+ rest)
        | None => None
        end
      | None => None
      end
    end
  end.

(** [unquote] of the text between the quotes of a string literal. *)
Definition unquote (body : string) : option string := unquote_from 0 body.

(** A number literal at the head of [s], and what follows it. *)
Definition scan_number (s : string) : option (string * string) :=
  let '(sign, s) :=
    match s with String "-" s' => ("-", s') | _ => ("", s) end in
  match
    match s with
    | String "0" s' => Some ("0", s')
    | String c s' =>
      if is_digit c
      then let '(ds, rest) := span_digits s' in Some (String c ds, rest)
      else None
    | "" => None
    end
  with
  | None => None
  | Some (int_part, s) =>
    match
      match s with
      | String "." s' =>
        let '(ds, rest) := span_digits s' in
        if String.eqb ds "" then None else Some ("." +:+ ds, rest)
      | _ => Some ("", s)
      end
    with
    | None => None
    | Some (frac_part, s) =>
      match s with
      | String c s' =>
        if Ascii.eqb c "e" || Ascii.eqb c "E" then
          let '(esign, s'') :=
            match s' with
            | String "+" t => ("+", t)
            | String "-" t => ("-", t)
            | _ => ("", s')
            end in
          let '(ds, rest) := span_digits s'' in
          if String.eqb ds "" then None
          else Some (sign +:+ int_part +:+ frac_part +:+ String c esign +:+ ds, rest)
        else Some (sign +:+ int_part +:+ frac_part, s)
      | "" => Some (sign +:+ int_part +:+ frac_part, s)
      end
    end
  end.

(** The scanner refuses more than this many open arrays and objects. *)
Definition maxNestingDepth : N := 10000.

(** A value at the head of [s] (after white space) and what follows it.
    [depth] counts the arrays and objects that are open. *)
Fixpoint parse_value (fuel : nat) (depth : N) (s : string) {struct fuel}
    : parse_result (json * string) :=
  match fuel with
  | O => OutOfFuel
  | S fuel =>
    match skip_ws s with
    | "" => SyntaxError
    | String c rest as s =>
      if Ascii.eqb c "{" then
        if (maxNestingDepth <=? depth)%N then SyntaxError else
        match skip_ws rest with
        | String "}" rest' => Parsed (JObject [], rest')
        | rest' =>
          match parse_members fuel (depth + 1)%N rest' with
          | Parsed (ms, r) => Parsed (JObject ms, r)
          | SyntaxError => SyntaxError
          | OutOfFuel => OutOfFuel
          end
        end
      else if Ascii.eqb c "[" then
        if (maxNestingDepth <=? depth)%N then SyntaxError else
        match skip_ws rest with
        | String "]" rest' => Parsed (JArray [], rest')
        | rest' =>
          match parse_elements fuel (depth + 1)%N rest' with
          | Parsed (vs, r) => Parsed (JArray vs, r)
          | SyntaxError => SyntaxError
          | OutOfFuel => OutOfFuel
          end
        end
      else if Ascii.eqb c DQUOTE then
        match scan_string InString rest with
        | Some (body, rest') =>
          match unquote body with
          | Some str => Parsed (JString str, rest')
          | None => SyntaxError
          end
        | None => SyntaxError
        end
      else if Ascii.eqb c "-" || is_digit c then
        match scan_number s with
        | Some (lit, rest') => Parsed (JNumber lit, rest')
        | None => SyntaxError
        end
      else if String.prefix "true" s then Parsed (JBool true, string_drop 4 s)
      else if String.prefix "false" s then Parsed (JBool false, string_drop 5 s)
      else if String.prefix "null" s then Parsed (JNull, string_drop 4 s)
      else SyntaxError
    end
  end
with parse_elements (fuel : nat) (depth : N) (s : string) {struct fuel}
    : parse_result (list json * string) :=
  match fuel with
  | O => OutOfFuel
  | S fuel =>
    match parse_value fuel depth s with
    | Parsed (v, rest) =>
      match skip_ws rest with
      | String "," rest' =>
        match parse_elements fuel depth rest' with
        | Parsed (vs, r) => Parsed (v :: vs, r)
        | SyntaxError => SyntaxError
        | OutOfFuel => OutOfFuel
        end
      | String "]" rest' => Parsed ([v], rest')
      | _ => SyntaxError
      end
    | SyntaxError => SyntaxError
    | OutOfFuel => OutOfFuel
    end
  end
with parse_members (fuel : nat) (depth : N) (s : string) {struct fuel}
    : parse_result (list (string * (string * json)) * string) :=
  match fuel with
  | O => OutOfFuel
  | S fuel =>
    match s with
    | String c rest =>
      if negb (Ascii.eqb c DQUOTE) then SyntaxError else
      match scan_string InString rest with
      | Some (body, rest1) =>
        match unquote body, skip_ws rest1 with
        | Some key, String ":" rest2 =>
          let vs := skip_ws rest2 in
          match parse_value fuel depth vs with
          | Parsed (v, rest3) =>
            let raw := string_take (String.length vs - String.length rest3) vs in
            match skip_ws rest3 with
            | String "," rest4 =>
              match parse_members fuel depth (skip_ws rest4) with
              | Parsed (ms, r) => Parsed ((key, (raw, v)) :: ms, r)
              | SyntaxError => SyntaxError
              | OutOfFuel => OutOfFuel
              end
            | String "}" rest4 => Parsed ([(key, (raw, v))], rest4)
            | _ => SyntaxError
            end
          | SyntaxError => SyntaxError
          | OutOfFuel => OutOfFuel
          end
        | _, _ => SyntaxError
        end
      | None => SyntaxError
      end
    | "" => SyntaxError
    end
  end.

(** The whole input as one JSON value, white space around it allowed; what
    [json.Unmarshal] decodes once [checkValid] has accepted the input. *)
Definition json_parse (data : string) : option json :=
  match parse_value (2 * String.length data + 2) 0 data with
  | Parsed (v, rest) => if String.eqb (skip_ws rest) "" then Some v else None
  | _ => None
  end.

(** ** Package [encoding/json]: decoding into Go values

    [json.Unmarshal] checks the syntax of the whole input first and then
    stores the value.  A value of the wrong kind for its destination is an
    [UnmarshalTypeError]; decoding goes on, but the call returns the error, and
    every caller here drops the result then.  So a decoder answers [None]
    for any error. *)

(** [Unmarshal] into a [string]: [null] leaves the destination as it is. *)
Definition decode_string (cur : string) (v : json) : option string :=
  match v with
  | JString s => Some s
  | JNull => Some cur
  | _ => None
  end.

(** Into a [float64]. *)
Definition decode_float64 (cur : float) (v : json) : option float :=
  match v with
  | JNumber lit => strconv_ParseFloat lit
  | JNull => Some cur
  | _ => None
  end.

(** Into a [[]string]: an array whose elements are strings or [null], a
    [null] element leaving the element at its zero value. *)
Definition decode_string_slice (v : json) : option (list string) :=
  match v with
  | JNull => Some []
  | JArray elems => mapM (decode_string "") elems
  | _ => None
  end.

(** An [interface{}] as [Unmarshal] fills it: [nil], [bool], [float64],
    [string], [[]interface{}] or [map[string]interface{}], the map as its
    entries in the order of their keys. *)
Inductive any :=
  | AnyNil
  | AnyBool (b : bool)
  | AnyFloat (f : float)
  | AnyString (s : string)
  | AnySlice (l : list any)
  | AnyMap (m : list (string * any)).

(** [m[key] = value] on a map kept in the order of its keys. *)
Fixpoint map_assign (key : string) (value : any) (m : list (string * any))
    : list (string * any) :=
  match m with
  | [] => [(key, value)]
  | (k, x) :: m' =>
    if String.eqb key k then (key, value) :: m'
    else if String.ltb key k then (key, value) :: m
    else (k, x) :: map_assign key value m'
  end.

Fixpoint to_any (v : json) : option any :=
  match v with
  | JNull => Some AnyNil
  | JBool b => Some (AnyBool b)
  | JNumber lit => AnyFloat <$> strconv_ParseFloat lit
  | JString s => Some (AnyString s)
  | JArray elems =>
    AnySlice <$>
      (fix go (l : list json) : option (list any) :=
         match l with
         | [] => Some []
         | x :: l' =>
           match to_any x, go l' with
           | Some a, Some r => Some (a :: r)
           | _, _ => None
           end
         end) elems
  | JObject members =>
    AnyMap <$>
      (fix go (acc : list (string * any)) (l : list (string * (string * json)))
           : option (list (string * any)) :=
         match l with
         | [] => Some acc
         | (k, (_, x)) :: l' =>
           match to_any x with
           | Some a => go (map_assign k a acc) l'
           | None => None
           end
         end) [] members
  end.

(** Into a [[]interface{}]. *)
Definition decode_any_slice (v : json) : option (list any) :=
  match v with
  | JNull => Some []
  | JArray elems => mapM to_any elems
  | _ => None
  end.

(** Whether a key of an object names the field with JSON name [name] (ASCII
    letters): equal up to case, where the Kelvin sign counts as a K and the
    long s as an S, as [bytes.EqualFold] has it. *)
Fixpoint key_matches (name key : string) {struct key} : bool :=
  let upper (c : ascii) : N :=
    let b := utf8.byte c in
    if (0x61 <=? b)%N && (b <=? 0x7A)%N then (b - 32)%N else b in
  match name, key with
  | "", "" => true
  | String n name', String c key' =>
    if (utf8.byte c <? 0x80)%N
    then (upper c =? upper n)%N && key_matches name' key'
    else
      match key' with
      | String c1 key'' =>
        if (upper n =? 0x53)%N && (utf8.byte c =? 0xC5)%N && (utf8.byte c1 =? 0xBF)%N
        then key_matches name' key''
        else
          match key'' with
          | String c2 key''' =>
            (upper n =? 0x4B)%N && (utf8.byte c =? 0xE2)%N
            && (utf8.byte c1 =? 0x84)%N && (utf8.byte c2 =? 0xAA)%N
            && key_matches name' key'''
          | "" => false
          end
      | "" => false
      end
  | _, _ => false
  end.

Section decoding.
Context `{GoLib}.

(** [%v] of a [float64]: [%g] with the shortest digits that give the value
    back.  For a whole number below 10^6 in magnitude these are its own
    digits. *)
Definition fmt_v_float (x : float) : string :=
  match Prim2SF x with
  | S754_nan => "NaN"
  | S754_infinity neg => if neg then "-Inf" else "+Inf"
  | S754_zero neg => if neg then "-0" else "0"
  | S754_finite neg m e =>
    let whole := (0 <=? e) || (Z.pos m mod 2 ^ (- e) =? 0) in
    let mag := if 0 <=? e then Z.pos m * 2 ^ e else Z.pos m / 2 ^ (- e) in
    if whole && (mag <? 1000000)
    then (if neg then "-" else "") +:+ pretty mag
    else strconv_shortest_g x
  end.

(** [fmt.Sprint] of one [interface{}]. *)
Fixpoint fmt_Sprint (a : any) : string :=
  match a with
  | AnyNil => "<nil>"
  | AnyBool b => if b then "true" else "false"
  | AnyFloat f => fmt_v_float f
  | AnyString s => s
  | AnySlice l =>
    "[" +:+ String.concat " " (map fmt_Sprint l) +:+ "]"
  | AnyMap m =>
    "map[" +:+
    String.concat " "
      ((fix go (m : list (string * any)) : list string :=
          match m with
          | [] => []
          | (k, x) :: m' => (k +:+ ":" +:+ fmt_Sprint x) :: go m'
          end) m)
    +:+ "]"
  end.

(** [parseRiskNotes]; the argument is the [json.RawMessage], empty when the
    field is absent. *)
Definition parseRiskNotes (raw : string) : result (list string) :=
  if (Z.of_nat (String.length raw) =? 0) || String.eqb raw "null" then Ok [] else
  match json_parse raw ≫= decode_string_slice with
  | Some notes => Ok notes
  | None =>
    match json_parse raw ≫= decode_string "" with
    | Some single =>
      if String.eqb (strings_TrimSpace single) "" then Ok [] else Ok [single]
    | None =>
      match json_parse raw ≫= decode_any_slice with
      | Some arr => Ok (map fmt_Sprint arr)
      | None => Err (errors_New ("riskNotes 无法解析: " +:+ raw))
      end
    end
  end.

End decoding.

(** [Unmarshal] into an [ai.AdjustmentPlan]: the members of an object are
    stored one after the other, a later one over an earlier one. *)
Definition decode_AdjustmentPlan_member (cur : AdjustmentPlan)
    (member : string * (string * json)) : option AdjustmentPlan :=
  let '(key, (_, v)) := member in
  if key_matches "sizeMultiplier" key then
    x ← decode_float64 (SizeMultiplier cur) v;
    Some {| SizeMultiplier := x; TargetLeverage := TargetLeverage cur;
            StopLossPercent := StopLossPercent cur;
            TakeProfitPercent := TakeProfitPercent cur;
            TrailingStopPercent := TrailingStopPercent cur |}
  else if key_matches "targetLeverage" key then
    x ← decode_float64 (TargetLeverage cur) v;
    Some {| SizeMultiplier := SizeMultiplier cur; TargetLeverage := x;
            StopLossPercent := StopLossPercent cur;
            TakeProfitPercent := TakeProfitPercent cur;
            TrailingStopPercent := TrailingStopPercent cur |}
  else if key_matches "stopLossPercent" key then
    x ← decode_float64 (StopLossPercent cur) v;
    Some {| SizeMultiplier := SizeMultiplier cur;
            TargetLeverage := TargetLeverage cur; StopLossPercent := x;
            TakeProfitPercent := TakeProfitPercent cur;
            TrailingStopPercent := TrailingStopPercent cur |}
  else if key_matches "takeProfitPercent" key then
    x ← decode_float64 (TakeProfitPercent cur) v;
    Some {| SizeMultiplier := SizeMultiplier cur;
            TargetLeverage := TargetLeverage cur;
            StopLossPercent := StopLossPercent cur; TakeProfitPercent := x;
            TrailingStopPercent := TrailingStopPercent cur |}
  else if key_matches "trailingStopPercent" key then
    x ← decode_float64 (TrailingStopPercent cur) v;
    Some {| SizeMultiplier := SizeMultiplier cur;
            TargetLeverage := TargetLeverage cur;
            StopLossPercent := StopLossPercent cur;
            TakeProfitPercent := TakeProfitPercent cur;
            TrailingStopPercent := x |}
  else Some cur.

Definition decode_AdjustmentPlan (cur : AdjustmentPlan) (v : json)
    : option AdjustmentPlan :=
  match v with
  | JObject members =>
    foldl (λ acc member, acc ≫= λ cur, decode_AdjustmentPlan_member cur member)
      (Some cur) members
  | JNull => Some cur
  | _ => None
  end.

(** [rawDecision] *)
Module rawDecision.
Record t := {
  Action : string;
  Confidence : float;
  Reason : string;
  Adjustments : AdjustmentPlan;
  RiskNotes : string;  (* a [json.RawMessage] *)
}.
Definition zero : t :=
  {| Action := ""; Confidence := 0%float; Reason := "";
     Adjustments := zero_AdjustmentPlan; RiskNotes := "" |}.
End rawDecision.

Definition decode_rawDecision_member (cur : rawDecision.t)
    (member : string * (string * json)) : option rawDecision.t :=
  let '(key, (raw, v)) := member in
  if key_matches "action" key then
    x ← decode_string (rawDecision.Action cur) v;
    Some {| rawDecision.Action := x;
            rawDecision.Confidence := rawDecision.Confidence cur;
            rawDecision.Reason := rawDecision.Reason cur;
            rawDecision.Adjustments := rawDecision.Adjustments cur;
            rawDecision.RiskNotes := rawDecision.RiskNotes cur |}
  else if key_matches "confidence" key then
    x ← decode_float64 (rawDecision.Confidence cur) v;
    Some {| rawDecision.Action := rawDecision.Action cur;
            rawDecision.Confidence := x;
            rawDecision.Reason := rawDecision.Reason cur;
            rawDecision.Adjustments := rawDecision.Adjustments cur;
            rawDecision.RiskNotes := rawDecision.RiskNotes cur |}
  else if key_matches "reason" key then
    x ← decode_string (rawDecision.Reason cur) v;
    Some {| rawDecision.Action := rawDecision.Action cur;
            rawDecision.Confidence := rawDecision.Confidence cur;
            rawDecision.Reason := x;
            rawDecision.Adjustments := rawDecision.Adjustments cur;
            rawDecision.RiskNotes := rawDecision.RiskNotes cur |}
  else if key_matches "adjustments" key then
    x ← decode_AdjustmentPlan (rawDecision.Adjustments cur) v;
    Some {| rawDecision.Action := rawDecision.Action cur;
            rawDecision.Confidence := rawDecision.Confidence cur;
            rawDecision.Reason := rawDecision.Reason cur;
            rawDecision.Adjustments := x;
            rawDecision.RiskNotes := rawDecision.RiskNotes cur |}
  else if key_matches "riskNotes" key then
    Some {| rawDecision.Action := rawDecision.Action cur;
            rawDecision.Confidence := rawDecision.Confidence cur;
            rawDecision.Reason := rawDecision.Reason cur;
            rawDecision.Adjustments := rawDecision.Adjustments cur;
            rawDecision.RiskNotes := raw |}
  else Some cur.

(** [json.Unmarshal([]byte(content), &raw)] for a fresh [rawDecision]. *)
Definition json_Unmarshal_rawDecision (content : string) : option rawDecision.t :=
  v ← json_parse content;
  match v with
  | JObject members =>
    foldl (λ acc member, acc ≫= λ cur, decode_rawDecision_member cur member)
      (Some rawDecision.zero) members
  | JNull => Some rawDecision.zero
  | _ => None
  end.

(** The error of a failed [json.Unmarshal]; nothing reads it. *)
Definition json_error : error := errors_New "json: cannot unmarshal".

(** ** Response parsing: the decision *)

Section parsing.
Context `{GoLib}.

(** [decodeDecision] *)
Definition decodeDecision (content : string) : result DecisionResponse :=
  match json_Unmarshal_rawDecision content with
  | None => Err json_error
  | Some raw =>
    match parseRiskNotes (rawDecision.RiskNotes raw) with
    | Err err => Err err
    | Ok notes =>
      Ok {| Action := rawDecision.Action raw;
            Confidence := rawDecision.Confidence raw;
            Reason := rawDecision.Reason raw;
            Adjustments := rawDecision.Adjustments raw;
            RiskNotes := notes;
            RawContent := ""; CoTTrace := "" |}
    end
  end.

Definition set_RawContent_CoTTrace (rawContent coT : string)
    (resp : DecisionResponse) : DecisionResponse :=
  {| Action := Action resp; Confidence := Confidence resp;
     Reason := Reason resp; Adjustments := Adjustments resp;
     RiskNotes := RiskNotes resp; RawContent := rawContent; CoTTrace := coT |}.

(** [parseFullDecisionResponse] *)
Definition parseFullDecisionResponse (raw : string) : result DecisionResponse :=
  let content := trimJSONFences raw in
  if String.eqb content "" then Err (errors_New "模型未返回内容") else
  match decodeDecision content with
  | Ok resp => Ok (set_RawContent_CoTTrace content (extractCoTTrace raw) resp)
  | Err _ =>
    let start := strings_Index content "{" in
    let end_ := strings_LastIndex content "}" in
    match
      if (0 <=? start) && (start <? end_) then
        let snippet := string_slice start (end_ + 1) content in
        match decodeDecision snippet with
        | Ok resp =>
          Some (set_RawContent_CoTTrace content (extractCoTTrace raw) resp)
        | Err _ => None
        end
      else None
    with
    | Some resp => Ok resp
    | None => Err (errors_New ("无法解析模型输出: " +:+ content))
    end
  end.

(** [GenerateDecision]; [None] is a [nil] client.  [now] and [rangeOrder] are
    what [buildUserPrompt] reads from its surroundings. *)
Definition GenerateDecision (c : option Client) (req : DecisionRequest.t)
    (now : string) (rangeOrder : list string) (w : World)
    : result DecisionResponse * World :=
  match c with
  | None => (Err (errors_New "deepseek client is nil"), w)
  | Some client =>
    if String.eqb (apiKey client) ""
    then (Err (errors_New "deepseek api key 未设置"), w) else
    let performance := DecisionContext.Performance (DecisionRequest.Ctx req) in
    let positions := DecisionContext.Positions (DecisionRequest.Ctx req) in
    let promptCtx := newPromptContext req performance positions in
    let accountEquity :=
      if (0 <? AccountContext.TotalEquity
                 (DecisionContext.Account (DecisionRequest.Ctx req)))%float
      then AccountContext.TotalEquity
             (DecisionContext.Account (DecisionRequest.Ctx req))
      else DecisionRequest.AccountBalance req in
    let systemPrompt :=
      buildSystemPrompt accountEquity
        (DecisionContext.BTCETHLeverage (DecisionRequest.Ctx req))
        (DecisionContext.AltcoinLeverage (DecisionRequest.Ctx req))
        (DecisionRequest.Limits req) performance positions in
    let userPrompt := buildUserPrompt now rangeOrder promptCtx in
    match CallWithMessages c systemPrompt userPrompt w with
    | (Err err, w) => (Err err, w)
    | (Ok respContent, w) =>
      match parseFullDecisionResponse respContent with
      | Err err => (Err err, w)
      | Ok decision =>
        let decision :=
          set_RawContent_CoTTrace respContent (CoTTrace decision) decision in
        let decision :=
          if String.eqb (CoTTrace decision) ""
          then set_RawContent_CoTTrace (RawContent decision)
                 (extractCoTTrace respContent) decision
          else decision in
        match validateDecisionResponse decision (DecisionRequest.Limits req) with
        | Some err => (Err err, w)
        | None => (Ok decision, w)
        end
      end
    end
  end.

End parsing.





(** The world after one more call of [PostJSON]. *)
Definition advance (w : World) : World :=
  {| exchanges := exchanges w; calls := S (calls w); slept := slept w |}.

(** What [sendCompletion] returns when its call of [PostJSON] meets [ex]. *)
Definition outcome_of (c : Client) (ex : exchange) : result completionMessage :=
  fst (sendCompletion c [zero_completionMessage]
         {| exchanges := λ _, ex; calls := 0; slept := [] |}).

(** The outcome of the attempt made after [i] earlier ones, for a call that
    starts in world [w]. *)
Definition attempt_outcome (c : Client) (w : World) (i : nat)
    : result completionMessage :=
  outcome_of c (exchanges w (calls w + i)%nat).

(** An attempt that [CallWithMessages] follows by a sleep and another
    attempt. *)
Definition retryable (o : result completionMessage) : bool :=
  match o with
  | Err err => isNetworkError (Some err)
  | Ok _ => false
  end.

(** The sleeps after failing attempts 1 to [k]. *)
Definition backoff (k : nat) : list Z :=
  map (λ n, Z.of_nat n * baseRetryDelay) (seq 1 k).

(** The substring test at the end of [isNetworkError]. *)
Definition mentions_network (msg : string) : bool :=
  strings_Contains msg "connection"
  || strings_Contains msg "network"
  || strings_Contains msg "timeout"
  || strings_Contains msg "reset"
  || strings_Contains msg "refused".

Fixpoint string_forall (P : ascii → bool) (s : string) : bool :=
  match s with
  | "" => true
  | String c s' => P c && string_forall P s'
  end.

(** A client with a key and a transport, and a world in which every call of
    [PostJSON] meets the same exchange, for examples. *)
Definition example_client : Client :=
  {| mcpClient := Some "https://api.deepseek.com/v1";
     cfg := {| Enabled := true; BaseURL := "https://api.deepseek.com/v1";
               Model := "deepseek-chat"; Temperature := 0.5%float;
               TopP := 0.9%float; MaxTokens := 2000 |};
     apiKey := "sk-example" |}.

Definition world_of (script : nat → exchange) : World :=
  {| exchanges := script; calls := 0; slept := [] |}.

(** A response with status 200 whose body carries the provider's error
    [message]. *)
Definition business_error (message : string) : exchange :=
  Response 200 (Ok {| Choices := []; ErrorField := Some message |}).

(** A response with status 200 and one choice. *)
Definition completion (content : string) : exchange :=
  Response 200
    (Ok {| Choices := [ {| Role := "assistant"; Content := content |} ];
           ErrorField := None |}).

(** A refused connection, as the transport reports it. *)
Definition connection_refused : exchange :=
  DoFails (NewError (OpError false) "dial tcp 127.0.0.1:443: connect: connection refused").

(** The coercion of [riskNotes] stated on the JSON value [v] that the raw
    text [raw] holds: what the amended claim C7 says [parseRiskNotes]
    returns. *)
Definition string_or_null (v : json) : bool :=
  match v with JString _ | JNull => true | _ => false end.

Definition string_of_string_or_null (v : json) : string :=
  match v with JString s => s | _ => "" end.

Definition coerced_riskNotes `{GoLib} (raw : string) (v : json)
    : result (list string) :=
  match v with
  | JNull => Ok []
  | JString single =>
    if String.eqb (strings_TrimSpace single) "" then Ok [] else Ok [single]
  | JArray elems =>
    if forallb string_or_null elems
    then Ok (map string_of_string_or_null elems)
    else match mapM to_any elems with
         | Some arr => Ok (map fmt_Sprint arr)
         | None => Err (errors_New ("riskNotes 无法解析: " +:+ raw))
         end
  | _ => Err (errors_New ("riskNotes 无法解析: " +:+ raw))
  end.

(** A request for examples: one symbol, no positions, no market data. *)
Definition example_request : DecisionRequest.t :=
  {| DecisionRequest.TraderName := "t1";
     DecisionRequest.Exchange := "binance";
     DecisionRequest.Symbol := "BTCUSDT";
     DecisionRequest.CurrentPrice := 50000%float;
     DecisionRequest.StrategySignal := "hold";
     DecisionRequest.AccountBalance := 100%float;
     DecisionRequest.AvailableBalance := 100%float;
     DecisionRequest.UnrealizedPNL := 0%float;
     DecisionRequest.Positions := [];
     DecisionRequest.LearningSnippets := [];
     DecisionRequest.NewsSentiment :=
       {| SentimentSummary.Sentiment := ""; SentimentSummary.Score := 0%float;
          SentimentSummary.Highlights := []; SentimentSummary.RiskFactors := [] |};
     DecisionRequest.Limits := example_limits 5 3;
     DecisionRequest.Ctx :=
       {| DecisionContext.CurrentTime := "";
          DecisionContext.RuntimeMinutes := 0;
          DecisionContext.CallCount := 1;
          DecisionContext.Account :=
            {| AccountContext.TotalEquity := 100%float;
               AccountContext.Available := 100%float;
               AccountContext.UnrealizedPNL := 0%float;
               AccountContext.DailyRealized := 0%float;
               AccountContext.MaxDrawdown := 0%float;
               AccountContext.MarginUsage := 0%float |};
          DecisionContext.Positions := [];
          DecisionContext.CandidateCoins := [];
          DecisionContext.MarketData := ∅;
          DecisionContext.OITopData := ∅;
          DecisionContext.Performance :=
            {| SharpeRatio := 0%float; WinRate := 0%float; TotalTrades := 0;
               ProfitFactor := 0%float |};
          DecisionContext.BTCETHLeverage := 5;
          DecisionContext.AltcoinLeverage := 3;
          DecisionContext.MarginUsage := 0%float;
          DecisionContext.InitialEquity := 100%float;
          DecisionContext.PnLPercent := 0%float |} |}.

(** The decision [{"action":"hold"}] as a model writes it: bare, with a
    preamble and an afterword, and in a fence. *)
Definition hold_json : string :=
  "{" +:+ QUOTE +:+ "action" +:+ QUOTE +:+ ":" +:+ QUOTE +:+ "hold" +:+ QUOTE +:+ "}".

Definition hold_with_commentary : string :=
  "I think so " +:+ hold_json +:+ " done".

Definition hold_fenced : string :=
  "```json" +:+ LF +:+ hold_json +:+ LF +:+ "```".

(** The decision that [hold_json] decodes to, with the two audit fields. *)
Definition hold_decision (rawContent coT : string) : DecisionResponse :=
  {| Action := "hold"; Confidence := 0%float; Reason := "";
     Adjustments := zero_AdjustmentPlan; RiskNotes := [];
     RawContent := rawContent; CoTTrace := coT |}.

(** The orders in which a [range] over the market data of [ctx] may deliver
    its keys: each key once, in any order. *)
Definition range_orders (ctx : promptContext.t) (order : list string) : Prop :=
  order ≡ₚ elements (dom (DecisionContext.MarketData
                            (DecisionRequest.Ctx (promptContext.Request ctx)))).

(** A prompt context with the market data of two symbols, for examples. *)
Definition example_prompt_context : promptContext.t :=
  let req := example_request in
  let ctx := DecisionRequest.Ctx req in
  newPromptContext
    {| DecisionRequest.TraderName := DecisionRequest.TraderName req;
       DecisionRequest.Exchange := DecisionRequest.Exchange req;
       DecisionRequest.Symbol := DecisionRequest.Symbol req;
       DecisionRequest.CurrentPrice := DecisionRequest.CurrentPrice req;
       DecisionRequest.StrategySignal := DecisionRequest.StrategySignal req;
       DecisionRequest.AccountBalance := DecisionRequest.AccountBalance req;
       DecisionRequest.AvailableBalance := DecisionRequest.AvailableBalance req;
       DecisionRequest.UnrealizedPNL := DecisionRequest.UnrealizedPNL req;
       DecisionRequest.Positions := DecisionRequest.Positions req;
       DecisionRequest.LearningSnippets := DecisionRequest.LearningSnippets req;
       DecisionRequest.NewsSentiment := DecisionRequest.NewsSentiment req;
       DecisionRequest.Limits := DecisionRequest.Limits req;
       DecisionRequest.Ctx :=
         {| DecisionContext.CurrentTime := DecisionContext.CurrentTime ctx;
            DecisionContext.RuntimeMinutes := DecisionContext.RuntimeMinutes ctx;
            DecisionContext.CallCount := DecisionContext.CallCount ctx;
            DecisionContext.Account := DecisionContext.Account ctx;
            DecisionContext.Positions := DecisionContext.Positions ctx;
            DecisionContext.CandidateCoins := DecisionContext.CandidateCoins ctx;
            DecisionContext.MarketData :=
              {[ "ETHUSDT" := MarketDataSnapshot.zero;
                 "BTCUSDT" := MarketDataSnapshot.zero ]};
            DecisionContext.OITopData := DecisionContext.OITopData ctx;
            DecisionContext.Performance := DecisionContext.Performance ctx;
            DecisionContext.BTCETHLeverage := DecisionContext.BTCETHLeverage ctx;
            DecisionContext.AltcoinLeverage := DecisionContext.AltcoinLeverage ctx;
            DecisionContext.MarginUsage := DecisionContext.MarginUsage ctx;
            DecisionContext.InitialEquity := DecisionContext.InitialEquity ctx;
            DecisionContext.PnLPercent := DecisionContext.PnLPercent ctx |} |}
    (DecisionContext.Performance ctx) (DecisionContext.Positions ctx).

(** The string does not begin with white space. *)
Definition no_leading_space (s : string) : Prop :=
  s = "" ∨ unicode_IsSpace (fst (utf8.DecodeRuneInString s)) = false.

(** The string, given reversed, does not end in white space. *)
Definition no_trailing_space_rev (rs : string) : Prop :=
  rs = "" ∨ unicode_IsSpace (fst (utf8.DecodeLastRuneRev rs)) = false.

(** ** Construction of the client and its key *)

Definition defaultCompletionPath : string := "/v1/chat/completions".

(** [120 * time.Second] *)
Definition defaultTimeout : Z := 120 * 1000000000.

(** Package [mcp] ([internal/mcp/client.go]): the HTTP client. *)
Module mcp.

Record Client := {
  baseURL : string;
  httpClient_Timeout : Z;
}.

(** [mcp.New] *)
Definition New (baseURL : string) (timeout : Z) : Client :=
  let timeout := if timeout <=? 0 then 15 * 1000000000 else timeout in
  let baseURL :=
    if String.eqb baseURL "" then "https://api.deepseek.com" else baseURL in
  {| mcp.baseURL := baseURL; mcp.httpClient_Timeout := timeout |}.

(** The URL that [PostJSON] requests: [endpoint := c.baseURL + path]. *)
Definition endpoint (c : Client) (path : string) : string :=
  baseURL c +:+ path.

End mcp.

(** What a call that may panic does. *)
Inductive outcome (A : Type) :=
  | Returns (a : A)
  | Panics.
Arguments Returns {A} a.
Arguments Panics {A}.

(** [New].  [loggerpkg.Get] opens the log file of the module, and panics when
    it cannot; [log_opens] tells whether it can.  The client holds the
    transport by its base URL; [None] is the [nil] that a disabled
    configuration gives. *)
Definition New (log_opens : bool) (cfg : DeepseekConfig) : outcome (option Client) :=
  if negb (Enabled cfg) then Returns None else
  let cfg :=
    if String.eqb (BaseURL cfg) ""
    then {| Enabled := Enabled cfg; BaseURL := "https://api.deepseek.com/v1";
            Model := Model cfg; Temperature := Temperature cfg;
            TopP := TopP cfg; MaxTokens := MaxTokens cfg |}
    else cfg in
  let cfg :=
    if String.eqb (Model cfg) ""
    then {| Enabled := Enabled cfg; BaseURL := BaseURL cfg;
            Model := "deepseek-chat"; Temperature := Temperature cfg;
            TopP := TopP cfg; MaxTokens := MaxTokens cfg |}
    else cfg in
  let cfg :=
    if (Temperature cfg =? 0)%float
    then {| Enabled := Enabled cfg; BaseURL := BaseURL cfg;
            Model := Model cfg; Temperature := 0.5%float;
            TopP := TopP cfg; MaxTokens := MaxTokens cfg |}
    else cfg in
  let cfg :=
    if (TopP cfg =? 0)%float
    then {| Enabled := Enabled cfg; BaseURL := BaseURL cfg;
            Model := Model cfg; Temperature := Temperature cfg;
            TopP := 0.9%float; MaxTokens := MaxTokens cfg |}
    else cfg in
  let cfg :=
    if MaxTokens cfg =? 0
    then {| Enabled := Enabled cfg; BaseURL := BaseURL cfg;
            Model := Model cfg; Temperature := Temperature cfg;
            TopP := TopP cfg; MaxTokens := 2000 |}
    else cfg in
  let timeout := defaultTimeout in
  if negb log_opens then Panics else
  let mcpClient := mcp.New (BaseURL cfg) timeout in
  Returns (Some (Build_Client (Some (mcp.baseURL mcpClient)) cfg "")).

(** The URL of the completion request of a client: the [endpoint] of
    [PostJSON] for [defaultCompletionPath]. *)
Definition completion_endpoint (c : Client) : option string :=
  (λ baseURL, baseURL +:+ defaultCompletionPath) <$> mcpClient c.

(** The text [masked] that [SetDeepSeekAPIKey] logs in place of the key. *)
Definition masked (trimmed : string) : string :=
  if 8 <=? Z.of_nat (String.length trimmed)
  then string_take 4 trimmed +:+ "***" +:+
       string_drop (String.length trimmed - 3) trimmed
  else "".

(** [SetDeepSeekAPIKey]: the client afterwards and the line that is logged
    (when the client has a logger).  On a [nil] client the call does
    nothing. *)
Definition SetDeepSeekAPIKey (c : option Client) (key : string)
    : option Client * option string :=
  match c with
  | None => (None, None)
  | Some c =>
    let trimmed := strings_TrimSpace key in
    (Some {| mcpClient := mcpClient c; cfg := cfg c; apiKey := trimmed |},
     Some ("api key updated masked=" +:+ masked trimmed))
  end.

(** [apiKeyValue] *)
Definition apiKeyValue (c : Client) : string := apiKey c.

(** [cleanJSON], which [AnalyzeNews] applies to the reply. *)
Definition cleanJSON `{GoLib} (s : string) : string :=
  let trimmed := strings_TrimSpace s in
  if strings_HasPrefix trimmed "```" then
    let trimmed := strings_TrimPrefix trimmed "```" in
    let trimmed := strings_TrimSpace trimmed in
    let trimmed :=
      if strings_HasPrefix (strings_ToLower trimmed) "json" then
        let idx := strings_Index trimmed LF in
        if negb (idx =? -1)
        then string_drop (Z.to_nat (idx + 1)) trimmed
        else ""
      else trimmed in
    let trimmed := strings_TrimSpace trimmed in
    let trimmed :=
      if strings_HasSuffix trimmed "```"
      then strings_TrimSuffix trimmed "```" else trimmed in
    strings_TrimSpace trimmed
  else trimmed.

(** ** Predicates on text, for the statements below *)

(** No byte of the string is [b]. *)
Definition no_byte (b : ascii) (s : string) : bool :=
  string_forall (λ c, negb (Ascii.eqb c b)) s.

(** The first [k] bytes of the string exist and are not ASCII. *)
Fixpoint high_bytes (k : nat) (s : string) : bool :=
  match k, s with
  | O, _ => true
  | S k, String c s => (0x80 <=? utf8.byte c)%N && high_bytes k s
  | S _, "" => false
  end.

(** An ASCII byte that is not white space. *)
Definition ascii_nonspace (c : ascii) : bool :=
  (utf8.byte c <? 0x80)%N && negb (unicode_IsSpace (utf8.byte c)).

(** Printable ASCII without the quote and the backslash: text that a JSON
    string literal holds as it stands. *)
Definition plain_text (s : string) : bool :=
  string_forall
    (λ c, (0x20 <=? utf8.byte c)%N && (utf8.byte c <? 0x80)%N
          && negb (Ascii.eqb c DQUOTE) && negb (Ascii.eqb c "\")) s.

(** A reply that is a JSON object with the one member [action]. *)
Definition action_reply (action : string) : string :=
  "{" +:+ QUOTE +:+ "action" +:+ QUOTE +:+ ":" +:+ QUOTE +:+ action +:+ QUOTE +:+ "}".

(** A reply in a fence with the language tag [json], the way models write
    it. *)
Definition fenced_json (body : string) : string :=
  "```json" +:+ LF +:+ body +:+ LF +:+ "```".

(** A reply that is a JSON object with one member, its value a string
    literal. *)
Definition member_reply (key value : string) : string :=
  "{" +:+ QUOTE +:+ key +:+ QUOTE +:+ ":" +:+ QUOTE +:+ value +:+ QUOTE +:+ "}".

(** The text after a leading byte [c], if the text starts with [c]. *)
Definition head_is (c : ascii) (s : string) : option string :=
  match s with
  | String a r => if Ascii.eqb a c then Some r else None
  | "" => None
  end.

(** ** News sentiment *)

(** [news.Article] *)
Module Article.
Record t := {
  Title : string;
  Summary : string;
  URL : string;
  Source : string;
  PublishedAt : Z;  (* a [time.Time], by its Unix time *)
}.
End Article.

(** The encoder and the decoder of package [encoding/json] at the two types
    that [AnalyzeNews] uses them at: [json.Marshal] of the request payload
    (the empty text where it fails, as the code drops the error), and
    [json.Unmarshal] of a text into a fresh [news.SentimentSummary].
    [AnalyzeNews] is verified for every behaviour of the two. *)
Class NewsJSON := {
  json_Marshal_payload : list Article.t → string;
  json_Unmarshal_SentimentSummary : string → result SentimentSummary.t;
}.

(** [news.SentimentSummary{Sentiment: "neutral"}] *)
Definition neutral_summary : SentimentSummary.t :=
  {| SentimentSummary.Sentiment := "neutral"; SentimentSummary.Score := 0%float;
     SentimentSummary.Highlights := []; SentimentSummary.RiskFactors := [] |}.

(** [AnalyzeNews]; [None] is a [nil] client. *)
Definition AnalyzeNews `{GoLib} `{NewsJSON} (c : option Client)
    (articles : list Article.t) (w : World)
    : result SentimentSummary.t * World :=
  match c with
  | None => (Err (errors_New "deepseek client is nil"), w)
  | Some client =>
    if String.eqb (apiKeyValue client) ""
    then (Err (errors_New "deepseek api key 未设置"), w) else
    if len articles =? 0 then (Ok neutral_summary, w) else
    let body := json_Marshal_payload articles in
    let systemPrompt :=
      "你是一名资深的加密货币市场分析师，善于从新闻中提炼情绪与风险。" in
    let userPrompt :=
      "请处理以下上下文:" +:+ LF +:+ "```json" +:+ LF +:+ body +:+ LF +:+ "```" in
    match CallWithMessages c systemPrompt userPrompt w with
    | (Err err, w) => (Err err, w)
    | (Ok respContent, w) =>
      let content := cleanJSON respContent in
      match json_Unmarshal_SentimentSummary content with
      | Err err => (Err (Errorf_w "parse news sentiment: " err), w)
      | Ok summary =>
        let summary :=
          if String.eqb (SentimentSummary.Sentiment summary) ""
          then {| SentimentSummary.Sentiment := "neutral";
                  SentimentSummary.Score := SentimentSummary.Score summary;
                  SentimentSummary.Highlights := SentimentSummary.Highlights summary;
                  SentimentSummary.RiskFactors := SentimentSummary.RiskFactors summary |}
          else summary in
        (Ok summary, w)
      end
    end
  end.

(** A decoder for examples: every text decodes to the zero summary. *)
Definition example_news_json : NewsJSON :=
  {| json_Marshal_payload := λ _, "{}";
     json_Unmarshal_SentimentSummary := λ _,
       Ok {| SentimentSummary.Sentiment := ""; SentimentSummary.Score := 0%float;
             SentimentSummary.Highlights := [];
             SentimentSummary.RiskFactors := [] |} |}.

Definition example_article : Article.t :=
  {| Article.Title := "ETF inflows"; Article.Summary := ""; Article.URL := "";
     Article.Source := "wire"; Article.PublishedAt := 0 |}.

(** ** The reasoning trace of a reply *)

Section trace_words.
Context `{GoLib}.

(** The reply, white space before it aside, opens a fence with the tag
    [json], in any case of its letters. *)
Definition opens_json_fence (raw : string) : bool :=
  strings_HasPrefix (strings_ToLower (strings_TrimSpace raw)) (FENCE +:+ "json").

(** The text in which the trace of the reply [raw] is looked for: the
    trimmed reply; or, when the reply opens a fence with the tag [json] and
    has a line feed, what follows its first line, trimmed again. *)
Definition trace_body (raw body : string) : Prop :=
  (opens_json_fence raw = true
   ∧ ∃ line rest,
       strings_TrimSpace raw = line +:+ LF +:+ rest
       ∧ no_byte "010" line = true
       ∧ body = strings_TrimSpace rest)
  ∨ ((opens_json_fence raw = false
      ∨ no_byte "010" (strings_TrimSpace raw) = true)
     ∧ body = strings_TrimSpace raw).

End trace_words.

(** A text before an opening brace, made a trace: trimmed of white space,
    then of backquotes at both ends, then of white space again. *)
Definition clean_trace (pre : string) : string :=
  strings_TrimSpace (strings_Trim1 (strings_TrimSpace pre) "`").

(** [trace] is the preamble of the reply [raw]: the text before the first
    opening brace of its [trace_body], made a trace; empty when there is no
    opening brace. *)
Definition preamble_of `{GoLib} (raw trace : string) : Prop :=
  ∃ body, trace_body raw body
    ∧ ((no_byte "{" body = true ∧ trace = "")
       ∨ ∃ pre rest,
           body = pre +:+ "{" +:+ rest ∧ no_byte "{" pre = true
           ∧ trace = clean_trace pre).

(** Replies in a fence whose first line holds more than the tag. *)
Definition hold_fenced_remark : string :=
  "```json I think we hold" +:+ LF +:+ hold_json +:+ LF +:+ "```".

Definition hold_fenced_brace : string :=
  "```json {" +:+ LF +:+ "I think" +:+ LF +:+ hold_json +:+ LF +:+ "```".

(** * Theorems *)

(** ** Decision validation *)

Section validation_theorems.
Context `{GoLib}.
  #[local] Open Scope float_scope.

(** C1. With a positive stop-loss, take-profit and configured minimum
    risk/reward ratio, and action and leverage acceptable, validation returns
    the risk/reward error exactly when [tp / sl + 1e-9 < min] in float64, and
    [nil] otherwise; so [sl = 1, tp = 2, min = 3] is rejected and
    [sl = 1, tp = 3, min = 3] is accepted. *)
Theorem C1_risk_reward_veto (d : DecisionResponse) (limits : RiskLimits) :
  let sl := StopLossPercent (Adjustments d) in
  let tp := TakeProfitPercent (Adjustments d) in
  let rrmin := MinRiskRewardRatio limits in
  (0 <? sl) = true → (0 <? tp) = true → (0 <? rrmin) = true →
  action_ok d = true → leverage_ok d limits = true →
  validateDecisionResponse d limits
    = (if tp / sl + 1e-9 <? rrmin then Some (risk_reward_error d limits) else None)
  ∧ (sl = 1 → tp = 2 → rrmin = 3 →
     validateDecisionResponse d limits = Some (risk_reward_error d limits))
  ∧ (sl = 1 → tp = 3 → rrmin = 3 → validateDecisionResponse d limits = None).
Proof.
  intros sl tp rrmin Hsl Htp Hmin Hact Hlev.
  assert (Hgen : validateDecisionResponse d limits
    = (if tp / sl + 1e-9 <? rrmin then Some (risk_reward_error d limits) else None)).
  { unfold validateDecisionResponse, action_ok, leverage_ok, normalized_action in *.
    apply orb_true_iff in Hact.
    replace (negb (bool_decide (strings_ToLower (strings_TrimSpace (Action d)) ∈ validActions))
             && negb (String.eqb (strings_ToLower (strings_TrimSpace (Action d))) ""))
      with false by (destruct Hact as [-> | ->]; simpl; [done | by rewrite andb_false_r]).
    apply andb_true_iff in Hlev as [Hneg Hmax].
    apply negb_true_iff in Hneg, Hmax. rewrite Hneg, Hmax.
    fold sl tp rrmin. rewrite Hsl, Htp, Hmin. simpl.
    reflexivity. }
  split; [exact Hgen|]. split.
  - intros E1 E2 E3. rewrite Hgen, E1, E2, E3. reflexivity.
  - intros E1 E2 E3. rewrite Hgen, E1, E2, E3. reflexivity.
Qed.

End validation_theorems.

Lemma C1_risk_reward_veto_witness :
  validateDecisionResponse (H := example_lib)
    (example_decision "hold" 1 1 2) (example_limits 5 3)
  = Some (risk_reward_error (example_decision "hold" 1 1 2) (example_limits 5 3))
  ∧ validateDecisionResponse (H := example_lib)
      (example_decision "hold" 1 1 3) (example_limits 5 3) = None.
Proof.
  split.
  - apply (C1_risk_reward_veto (H := example_lib)
             (example_decision "hold" 1 1 2) (example_limits 5 3));
      reflexivity.
  - apply (C1_risk_reward_veto (H := example_lib)
             (example_decision "hold" 1 1 3) (example_limits 5 3));
      reflexivity.
Defined.

Section validation_theorems2.
Context `{GoLib}.
#[local] Open Scope float_scope.

Lemma validActions_elem (a : string) :
  a ∈ validActions ↔
  a ∈ ["open_long"; "open_short"; "increase_long"; "increase_short";
       "close"; "exit"; "reduce"; "hold"; "wait"].
Proof.
  unfold validActions.
  rewrite !elem_of_union, !elem_of_singleton, !elem_of_cons, elem_of_nil. tauto.
Qed.

(** The three rejections of validation carry different messages. *)
Lemma unknown_action_error_first_byte (d : DecisionResponse) (m : string) :
  unknown_action_error d = errors_New m →
  String.get 0 m = Some "230"%char.
Proof. unfold unknown_action_error, errors_New. intros [= <-]. reflexivity. Qed.

(** C5 (amended). Validation rejects the action, with the error
    "未知 action: ...", exactly when the action, with surrounding white space
    trimmed and in lower case, is neither one of open_long, open_short,
    increase_long, increase_short, close, exit, reduce, hold, wait (written
    with underscores) nor empty. *)
Theorem C5_action_enumeration (d : DecisionResponse) (limits : RiskLimits) :
  validateDecisionResponse d limits = Some (unknown_action_error d)
  ↔ normalized_action d ∉
      ["open_long"; "open_short"; "increase_long"; "increase_short";
       "close"; "exit"; "reduce"; "hold"; "wait"; ""].
Proof.
  unfold validateDecisionResponse. fold (normalized_action d).
  fold (unknown_action_error d).
  set (a := normalized_action d).
  assert (Hin : a ∈ ["open_long"; "open_short"; "increase_long"; "increase_short";
                     "close"; "exit"; "reduce"; "hold"; "wait"; ""]
                ↔ a ∈ validActions ∨ a = "").
  { rewrite validActions_elem, !elem_of_cons, elem_of_nil. tauto. }
  rewrite Hin. clear Hin.
  destruct (bool_decide_reflect (a ∈ validActions)) as [Hv | Hv]; simpl.
  - split; [|tauto]. intros Heq.
    repeat case_match; try discriminate;
      apply (inj Some) in Heq; symmetry in Heq;
      apply unknown_action_error_first_byte in Heq; discriminate.
  - destruct (String.eqb_spec a "") as [He | He]; simpl.
    + split; [|tauto]. intros Heq.
      repeat case_match; try discriminate;
        apply (inj Some) in Heq; symmetry in Heq;
        apply unknown_action_error_first_byte in Heq; discriminate.
    + split; [tauto | reflexivity].
Qed.

(** C10. Validation does not read [Confidence]: changing it to any float
    whatever, NaN and values outside 0..100 included, leaves the outcome
    unchanged. *)
Theorem C10_confidence_not_inspected (d : DecisionResponse) (c : float)
    (limits : RiskLimits) :
  validateDecisionResponse (with_Confidence c d) limits
  = validateDecisionResponse d limits.
Proof. reflexivity. Qed.

End validation_theorems2.

(** C5, as stated, fails: the enumeration is written with underscores, so
    "open-long" is rejected while "open_long" passes, and surrounding white
    space is trimmed before the comparison, so " hold " passes too. *)
Lemma C5_counterexample :
  (∀ L : GoLib,
     validateDecisionResponse (example_decision "open-long" 1 0 0) (example_limits 0 0)
     = Some (errors_New "未知 action: open-long"))
  ∧ (∀ L : GoLib,
       validateDecisionResponse (example_decision "OPEN_LONG" 1 0 0) (example_limits 0 0)
       = None)
  ∧ (∀ L : GoLib,
       validateDecisionResponse (example_decision " hold " 1 0 0) (example_limits 0 0)
       = None).
Proof. repeat split; intros L; vm_compute; reflexivity. Qed.

(** ** Comparisons of [float64] *)





(** ** The reflection tiers *)

Lemma String_append_assoc (a b c : string) : (a +:+ b) +:+ c = a +:+ (b +:+ c).
Proof.
  induction a as [|x a IH]; [reflexivity|].
  change (String x ((a +:+ b) +:+ c) = String x (a +:+ (b +:+ c))).
  by rewrite IH.
Qed.

Section tier_theorems.
Context `{GoLib}.
#[local] Open Scope float_scope.




End tier_theorems.

(** ** Resilient invocation *)

Section retry_theorems.

Lemma sendCompletion_outcome (c : Client) (u : string)
    (messages : list completionMessage) (w : World) :
  messages ≠ [] → apiKey c ≠ "" → mcpClient c = Some u →
  sendCompletion c messages w = (outcome_of c (exchanges w (calls w)), advance w).
Proof.
  intros Hm Hkey Hmcp. unfold outcome_of, sendCompletion.
  destruct messages as [|m ms]; [done|].
  replace (len (m :: ms) =? 0) with false
    by (symmetry; apply Z.eqb_neq; unfold len; simpl; lia).
  change (len [zero_completionMessage] =? 0) with false. cbv iota.
  apply String.eqb_neq in Hkey. rewrite Hkey, Hmcp.
  unfold PostJSON, advance. simpl.
  destruct (exchanges w (calls w)) as [e|e|e|status body]; simpl; try reflexivity.
  destruct (400 <=? status); simpl; [reflexivity|].
  destruct body as [payload|e]; simpl; [|reflexivity].
  destruct (ErrorField payload); [reflexivity|].
  destruct (Choices payload); reflexivity.
Qed.

(** One iteration of the loop of [CallWithMessages]. *)
Lemma retry_loop_step (c : Client) (u : string) (m1 m2 : completionMessage)
    (remaining : nat) (attempt : Z) (lastErr : option error) (w : World) :
  apiKey c ≠ "" → mcpClient c = Some u →
  retry_loop c [m1; m2] (S remaining) attempt lastErr w
  = match outcome_of c (exchanges w (calls w)) with
    | Ok response => (Ok (Content response), advance w)
    | Err err =>
      if isNetworkError (Some err)
      then retry_loop c [m1; m2] remaining (attempt + 1) (Some err)
             (time_Sleep (attempt * baseRetryDelay) (advance w))
      else (Err err, advance w)
    end.
Proof.
  intros Hkey Hmcp. cbn [retry_loop].
  rewrite (sendCompletion_outcome c u) by done. reflexivity.
Qed.

(** The three iterations of [CallWithMessages], written out. *)
Lemma CallWithMessages_cases (c : Client) (u systemPrompt userPrompt : string)
    (w : World) :
  apiKey c ≠ "" → mcpClient c = Some u →
  let world (n : nat) (sleeps : list Z) : World :=
    {| exchanges := exchanges w; calls := (calls w + n)%nat;
       slept := slept w ++ sleeps |} in
  let o := attempt_outcome c w in
  CallWithMessages (Some c) systemPrompt userPrompt w
  = match o 0%nat with
    | Ok m => (Ok (Content m), world 1%nat [])
    | Err e0 =>
      if negb (isNetworkError (Some e0)) then (Err e0, world 1%nat []) else
      match o 1%nat with
      | Ok m => (Ok (Content m), world 2%nat (backoff 1))
      | Err e1 =>
        if negb (isNetworkError (Some e1))
        then (Err e1, world 2%nat (backoff 1)) else
        match o 2%nat with
        | Ok m => (Ok (Content m), world 3%nat (backoff 2))
        | Err e2 =>
          if negb (isNetworkError (Some e2))
          then (Err e2, world 3%nat (backoff 2))
          else (Err (Errorf_w "重试3次后仍然失败: " e2), world 3%nat (backoff 3))
        end
      end
    end.
Proof.
  intros Hkey Hmcp world o.
  unfold CallWithMessages.
  rewrite (proj2 (String.eqb_neq _ _) Hkey).
  change (Z.to_nat maxRetries) with 3%nat.
  assert (Hw : ∀ n sleeps w0, exchanges w0 = exchanges w →
             calls w0 = (calls w + n)%nat → slept w0 = slept w ++ sleeps →
             w0 = world n sleeps).
  { intros n sleeps [ex cs sl]. simpl. by intros -> -> ->. }
  assert (Ho : ∀ n w0, exchanges w0 = exchanges w → calls w0 = (calls w + n)%nat →
             outcome_of c (exchanges w0 (calls w0)) = o n).
  { intros n w0 -> ->. reflexivity. }
  rewrite (retry_loop_step c u) by done.
  rewrite (Ho 0%nat w) by (simpl; first [reflexivity | lia]).
  destruct (o 0%nat) as [m0|e0].
  { f_equal. apply Hw; simpl; [done | lia | by rewrite app_nil_r]. }
  destruct (isNetworkError (Some e0)); cbn [negb].
  2:{ f_equal. apply Hw; simpl; [done | lia | by rewrite app_nil_r]. }
  rewrite (retry_loop_step c u) by done.
  rewrite (Ho 1%nat (time_Sleep _ (advance w)))
    by (simpl; first [reflexivity | lia]).
  destruct (o 1%nat) as [m1|e1].
  { f_equal. apply Hw; simpl; [done | lia | done]. }
  destruct (isNetworkError (Some e1)); cbn [negb].
  2:{ f_equal. apply Hw; simpl; [done | lia | done]. }
  rewrite (retry_loop_step c u) by done.
  rewrite (Ho 2%nat (time_Sleep _ (advance (time_Sleep _ (advance w)))))
    by (simpl; first [reflexivity | lia]).
  destruct (o 2%nat) as [m2|e2].
  { f_equal. apply Hw; simpl; [done | lia | by rewrite <- app_assoc]. }
  destruct (isNetworkError (Some e2)); cbn [negb].
  2:{ f_equal. apply Hw; simpl; [done | lia | by rewrite <- app_assoc]. }
  f_equal. apply Hw; simpl; [done | lia | by rewrite <- !app_assoc].
Qed.

(** C3. A call makes at most three attempts and sleeps [n * 2s] after failing
    attempt [n].  After two retryable failures and a success it returns the
    content of that success, having slept 2s and then 4s.  After three
    retryable failures it has made exactly three attempts and returns an
    error whose message names the count and ends in the message of the last
    failure, which it wraps.  A result that is a success is the content of a
    successful attempt, never a substitute.  (The attempts are the calls of
    [PostJSON]; [o i] is the outcome of the attempt after [i] earlier ones.) *)
Theorem C3_retry_policy (c : Client) (u systemPrompt userPrompt : string)
    (w : World) :
  apiKey c ≠ "" → mcpClient c = Some u →
  let o := attempt_outcome c w in
  let r := fst (CallWithMessages (Some c) systemPrompt userPrompt w) in
  let w' := snd (CallWithMessages (Some c) systemPrompt userPrompt w) in
  (∃ n k : nat,
     (1 ≤ n ≤ 3)%nat ∧ calls w' = (calls w + n)%nat
     ∧ slept w' = slept w ++ backoff k
     ∧ (∀ i, (i < k)%nat → retryable (o i) = true)
     ∧ (k = n ∨ (S k = n ∧ retryable (o k) = false)))
  ∧ (∀ m, retryable (o 0%nat) = true → retryable (o 1%nat) = true →
          o 2%nat = Ok m →
          r = Ok (Content m) ∧ calls w' = (calls w + 3)%nat
          ∧ slept w' = slept w ++ [1 * baseRetryDelay; 2 * baseRetryDelay])
  ∧ (∀ e, retryable (o 0%nat) = true → retryable (o 1%nat) = true →
          o 2%nat = Err e → isNetworkError (Some e) = true →
          r = Err (Errorf_w "重试3次后仍然失败: " e)
          ∧ Error (Errorf_w "重试3次后仍然失败: " e) = "重试3次后仍然失败: " +:+ Error e
          ∧ Unwrap (Errorf_w "重试3次后仍然失败: " e) = Some e
          ∧ calls w' = (calls w + 3)%nat
          ∧ slept w' = slept w
               ++ [1 * baseRetryDelay; 2 * baseRetryDelay; 3 * baseRetryDelay])
  ∧ (∀ s, r = Ok s →
          ∃ (i : nat) m, (i < 3)%nat ∧ o i = Ok m ∧ Content m = s
                         ∧ ∀ j, (j < i)%nat → retryable (o j) = true).
Proof.
  intros Hkey Hmcp o r w'. subst r w'.
  rewrite (CallWithMessages_cases c u) by done.
  subst o. cbv zeta. clear Hkey Hmcp.
  generalize (attempt_outcome c w). intros o.
  assert (H1 : ∀ P : nat → Prop, P 0%nat → ∀ i, (i < 1)%nat → P i).
  { intros P HP i Hi. by replace i with 0%nat by lia. }
  assert (H2 : ∀ P : nat → Prop, P 0%nat → P 1%nat → ∀ i, (i < 2)%nat → P i).
  { intros P HP0 HP1 i Hi.
    assert (i = 0 ∨ i = 1)%nat as [-> | ->] by lia; done. }
  assert (H3 : ∀ P : nat → Prop, P 0%nat → P 1%nat → P 2%nat →
               ∀ i, (i < 3)%nat → P i).
  { intros P HP0 HP1 HP2 i Hi.
    assert (i = 0 ∨ i = 1 ∨ i = 2)%nat as [-> | [-> | ->]] by lia; done. }
  destruct (o 0%nat) as [m0|e0] eqn:E0; cbn [fst snd negb calls slept retryable].
  { repeat split; try (intros; congruence).
    - exists 1%nat, 0%nat. repeat split; try lia. right. by rewrite E0.
    - intros s [= <-]. exists 0%nat, m0. repeat split; [lia|done|lia]. }
  destruct (isNetworkError (Some e0)) eqn:N0; cbn [fst snd negb calls slept retryable].
  2:{ repeat split; try (intros; congruence).
    exists 1%nat, 0%nat. repeat split; try lia. right. by rewrite E0. }
  destruct (o 1%nat) as [m1|e1] eqn:E1; cbn [fst snd negb calls slept retryable].
  { repeat split; try (intros; congruence).
    - exists 2%nat, 1%nat. repeat split; try lia.
      + apply H1. by rewrite E0.
      + right. by rewrite E1.
    - intros s [= <-]. exists 1%nat, m1. repeat split; [lia|done|].
      apply H1. by rewrite E0. }
  destruct (isNetworkError (Some e1)) eqn:N1; cbn [fst snd negb calls slept retryable].
  2:{ repeat split; try (intros; congruence).
    exists 2%nat, 1%nat. repeat split; try lia.
    - apply H1. by rewrite E0.
    - right. by rewrite E1. }
  assert (H01 : ∀ i, (i < 2)%nat → retryable (o i) = true).
  { apply H2; [by rewrite E0 | by rewrite E1]. }
  destruct (o 2%nat) as [m2|e2] eqn:E2; cbn [fst snd negb calls slept retryable].
  { repeat split; try (intros; congruence).
    - exists 3%nat, 2%nat. repeat split; try lia; [done|]. right. by rewrite E2.
    - intros s [= <-]. exists 2%nat, m2. repeat split; [lia|done|done]. }
  destruct (isNetworkError (Some e2)) eqn:N2;
    cbn [fst snd negb calls slept retryable].
  2:{ repeat split; try (intros; congruence).
    exists 3%nat, 2%nat. repeat split; try lia; [done|]. right. by rewrite E2. }
  repeat split; try (intros; congruence).
  exists 3%nat, 3%nat. repeat split; try lia.
  apply H3; [by rewrite E0 | by rewrite E1 | by rewrite E2].
Qed.

End retry_theorems.

Section non_retryable_theorems.

Lemma prefix_empty (s : string) : String.prefix "" s = true.
Proof. by destruct s. Qed.

Lemma prefix_append_digits (word q t : string) :
  string_forall (λ c, negb (is_digit c)) word = true →
  string_forall is_digit t = true →
  String.prefix word (q +:+ t) = String.prefix word q.
Proof.
  intros Hw Ht. revert word Hw.
  induction q as [|b q IH]; intros [|a word] Hw;
    rewrite ?prefix_empty; try reflexivity.
  - simpl in Hw. apply andb_true_iff in Hw as [Ha _].
    destruct t as [|d t]; [reflexivity|].
    simpl in Ht. apply andb_true_iff in Ht as [Hd _].
    change ((if Ascii.ascii_dec a d then String.prefix word t else false) = false).
    destruct (Ascii.ascii_dec a d) as [->|]; [|reflexivity].
    by rewrite Hd in Ha.
  - simpl in Hw. apply andb_true_iff in Hw as [_ Hw].
    change ((if Ascii.ascii_dec a b then String.prefix word (q +:+ t) else false)
            = (if Ascii.ascii_dec a b then String.prefix word q else false)).
    destruct (Ascii.ascii_dec a b); [by apply IH | reflexivity].
Qed.

Lemma Index_from_append_digits (word q t : string) (i : Z) :
  word ≠ "" →
  string_forall (λ c, negb (is_digit c)) word = true →
  string_forall is_digit t = true →
  Index_from i (q +:+ t) word = Index_from i q word.
Proof.
  intros Hne Hw Ht. revert i.
  induction q as [|b q IH]; intros i.
  - change ("" +:+ t) with t.
    destruct word as [|a word]; [done|]. clear Hne.
    simpl in Hw. apply andb_true_iff in Hw as [Ha _].
    change (Index_from i "" (String a word)) with (-1).
    revert i. induction t as [|d t IHt]; intros i; [reflexivity|].
    simpl in Ht. apply andb_true_iff in Ht as [Hd Ht].
    change (Index_from i (String d t) (String a word))
      with (if (if Ascii.ascii_dec a d then String.prefix word t else false)
            then i else Index_from (i + 1) t (String a word)).
    destruct (Ascii.ascii_dec a d) as [->|]; [by rewrite Hd in Ha|].
    by apply IHt.
  - change (Index_from i (String b q +:+ t) word)
      with (if String.prefix word (String b q +:+ t) then i
            else Index_from (i + 1) (q +:+ t) word).
    change (Index_from i (String b q) word)
      with (if String.prefix word (String b q) then i
            else Index_from (i + 1) q word).
    rewrite prefix_append_digits by done. by rewrite IH.
Qed.

Lemma pretty_N_go_digits (x : N) (s : string) :
  string_forall is_digit s = true →
  string_forall is_digit (pretty_N_go x s) = true.
Proof.
  revert s. induction (N.lt_wf_0 x) as [x _ IH]; intros s Hs.
  assert (x = 0 ∨ 0 < x)%N as [-> | Hx] by lia.
  - by rewrite pretty_N_go_0.
  - rewrite pretty_N_go_step by done. apply IH; [by apply N.div_lt|].
    simpl. rewrite Hs, andb_true_r.
    unfold pretty_N_char. by repeat case_match.
Qed.

Lemma fmt_d_digits (z : Z) :
  0 ≤ z → string_forall is_digit (fmt_d z) = true.
Proof.
  intros Hz. unfold fmt_d, pretty, pretty_Z.
  destruct z as [|p|p]; [reflexivity| |lia].
  unfold pretty, pretty_positive, pretty, pretty_N.
  case_decide; [reflexivity|]. by apply pretty_N_go_digits.
Qed.

(** The error for a response with status 400 or above is not a network
    error. *)
Lemma http_status_not_network (status : Z) :
  0 ≤ status →
  isNetworkError
    (Some (Errorf_w "deepseek request: "
             (errors_New ("http status " +:+ fmt_d status)))) = false.
Proof.
  intros Hs. unfold isNetworkError, errors_New, Errorf_w.
  cbn [errors_As error_ty implements_net_Error is_DNSError is_OpError Error].
  replace (bool_decide (is_Some (@None error))) with false by reflexivity.
  cbv iota.
  assert (Hc : ∀ word,
    word ≠ "" → string_forall (λ c, negb (is_digit c)) word = true →
    strings_Contains "deepseek request: http status " word = false →
    strings_Contains ("deepseek request: " +:+ "http status " +:+ fmt_d status) word
    = false).
  { intros word Hne Hw Hp. unfold strings_Contains, strings_Index in *.
    change ("deepseek request: " +:+ "http status " +:+ fmt_d status)
      with ("deepseek request: http status " +:+ fmt_d status).
    rewrite Index_from_append_digits by auto using fmt_d_digits. exact Hp. }
  rewrite !Hc by done. reflexivity.
Qed.

(** A provider's business error is classified by its text alone. *)
Lemma business_error_classified (message : string) :
  isNetworkError (Some (errors_New message)) = mentions_network message.
Proof.
  unfold isNetworkError, errors_New, mentions_network.
  cbn [errors_As error_ty implements_net_Error is_DNSError is_OpError Error].
  replace (bool_decide (is_Some (@None error))) with false by reflexivity.
  cbv iota. by destruct (_ || _).
Qed.

(** The outcome of the first attempt of a call. *)
Lemma first_attempt_outcome (c : Client) (u : string) (w : World) :
  apiKey c ≠ "" → mcpClient c = Some u →
  attempt_outcome c w 0
  = match exchanges w (calls w) with
    | MarshalFails e =>
      Err (Errorf_w "deepseek request: " (Errorf_w "marshal request: " e))
    | NewRequestFails e =>
      Err (Errorf_w "deepseek request: " (Errorf_w "new request: " e))
    | DoFails e =>
      Err (Errorf_w "deepseek request: " (Errorf_w "do request: " e))
    | Response status body =>
      if 400 <=? status
      then Err (Errorf_w "deepseek request: "
                  (errors_New ("http status " +:+ fmt_d status)))
      else match body with
           | Err e =>
             Err (Errorf_w "deepseek request: " (Errorf_w "decode response: " e))
           | Ok payload =>
             match ErrorField payload with
             | Some message => Err (errors_New message)
             | None =>
               match Choices payload with
               | [] => Err (errors_New "deepseek无返回结果")
               | result :: _ => Ok result
               end
             end
           end
    end.
Proof.
  intros Hkey Hmcp. unfold attempt_outcome. rewrite Nat.add_0_r.
  unfold outcome_of, sendCompletion.
  change (len [zero_completionMessage] =? 0) with false. cbv iota.
  rewrite (proj2 (String.eqb_neq _ _) Hkey), Hmcp.
  cbn [PostJSON exchanges calls].
  destruct (exchanges w (calls w)) as [e|e|e|status body]; try reflexivity.
  destruct (400 <=? status); [reflexivity|].
  destruct body as [payload|e]; [|reflexivity]. cbn [fst].
  destruct (ErrorField payload); [reflexivity|].
  by destruct (Choices payload).
Qed.

(** The outcome of the attempt made after [i] earlier ones. *)
Lemma attempt_outcome_cases (c : Client) (u : string) (w : World) (i : nat) :
  apiKey c ≠ "" → mcpClient c = Some u →
  attempt_outcome c w i
  = match exchanges w (calls w + i)%nat with
    | MarshalFails e =>
      Err (Errorf_w "deepseek request: " (Errorf_w "marshal request: " e))
    | NewRequestFails e =>
      Err (Errorf_w "deepseek request: " (Errorf_w "new request: " e))
    | DoFails e =>
      Err (Errorf_w "deepseek request: " (Errorf_w "do request: " e))
    | Response status body =>
      if 400 <=? status
      then Err (Errorf_w "deepseek request: "
                  (errors_New ("http status " +:+ fmt_d status)))
      else match body with
           | Err e =>
             Err (Errorf_w "deepseek request: " (Errorf_w "decode response: " e))
           | Ok payload =>
             match ErrorField payload with
             | Some message => Err (errors_New message)
             | None =>
               match Choices payload with
               | [] => Err (errors_New "deepseek无返回结果")
               | result :: _ => Ok result
               end
             end
           end
    end.
Proof.
  intros Hkey Hmcp.
  pose proof (first_attempt_outcome c u
                {| exchanges := exchanges w; calls := calls w + i;
                   slept := slept w |} Hkey Hmcp) as Hf.
  unfold attempt_outcome in *. cbn [exchanges calls] in Hf.
  by rewrite Nat.add_0_r in Hf.
Qed.

(** An error that [isNetworkError] does not accept ends the call on the
    attempt on which it occurs, the first, the second or the third: it is
    returned as it is, after the sleeps of the failed attempts before it and
    no other. *)
Lemma not_retryable_returned (c : Client) (u systemPrompt userPrompt : string)
    (w : World) (k : nat) (e : error) :
  apiKey c ≠ "" → mcpClient c = Some u → (k < 3)%nat →
  (∀ i, (i < k)%nat → retryable (attempt_outcome c w i) = true) →
  attempt_outcome c w k = Err e → isNetworkError (Some e) = false →
  CallWithMessages (Some c) systemPrompt userPrompt w
  = (Err e, {| exchanges := exchanges w; calls := calls w + S k;
               slept := slept w ++ backoff k |}).
Proof.
  intros Hkey Hmcp Hk Hretry Ho He.
  rewrite (CallWithMessages_cases c u) by done. cbv zeta.
  assert (Hstep : ∀ i, (i < k)%nat →
            ∃ ei, attempt_outcome c w i = Err ei
                  ∧ isNetworkError (Some ei) = true).
  { intros i Hi. specialize (Hretry i Hi).
    destruct (attempt_outcome c w i) as [m|ei]; [discriminate|].
    by exists ei. }
  destruct k as [|[|[|k]]]; [| | |lia].
  - by rewrite Ho, He.
  - destruct (Hstep 0%nat) as (e0 & -> & ->); [lia|]. cbn [negb].
    by rewrite Ho, He.
  - destruct (Hstep 0%nat) as (e0 & -> & ->); [lia|].
    destruct (Hstep 1%nat) as (e1 & -> & ->); [lia|]. cbn [negb].
    by rewrite Ho, He.
Qed.

(** The errors that are not retryable, on whichever attempt they occur: a
    response with status 400 or above (authentication failure, rejected
    request), a response with no choices, and a provider's business error
    whose message contains none of "connection", "network", "timeout",
    "reset", "refused" are returned by that attempt, with no sleep after it
    and no further attempt.  A business error whose message contains one of
    the five words is taken for a network error: the attempt is
    retryable. *)
Lemma non_retryable_errors_returned (c : Client)
    (u systemPrompt userPrompt : string) (w : World) (k : nat) :
  apiKey c ≠ "" → mcpClient c = Some u → (k < 3)%nat →
  (∀ i, (i < k)%nat → retryable (attempt_outcome c w i) = true) →
  let call := CallWithMessages (Some c) systemPrompt userPrompt w in
  let w' := {| exchanges := exchanges w; calls := calls w + S k;
               slept := slept w ++ backoff k |} in
  (∀ status body,
     exchanges w (calls w + k)%nat = Response status body → 400 ≤ status →
     call = (Err (Errorf_w "deepseek request: "
                    (errors_New ("http status " +:+ fmt_d status))), w'))
  ∧ (∀ status payload,
       exchanges w (calls w + k)%nat = Response status (Ok payload) →
       status < 400 → ErrorField payload = None → Choices payload = [] →
       call = (Err (errors_New "deepseek无返回结果"), w'))
  ∧ (∀ status payload message,
       exchanges w (calls w + k)%nat = Response status (Ok payload) →
       status < 400 → ErrorField payload = Some message →
       (mentions_network message = false →
        call = (Err (errors_New message), w'))
       ∧ (mentions_network message = true →
          retryable (attempt_outcome c w k) = true)).
Proof.
  intros Hkey Hmcp Hk Hretry call w'. subst call w'.
  pose proof (attempt_outcome_cases c u w k Hkey Hmcp) as Ho.
  split; [|split].
  - intros status body Hex Hs. rewrite Hex in Ho.
    rewrite (proj2 (Z.leb_le 400 status) Hs) in Ho.
    apply (not_retryable_returned c u); try done.
    apply http_status_not_network. lia.
  - intros status payload Hex Hs Hf Hc. rewrite Hex in Ho.
    rewrite (proj2 (Z.leb_gt 400 status) Hs), Hf, Hc in Ho.
    by apply (not_retryable_returned c u).
  - intros status payload message Hex Hs Hf. rewrite Hex in Ho.
    rewrite (proj2 (Z.leb_gt 400 status) Hs), Hf in Ho.
    split; intros Hm.
    + apply (not_retryable_returned c u); try done.
      by rewrite business_error_classified.
    + rewrite Ho. cbn [retryable]. by rewrite business_error_classified.
Qed.

End non_retryable_theorems.

(** C4. The claim fails on the code for a business error whose message
    holds one of the five words of [isNetworkError].  When the provider
    answers with "upstream timeout" in the error field, [sendCompletion]
    returns that message as the error and [isNetworkError] accepts it for
    its substring "timeout".  So the call is not ended by the first attempt:
    with the same answer every time it makes three requests, sleeps 2s, 4s
    and 6s and reports exhaustion; with a completion as the second answer it
    sleeps 2s and returns that completion.  A business error without such a
    word is returned by the first attempt, with no sleep. *)
Theorem C4_business_error_retried :
  isNetworkError (Some (errors_New "upstream timeout")) = true
  ∧ CallWithMessages (Some example_client) "system" "user"
      (world_of (λ _, business_error "upstream timeout"))
    = (Err (Errorf_w "重试3次后仍然失败: " (errors_New "upstream timeout")),
       {| exchanges := λ _, business_error "upstream timeout"; calls := 3;
          slept := [2000000000; 4000000000; 6000000000] |})
  ∧ (let script (n : nat) :=
       if (n <? 1)%nat then business_error "upstream timeout"
       else completion "{}" in
     CallWithMessages (Some example_client) "system" "user" (world_of script)
     = (Ok "{}", {| exchanges := script; calls := 2; slept := [2000000000] |}))
  ∧ CallWithMessages (Some example_client) "system" "user"
      (world_of (λ _, business_error "insufficient balance"))
    = (Err (errors_New "insufficient balance"),
       {| exchanges := λ _, business_error "insufficient balance"; calls := 1;
          slept := [] |}).
Proof. repeat split; vm_compute; reflexivity. Qed.

(** An authentication failure on the second attempt, after a refused
    connection: it is returned by that attempt, after the one sleep of
    2s. *)
Lemma non_retryable_errors_returned_example :
  let script (n : nat) :=
    if (n <? 1)%nat then connection_refused
    else Response 401 (Err (errors_New "unauthorized")) in
  CallWithMessages (Some example_client) "system" "user" (world_of script)
  = (Err (Errorf_w "deepseek request: " (errors_New "http status 401")),
     {| exchanges := script; calls := 2; slept := [2000000000] |}).
Proof.
  intros script.
  refine (proj1 (non_retryable_errors_returned example_client _ "system" "user"
                   (world_of script) 1 _ eq_refl _ _) 401 _ eq_refl _).
  - discriminate.
  - lia.
  - intros i Hi. replace i with 0%nat by lia. vm_compute. reflexivity.
  - lia.
Defined.

Lemma C3_retry_policy_witness :
  let w := world_of (λ n, if (n <? 2)%nat then connection_refused
                          else completion "{}") in
  fst (CallWithMessages (Some example_client) "system" "user" w) = Ok "{}"
  ∧ calls (snd (CallWithMessages (Some example_client) "system" "user" w)) = 3%nat
  ∧ slept (snd (CallWithMessages (Some example_client) "system" "user" w))
    = [2000000000; 4000000000].
Proof.
  intros w.
  refine (proj1 (proj2
    (C3_retry_policy example_client _ "system" "user" w _ eq_refl))
    {| Role := "assistant"; Content := "{}" |} eq_refl eq_refl eq_refl).
  discriminate.
Defined.

(** ** White space trimming *)

Section trim_lemmas.

Lemma String_append_empty_r (s : string) : s +:+ "" = s.
Proof.
  induction s as [|c s IH]; [reflexivity|].
  change (String c (s +:+ "") = String c s). by rewrite IH.
Qed.

Lemma rev_app_append (a b : string) : String.rev_app a b = String.rev a +:+ b.
Proof.
  unfold String.rev. revert b.
  induction a as [|c a IH]; intros b; [reflexivity|].
  simpl. rewrite IH, (IH (String c "")), String_append_assoc. reflexivity.
Qed.

Lemma rev_append (a b : string) :
  String.rev (a +:+ b) = String.rev b +:+ String.rev a.
Proof.
  induction a as [|c a IH].
  - change ("" +:+ b) with b. by rewrite String_append_empty_r.
  - change (String c a +:+ b) with (String c (a +:+ b)).
    unfold String.rev at 1 3. simpl.
    rewrite !rev_app_append, IH, String_append_assoc. reflexivity.
Qed.

Lemma rev_involutive (s : string) : String.rev (String.rev s) = s.
Proof.
  induction s as [|c s IH]; [reflexivity|].
  unfold String.rev at 2. simpl. rewrite rev_app_append, rev_append, IH.
  reflexivity.
Qed.

(** A rune that is white space is not the error rune. *)
Lemma IsSpace_RuneError : unicode_IsSpace utf8.RuneError = false.
Proof. reflexivity. Qed.

(** Decoding reads the bytes of the rune only: text appended to a string
    that starts with a valid encoding does not change its first rune. *)
Lemma DecodeRuneInString_append (p q : string) :
  unicode_IsSpace (fst (utf8.DecodeRuneInString p)) = true →
  utf8.DecodeRuneInString (p +:+ q) = utf8.DecodeRuneInString p.
Proof.
  assert (Herr : unicode_IsSpace (fst (utf8.RuneError, 1%nat)) = true → False)
    by discriminate.
  destruct p as [|c0 p]; [discriminate|].
  change (String c0 p +:+ q) with (String c0 (p +:+ q)).
  unfold utf8.DecodeRuneInString. cbv beta iota zeta.
  destruct (utf8.byte c0 <? utf8.RuneSelf)%N; [reflexivity|].
  destruct (utf8.first (utf8.byte c0)) as [[[sz lo] hi]|];
    [|by intros ?%Herr].
  destruct p as [|c1 p]; [by intros ?%Herr|].
  change (String c1 p +:+ q) with (String c1 (p +:+ q)). cbv beta iota zeta.
  destruct ((utf8.byte c1 <? lo)%N || (hi <? utf8.byte c1)%N); [reflexivity|].
  destruct (sz <=? 2)%nat; [reflexivity|].
  destruct p as [|c2 p]; [by intros ?%Herr|].
  change (String c2 p +:+ q) with (String c2 (p +:+ q)). cbv beta iota zeta.
  destruct (negb (utf8.is_cont (utf8.byte c2))); [reflexivity|].
  destruct (sz <=? 3)%nat; [reflexivity|].
  destruct p as [|c3 p]; [by intros ?%Herr|].
  change (String c3 p +:+ q) with (String c3 (p +:+ q)). cbv beta iota zeta.
  reflexivity.
Qed.

Lemma trimL_result (k : nat) (s : string) : no_leading_space (TrimLeftFunc_from unicode_IsSpace k s).
Proof.
  revert k. induction s as [|c s IH]; intros k; [by left|].
  destruct k as [|k]; [|apply IH].
  cbn [TrimLeftFunc_from].
  destruct (utf8.DecodeRuneInString (String c s)) as [r n] eqn:E.
  destruct (unicode_IsSpace r) eqn:Hr; [apply IH|].
  right. by rewrite E.
Qed.

Lemma trimL_fixed (s : string) : no_leading_space s → TrimLeftFunc_from unicode_IsSpace 0 s = s.
Proof.
  intros [-> | Hs]; [reflexivity|].
  destruct s as [|c s]; [reflexivity|]. cbn [TrimLeftFunc_from].
  destruct (utf8.DecodeRuneInString (String c s)) as [r n].
  simpl in Hs. by rewrite Hs.
Qed.

Lemma trimR_result (k : nat) (rs : string) : no_trailing_space_rev (TrimRightFunc_from unicode_IsSpace k rs).
Proof.
  revert k. induction rs as [|c rs IH]; intros k; [by left|].
  destruct k as [|k]; [|apply IH].
  cbn [TrimRightFunc_from].
  destruct (utf8.DecodeLastRuneRev (String c rs)) as [r n] eqn:E.
  destruct (unicode_IsSpace r) eqn:Hr; [apply IH|].
  right. by rewrite E.
Qed.

Lemma trimR_fixed (rs : string) : no_trailing_space_rev rs → TrimRightFunc_from unicode_IsSpace 0 rs = rs.
Proof.
  intros [-> | Hs]; [reflexivity|].
  destruct rs as [|c rs]; [reflexivity|]. cbn [TrimRightFunc_from].
  destruct (utf8.DecodeLastRuneRev (String c rs)) as [r n].
  simpl in Hs. by rewrite Hs.
Qed.

(** Trimming on the right keeps a prefix. *)
Lemma trimR_suffix (k : nat) (rs : string) : ∃ d, rs = d +:+ TrimRightFunc_from unicode_IsSpace k rs.
Proof.
  revert k. induction rs as [|c rs IH]; intros k; [by exists ""|].
  assert (Hrec : ∀ j, ∃ d, String c rs = d +:+ TrimRightFunc_from unicode_IsSpace j rs).
  { intros j. destruct (IH j) as [d Hd]. exists (String c d).
    change (String c d +:+ TrimRightFunc_from unicode_IsSpace j rs) with (String c (d +:+ TrimRightFunc_from unicode_IsSpace j rs)).
    by rewrite <- Hd. }
  destruct k as [|k]; [|apply Hrec].
  cbn [TrimRightFunc_from].
  destruct (utf8.DecodeLastRuneRev (String c rs)) as [r n].
  destruct (unicode_IsSpace r); [apply Hrec | by exists ""].
Qed.

Lemma TrimRightFunc_prefix (s : string) :
  ∃ q, s = strings_TrimRightFunc s unicode_IsSpace +:+ q.
Proof.
  unfold strings_TrimRightFunc.
  destruct (trimR_suffix 0 (String.rev s)) as [d Hd].
  exists (String.rev d).
  rewrite <- rev_append, <- Hd. by rewrite rev_involutive.
Qed.

Lemma TrimRightFunc_keeps_no_leading_space (s : string) :
  no_leading_space s →
  no_leading_space (strings_TrimRightFunc s unicode_IsSpace).
Proof.
  intros Hs. destruct (TrimRightFunc_prefix s) as [q Hq].
  set (p := strings_TrimRightFunc s unicode_IsSpace) in *.
  destruct Hs as [-> | Hs].
  - left. destruct p; [reflexivity | discriminate].
  - destruct (unicode_IsSpace (fst (utf8.DecodeRuneInString p))) eqn:Hp;
      [|by right].
    rewrite Hq, (DecodeRuneInString_append p q Hp) in Hs. congruence.
Qed.

(** What [strings.TrimSpace] returns has no white space at either end ... *)
Lemma TrimSpace_result (s : string) :
  no_leading_space (strings_TrimSpace s)
  ∧ no_trailing_space_rev (String.rev (strings_TrimSpace s)).
Proof.
  unfold strings_TrimSpace, strings_TrimLeftFunc. split.
  - apply TrimRightFunc_keeps_no_leading_space, trimL_result.
  - unfold strings_TrimRightFunc. rewrite rev_involutive. apply trimR_result.
Qed.

(** ... and such a string is left as it is. *)
Lemma TrimSpace_fixed (s : string) :
  no_leading_space s → no_trailing_space_rev (String.rev s) →
  strings_TrimSpace s = s.
Proof.
  intros Hl Hr. unfold strings_TrimSpace, strings_TrimLeftFunc.
  rewrite (trimL_fixed s Hl). unfold strings_TrimRightFunc.
  by rewrite (trimR_fixed _ Hr), rev_involutive.
Qed.

Lemma TrimSpace_idempotent (s : string) :
  strings_TrimSpace (strings_TrimSpace s) = strings_TrimSpace s.
Proof. apply TrimSpace_fixed; apply TrimSpace_result. Qed.

End trim_lemmas.

(** ** Fence stripping *)

Section fence_theorems.
Context `{GoLib}.

(** Every path through [trimJSONFences] ends in [strings.TrimSpace]. *)
Lemma trimJSONFences_trimmed (s : string) :
  ∃ x, trimJSONFences s = strings_TrimSpace x.
Proof.
  unfold trimJSONFences.
  destruct (strings_HasPrefix (strings_TrimSpace s) FENCE); eauto.
Qed.

Lemma trimJSONFences_unfenced (s : string) :
  strings_HasPrefix (strings_TrimSpace s) FENCE = false →
  trimJSONFences s = strings_TrimSpace s.
Proof. intros Hs. unfold trimJSONFences. by rewrite Hs. Qed.

(** C8 (amended). Stripping removes one layer of fence.  Stripping twice
    equals stripping once whenever the stripped text does not itself begin
    with a fence marker; and a text that, white space aside, begins with no
    fence marker is returned with its surrounding white space trimmed and
    nothing else changed. *)
Theorem C8_fence_stripping (s : string) :
  strings_HasPrefix (trimJSONFences s) FENCE = false →
  trimJSONFences (trimJSONFences s) = trimJSONFences s
  ∧ (strings_HasPrefix (strings_TrimSpace s) FENCE = false →
     trimJSONFences s = strings_TrimSpace s).
Proof.
  intros Hs. split; [|apply trimJSONFences_unfenced].
  destruct (trimJSONFences_trimmed s) as [x Hx].
  rewrite trimJSONFences_unfenced; rewrite Hx, TrimSpace_idempotent;
    [reflexivity | by rewrite <- Hx].
Qed.

End fence_theorems.

(** C8, as stated, fails: with two opening markers only the first is
    removed, and a second pass removes the other. *)
Lemma C8_counterexample :
  (∀ L : GoLib, trimJSONFences "``````x" = "```x")
  ∧ (∀ L : GoLib, trimJSONFences (trimJSONFences "``````x") = "x").
Proof. split; intros L; vm_compute; reflexivity. Qed.

Lemma C8_fence_stripping_witness :
  trimJSONFences (H := example_lib)
    (trimJSONFences (H := example_lib) ("```json" +:+ LF +:+ "{}" +:+ LF +:+ "```"))
  = trimJSONFences (H := example_lib) ("```json" +:+ LF +:+ "{}" +:+ LF +:+ "```").
Proof.
  apply (C8_fence_stripping (H := example_lib)
           ("```json" +:+ LF +:+ "{}" +:+ LF +:+ "```")).
  reflexivity.
Defined.

(** ** Coercion of [riskNotes] *)

Section riskNotes_theorems.
Context `{GoLib}.

Lemma mapM_decode_string (elems : list json) :
  mapM (decode_string "") elems
  = if forallb string_or_null elems
    then Some (map string_of_string_or_null elems) else None.
Proof.
  induction elems as [|v elems IH]; [reflexivity|].
  cbn [mapM forallb map]. rewrite IH.
  destruct v; simpl; try reflexivity; by destruct (forallb _ _).
Qed.

(** C7 (amended). [parseRiskNotes] returns the empty list for an absent field
    and for [null]; a list of strings as it is, and more generally a list of
    strings and [null]s with each [null] as the empty string; a single
    string as a one-element list, or the empty list if the string is blank;
    any other list with each element written by [fmt.Sprint] ([null] as
    "<nil>"), unless one of its numbers is outside the range of [float64];
    and an error for such a list and for every other value. *)
Theorem C7_riskNotes_coercion :
  parseRiskNotes "" = Ok []
  ∧ (∀ raw v, json_parse raw = Some v →
              parseRiskNotes raw = coerced_riskNotes raw v)
  ∧ parseRiskNotes (QUOTE +:+ "single note" +:+ QUOTE) = Ok ["single note"]
  ∧ parseRiskNotes ("[" +:+ QUOTE +:+ "a" +:+ QUOTE +:+ "," +:+
                    QUOTE +:+ "b" +:+ QUOTE +:+ "]") = Ok ["a"; "b"]
  ∧ parseRiskNotes "null" = Ok []
  ∧ parseRiskNotes ("[1," +:+ QUOTE +:+ "b" +:+ QUOTE +:+ ",true]")
    = Ok ["1"; "b"; "true"].
Proof.
  split; [reflexivity|]. split; [|by vm_compute].
  intros raw v Hv. unfold parseRiskNotes.
  destruct raw as [|c raw]; [discriminate|].
  change (Z.of_nat (String.length (String c raw)) =? 0)
    with (Z.of_nat (S (String.length raw)) =? 0).
  replace (Z.of_nat (S (String.length raw)) =? 0) with false
    by (symmetry; apply Z.eqb_neq; lia).
  cbn [orb].
  destruct (String.eqb_spec (String c raw) "null") as [Hnull | _].
  { rewrite Hnull in Hv |- *. vm_compute in Hv. by injection Hv as <-. }
  rewrite Hv. cbn [mbind option_bind].
  destruct v as [|b|lit|s|elems|members]; try reflexivity.
  unfold decode_string_slice, coerced_riskNotes.
  rewrite mapM_decode_string.
  destruct (forallb string_or_null elems); reflexivity.
Qed.

End riskNotes_theorems.

(** C7, as stated, fails: a list that holds a number outside the range of
    [float64] is not converted but refused; and [null] becomes the empty
    string in a list of strings but "<nil>" in a list with a number. *)
Lemma C7_counterexample :
  (∀ L : GoLib,
     parseRiskNotes ("[1e999," +:+ QUOTE +:+ "b" +:+ QUOTE +:+ "]")
     = Err (errors_New ("riskNotes 无法解析: [1e999," +:+ QUOTE +:+ "b" +:+ QUOTE +:+ "]")))
  ∧ (∀ L : GoLib,
       parseRiskNotes ("[null," +:+ QUOTE +:+ "b" +:+ QUOTE +:+ "]") = Ok [""; "b"])
  ∧ (∀ L : GoLib, parseRiskNotes "[null,1]" = Ok ["<nil>"; "1"]).
Proof. repeat split; intros L; vm_compute; reflexivity. Qed.

(** ** The audit fields of a parsed decision *)

Section audit_theorems.
Context `{GoLib}.

Lemma parseFullDecisionResponse_audit (raw : string) (resp : DecisionResponse) :
  parseFullDecisionResponse raw = Ok resp →
  RawContent resp = trimJSONFences raw ∧ CoTTrace resp = extractCoTTrace raw.
Proof.
  unfold parseFullDecisionResponse.
  destruct (String.eqb (trimJSONFences raw) ""); [discriminate|].
  destruct (decodeDecision (trimJSONFences raw)) as [r0|e0].
  { intros [= <-]. by split. }
  destruct ((0 <=? strings_Index (trimJSONFences raw) "{")
            && (strings_Index (trimJSONFences raw) "{"
                <? strings_LastIndex (trimJSONFences raw) "}"));
    [|discriminate].
  destruct (decodeDecision _) as [r1|e1]; [|discriminate].
  intros [= <-]. by split.
Qed.

End audit_theorems.

(** C6, as stated, fails.  For a reply with commentary around the object the
    whole text does not decode and the substring from the first opening to
    the last closing brace does, yet [RawContent] is the whole text; and
    [GenerateDecision] returns the reply with its fence in [RawContent],
    although the fence-stripped text was decoded.  And [CoTTrace] is not
    always the text before the first opening brace: for a reply in a fence
    the first line is left out, so a remark on the line of the tag is lost,
    and where that line holds a brace the trace is text after it. *)
Lemma C6_counterexample :
  (∀ L : GoLib, decodeDecision hold_with_commentary = Err json_error)
  ∧ (∀ L : GoLib, decodeDecision hold_json = Ok (hold_decision "" ""))
  ∧ (∀ L : GoLib,
       parseFullDecisionResponse hold_with_commentary
       = Ok (hold_decision hold_with_commentary "I think so"))
  ∧ (∀ L : GoLib,
       fst (GenerateDecision (Some example_client) example_request
              "2025-01-01 00:00:00" [] (world_of (λ _, completion hold_fenced)))
       = Ok (hold_decision hold_fenced ""))
  ∧ (∀ L : GoLib,
       parseFullDecisionResponse hold_fenced_remark
       = Ok (hold_decision hold_json ""))
  ∧ (∀ L : GoLib,
       parseFullDecisionResponse hold_fenced_brace
       = Ok (hold_decision ("I think" +:+ LF +:+ hold_json) "I think")).
Proof. repeat split; intros L; vm_compute; reflexivity. Qed.

(** ** Reproducibility of the prompts *)

Section prompt_theorems.
Context `{GoLib}.

(** Sorting forgets the order in which the keys arrived. *)
Lemma sort_Strings_Permutation (l1 l2 : list string) :
  l1 ≡ₚ l2 → sort_Strings l1 = sort_Strings l2.
Proof.
  intros Hp. unfold sort_Strings.
  apply (StronglySorted_unique String.le).
  - apply StronglySorted_merge_sort; apply _.
  - apply StronglySorted_merge_sort; apply _.
  - by rewrite !merge_sort_Permutation.
Qed.

Lemma String_append_inj_r (a b c : string) : a +:+ c = b +:+ c → a = b.
Proof.
  intros Heq. apply (f_equal String.rev) in Heq.
  rewrite !rev_append in Heq. apply (inj _) in Heq.
  by rewrite <- (rev_involutive a), <- (rev_involutive b), Heq.
Qed.

(** The user prompt is its first line up to the clock text, the clock text,
    and a remainder in which the clock does not occur. *)
Lemma buildUserPrompt_clock (rangeOrder : list string) (ctx : promptContext.t) :
  ∃ rest, ∀ now',
    buildUserPrompt now' rangeOrder ctx = "**时间**: " +:+ now' +:+ rest.
Proof.
  eexists. intros now'. unfold buildUserPrompt. cbv zeta.
  unfold Builder_String at 1. cbn [foldr].
  rewrite !String_append_assoc. reflexivity.
Qed.

(** C9 (amended). The system prompt is a function of the arguments of
    [buildSystemPrompt] alone.  The user prompt is a function of the argument
    of [buildUserPrompt] and of the wall-clock time of the call, which it
    writes into its first line: it is the same for every order in which the
    runtime delivers the keys of the market data, and for one clock text; and
    two calls that read different clock texts give different prompts. *)
Theorem C9_prompt_reproducibility :
  (∀ equity equity' lev lev' alt alt' limits limits' perf perf' pos pos',
     equity = equity' → lev = lev' → alt = alt' → limits = limits' →
     perf = perf' → pos = pos' →
     buildSystemPrompt equity lev alt limits perf pos
     = buildSystemPrompt equity' lev' alt' limits' perf' pos')
  ∧ (∀ now ctx order order',
       range_orders ctx order → range_orders ctx order' →
       buildUserPrompt now order ctx = buildUserPrompt now order' ctx)
  ∧ (∀ now now' ctx order,
       buildUserPrompt now order ctx = buildUserPrompt now' order ctx →
       now = now').
Proof.
  repeat split.
  - by intros; subst.
  - intros now ctx order order' Ho Ho'. unfold buildUserPrompt.
    rewrite (sort_Strings_Permutation order order'); [reflexivity|].
    unfold range_orders in *. by rewrite Ho, Ho'.
  - intros now now' ctx order Heq.
    destruct (buildUserPrompt_clock order ctx) as [rest Hrest].
    rewrite !Hrest in Heq. apply (inj _) in Heq.
    by apply String_append_inj_r in Heq.
Qed.

End prompt_theorems.

(** C9, as stated, fails for the user prompt: [buildUserPrompt] reads the
    clock, so two calls on the same request one second apart render
    different prompts. *)
Lemma C9_counterexample :
  (∀ L : GoLib,
     String.prefix "**时间**: 2025-01-01 00:00:00 |"
       (buildUserPrompt "2025-01-01 00:00:00" ["BTCUSDT"; "ETHUSDT"]
          example_prompt_context) = true)
  ∧ (∀ L : GoLib,
       String.prefix "**时间**: 2025-01-01 00:00:01 |"
         (buildUserPrompt "2025-01-01 00:00:01" ["BTCUSDT"; "ETHUSDT"]
            example_prompt_context) = true)
  ∧ (∀ L : GoLib,
       String.eqb
         (buildUserPrompt "2025-01-01 00:00:00" ["BTCUSDT"; "ETHUSDT"]
            example_prompt_context)
         (buildUserPrompt "2025-01-01 00:00:01" ["BTCUSDT"; "ETHUSDT"]
            example_prompt_context) = false).
Proof. repeat split; intros L; vm_compute; reflexivity. Qed.

Lemma C9_prompt_reproducibility_witness :
  buildUserPrompt (H := example_lib) "2025-01-01 00:00:00"
    ["BTCUSDT"; "ETHUSDT"] example_prompt_context
  = buildUserPrompt (H := example_lib) "2025-01-01 00:00:00"
      ["ETHUSDT"; "BTCUSDT"] example_prompt_context.
Proof.
  apply (proj1 (proj2 (C9_prompt_reproducibility (H := example_lib))));
    unfold range_orders; vm_compute.
  - apply Permutation_swap.
  - apply Permutation_refl.
Defined.

(** ** Lengths of texts *)

Lemma String_length_append (a b : string) :
  String.length (a +:+ b) = (String.length a + String.length b)%nat.
Proof.
  induction a as [|c a IH]; [reflexivity|].
  change (String c a +:+ b) with (String c (a +:+ b)). simpl. by rewrite IH.
Qed.

Lemma string_take_length (n : nat) (s : string) :
  String.length (string_take n s) = Nat.min n (String.length s).
Proof. revert s; induction n as [|n IH]; intros [|c s]; simpl; auto. Qed.

Lemma string_drop_length (n : nat) (s : string) :
  String.length (string_drop n s) = (String.length s - n)%nat.
Proof. revert s; induction n as [|n IH]; intros [|c s]; simpl; auto. Qed.

Lemma prefix_length (a b : string) :
  String.prefix a b = true → (String.length a ≤ String.length b)%nat.
Proof.
  revert b. induction a as [|c a IH]; intros b Hp; [simpl; lia|].
  destruct b as [|d b]; [discriminate|].
  simpl in Hp. destruct (Ascii.ascii_dec c d); [|discriminate].
  apply IH in Hp. simpl. lia.
Qed.

(** A text contains no text longer than itself. *)
Lemma Index_from_found (s sub : string) (i : Z) :
  0 ≤ Index_from i s sub → (String.length sub ≤ String.length s)%nat.
Proof.
  revert i. induction s as [|c s IH]; intros i; cbn [Index_from].
  - destruct (String.prefix sub "") eqn:Hp; [|lia].
    intros _. by apply prefix_length in Hp.
  - destruct (String.prefix sub (String c s)) eqn:Hp.
    + intros _. by apply prefix_length in Hp.
    + intros Hf. apply IH in Hf. simpl. lia.
Qed.

(** ** The client and its key *)

(** [New] on an enabled configuration, with the log at hand, in one piece. *)
Lemma New_enabled (config : DeepseekConfig) :
  Enabled config = true →
  let B := if String.eqb (BaseURL config) ""
           then "https://api.deepseek.com/v1" else BaseURL config in
  let M := if String.eqb (Model config) ""
           then "deepseek-chat" else Model config in
  let T := if (Temperature config =? 0)%float
           then 0.5%float else Temperature config in
  let P := if (TopP config =? 0)%float then 0.9%float else TopP config in
  let K := if MaxTokens config =? 0 then 2000 else MaxTokens config in
  New true config
  = Returns (Some (Build_Client (Some B)
               {| Enabled := true; BaseURL := B; Model := M; Temperature := T;
                  TopP := P; MaxTokens := K |} "")).
Proof.
  destruct config as [e b m t p k].
  cbn [Enabled BaseURL Model Temperature TopP MaxTokens].
  intros ->.
  destruct (t =? 0)%float eqn:Ht, (p =? 0)%float eqn:Hp;
    destruct b as [|cb b], m as [|cm m], k as [|k|k];
    lazy; rewrite ?Ht; lazy; rewrite ?Hp; reflexivity.
Qed.

(** The client that [New] returns has no key, and its transport has the
    base URL of its configuration. *)
Lemma New_returns (config : DeepseekConfig) (c : Client) :
  New true config = Returns (Some c) →
  apiKey c = "" ∧ mcpClient c = Some (BaseURL (cfg c)).
Proof.
  destruct (Enabled config) eqn:He.
  - rewrite (New_enabled config He). cbv zeta. by intros [= <-].
  - destruct config as [e b m t p k]. cbn [Enabled] in He. subst e.
    discriminate.
Qed.

(** X1. [New] gives no client for a disabled configuration, without touching
    the log.  For an enabled one it panics if the log cannot be opened, and
    otherwise gives a client without a key whose configuration has no zero
    field left: an empty base URL or model and a zero temperature, top-p or
    token limit are replaced by the defaults, and every other value is kept.
    The transport gets the base URL of that configuration, so with the
    default base URL the completion request goes to
    [https://api.deepseek.com/v1/v1/chat/completions]. *)
Theorem New_client (config : DeepseekConfig) :
  (Enabled config = false → ∀ log_opens, New log_opens config = Returns None)
  ∧ (Enabled config = true → New false config = Panics)
  ∧ (Enabled config = true →
     ∃ c, New true config = Returns (Some c)
       ∧ apiKey c = ""
       ∧ mcpClient c = Some (BaseURL (cfg c))
       ∧ completion_endpoint c = Some (BaseURL (cfg c) +:+ "/v1/chat/completions")
       ∧ BaseURL (cfg c) ≠ "" ∧ Model (cfg c) ≠ ""
       ∧ (Temperature (cfg c) =? 0)%float = false
       ∧ (TopP (cfg c) =? 0)%float = false
       ∧ MaxTokens (cfg c) ≠ 0
       ∧ (BaseURL config ≠ "" → BaseURL (cfg c) = BaseURL config)
       ∧ (Model config ≠ "" → Model (cfg c) = Model config)
       ∧ ((Temperature config =? 0)%float = false →
          Temperature (cfg c) = Temperature config)
       ∧ ((TopP config =? 0)%float = false → TopP (cfg c) = TopP config)
       ∧ (MaxTokens config ≠ 0 → MaxTokens (cfg c) = MaxTokens config)
       ∧ (BaseURL config = "" →
          completion_endpoint c
          = Some "https://api.deepseek.com/v1/v1/chat/completions")).
Proof.
  split; [|split].
  - destruct config as [e b m t p k]. cbn [Enabled]. by intros ->.
  - destruct config as [e b m t p k]. cbn [Enabled]. by intros ->.
  - intros He. eexists. split; [apply (New_enabled config He)|].
    unfold completion_endpoint, defaultCompletionPath.
    cbn [apiKey mcpClient cfg BaseURL Model Temperature TopP MaxTokens
         fmap option_fmap option_map].
    destruct (String.eqb_spec (BaseURL config) "") as [Hb|Hb];
    destruct (String.eqb_spec (Model config) "") as [Hm|Hm];
    destruct (Temperature config =? 0)%float eqn:Ht;
    destruct (TopP config =? 0)%float eqn:Hp;
    destruct (Z.eqb_spec (MaxTokens config) 0) as [Hk|Hk];
    repeat split;
    first [ assumption | reflexivity | discriminate | (intros; congruence)
          | lia ].
Qed.

Lemma New_client_witness :
  ∃ c, New true (cfg example_client) = Returns (Some c) ∧ apiKey c = ""
       ∧ mcpClient c = Some "https://api.deepseek.com/v1".
Proof.
  destruct (proj2 (proj2 (New_client (cfg example_client))) eq_refl)
    as (c & Hc & Hk & Hm & _ & _ & _ & _ & _ & _ & Hb & _).
  exists c. repeat split; [exact Hc | exact Hk |].
  rewrite Hm, Hb; [reflexivity | discriminate].
Defined.

(** The text [masked]: empty for a trimmed key of fewer than eight bytes;
    otherwise ten bytes, the first four and the last three bytes of the key
    around three stars, in which a key of more than ten bytes does not
    occur. *)
Lemma masked_text (trimmed : string) :
  let n := String.length trimmed in
  ((n < 8)%nat → masked trimmed = "")
  ∧ ((8 ≤ n)%nat →
     masked trimmed
     = string_take 4 trimmed +:+ "***" +:+ string_drop (n - 3) trimmed
     ∧ String.length (masked trimmed) = 10%nat)
  ∧ ((10 < n)%nat → strings_Contains (masked trimmed) trimmed = false).
Proof.
  intros n. unfold masked. fold n.
  assert (Hlen : (8 ≤ n)%nat →
    String.length
      (string_take 4 trimmed +:+ "***" +:+ string_drop (n - 3) trimmed)
    = 10%nat).
  { intros Hn.
    rewrite !String_length_append, string_take_length, string_drop_length.
    fold n. change (String.length "***") with 3%nat. lia. }
  split; [|split].
  - intros Hn. by rewrite (proj2 (Z.leb_gt 8 (Z.of_nat n))) by lia.
  - intros Hn. rewrite (proj2 (Z.leb_le 8 (Z.of_nat n))) by lia.
    split; [reflexivity | by apply Hlen].
  - intros Hn. rewrite (proj2 (Z.leb_le 8 (Z.of_nat n))) by lia.
    unfold strings_Contains, strings_Index. apply Z.leb_gt.
    destruct (Z.ltb_spec (Index_from 0
      (string_take 4 trimmed +:+ "***" +:+ string_drop (n - 3) trimmed)
      trimmed) 0) as [|Hf]; [done|].
    apply Index_from_found in Hf. rewrite Hlen in Hf by lia. fold n in Hf. lia.
Qed.

(** X2. [SetDeepSeekAPIKey] does nothing on a [nil] client.  On a client it
    stores the key trimmed of white space and logs one line, "api key
    updated masked=" and the mask: nothing for a trimmed key of fewer than
    eight bytes; otherwise the first four and the last three bytes of the
    key around three stars, a line of 33 bytes.  So the line tells of the
    key only whether it has eight bytes and which its first four and last
    three are: two keys that agree in that are logged by the same line. *)
Theorem masked_key (c : Client) (key : string) :
  let trimmed := strings_TrimSpace key in
  let n := String.length trimmed in
  SetDeepSeekAPIKey None key = (None, None)
  ∧ ∃ line,
      SetDeepSeekAPIKey (Some c) key
      = (Some {| mcpClient := mcpClient c; cfg := cfg c; apiKey := trimmed |},
         Some line)
      ∧ ((n < 8)%nat → line = "api key updated masked=")
      ∧ ((8 ≤ n)%nat →
         line = "api key updated masked=" +:+ string_take 4 trimmed +:+ "***"
                +:+ string_drop (n - 3) trimmed
         ∧ String.length line = 33%nat)
      ∧ ∀ key',
          let trimmed' := strings_TrimSpace key' in
          let n' := String.length trimmed' in
          ((n < 8)%nat ∧ (n' < 8)%nat)
          ∨ ((8 ≤ n)%nat ∧ (8 ≤ n')%nat
             ∧ string_take 4 trimmed' = string_take 4 trimmed
             ∧ string_drop (n' - 3) trimmed' = string_drop (n - 3) trimmed) →
          snd (SetDeepSeekAPIKey (Some c) key') = Some line.
Proof.
  intros trimmed n. split; [reflexivity|].
  exists ("api key updated masked=" +:+ masked trimmed).
  destruct (masked_text trimmed) as (Hshort & Hlong & _). fold n in Hshort, Hlong.
  split; [reflexivity|]. split; [|split].
  - intros Hn. by rewrite (Hshort Hn).
  - intros Hn. destruct (Hlong Hn) as [Hm Hl]. split; [by rewrite Hm|].
    rewrite String_length_append, Hl. reflexivity.
  - intros key' trimmed' n' Hsame. cbn [SetDeepSeekAPIKey snd]. fold trimmed'.
    do 2 f_equal.
    destruct (masked_text trimmed') as (Hshort' & Hlong' & _).
    fold n' in Hshort', Hlong'.
    destruct Hsame as [[Hn Hn']|(Hn & Hn' & Ht & Hd)].
    + by rewrite (Hshort Hn), (Hshort' Hn').
    + rewrite (proj1 (Hlong Hn)), (proj1 (Hlong' Hn')). by rewrite Ht, Hd.
Qed.

Lemma masked_key_witness :
  SetDeepSeekAPIKey (Some example_client) " sk-0123456789abcdef "
  = (Some {| mcpClient := mcpClient example_client; cfg := cfg example_client;
             apiKey := "sk-0123456789abcdef" |},
     Some "api key updated masked=sk-0***def")
  ∧ snd (SetDeepSeekAPIKey (Some example_client) "sk-0XXXXXXXXXXXXdef")
    = Some "api key updated masked=sk-0***def".
Proof.
  destruct (masked_key example_client " sk-0123456789abcdef ")
    as (_ & line & Hset & _ & Hlong & Hsame).
  destruct Hlong as [Hline _]; [vm_compute; lia|].
  assert (Hl : line = "api key updated masked=sk-0***def").
  { rewrite Hline. vm_compute. reflexivity. }
  rewrite Hl in Hset, Hsame. split.
  - rewrite Hset. vm_compute. reflexivity.
  - apply Hsame. right. vm_compute. repeat split; lia.
Defined.

Section client_theorems.
Context `{GoLib}.

(** The error of a client without transport is no network error. *)
Lemma isNetworkError_nil_transport :
  isNetworkError
    (Some (Errorf_w "deepseek request: " (errors_New "mcp client is nil")))
  = false.
Proof. vm_compute. reflexivity. Qed.

(** A call on a client with a key and no transport. *)
Lemma no_request_without_transport (c : Client) (s u : string) (w : World) :
  apiKey c ≠ "" → mcpClient c = None →
  CallWithMessages (Some c) s u w
  = (Err (Errorf_w "deepseek request: " (errors_New "mcp client is nil")), w).
Proof.
  intros Hk Hm. unfold CallWithMessages.
  rewrite (proj2 (String.eqb_neq _ _) Hk).
  change (Z.to_nat maxRetries) with 3%nat. cbn [retry_loop].
  unfold sendCompletion.
  change (len [ {| Role := "system"; Content := s |};
                {| Role := "user"; Content := u |} ] =? 0) with false.
  cbv iota. rewrite (proj2 (String.eqb_neq _ _) Hk), Hm.
  cbn [PostJSON]. by rewrite isNetworkError_nil_transport.
Qed.

(** X3. Without a client, without a key or without a transport a call
    returns its error at once: no request is made and nothing is slept, in
    [CallWithMessages] and in [GenerateDecision] alike. *)
Theorem no_request_without_key_or_transport
    (systemPrompt userPrompt now : string) (rangeOrder : list string)
    (req : DecisionRequest.t) (w : World) :
  CallWithMessages None systemPrompt userPrompt w
  = (Err (errors_New "deepseek client is nil"), w)
  ∧ GenerateDecision None req now rangeOrder w
    = (Err (errors_New "deepseek client is nil"), w)
  ∧ (∀ c, apiKey c = "" →
       CallWithMessages (Some c) systemPrompt userPrompt w
       = (Err (errors_New "deepseek api key 未设置"), w)
       ∧ GenerateDecision (Some c) req now rangeOrder w
         = (Err (errors_New "deepseek api key 未设置"), w))
  ∧ (∀ c, apiKey c ≠ "" → mcpClient c = None →
       CallWithMessages (Some c) systemPrompt userPrompt w
       = (Err (Errorf_w "deepseek request: " (errors_New "mcp client is nil")), w)
       ∧ GenerateDecision (Some c) req now rangeOrder w
         = (Err (Errorf_w "deepseek request: " (errors_New "mcp client is nil")), w)).
Proof.
  split; [reflexivity|]. split; [reflexivity|]. split.
  - intros c Hk. unfold GenerateDecision, CallWithMessages. by rewrite Hk.
  - intros c Hk Hm.
    pose proof (λ s u, no_request_without_transport c s u w Hk Hm) as Hcall.
    split; [apply Hcall|].
    unfold GenerateDecision. rewrite (proj2 (String.eqb_neq _ _) Hk).
    cbv zeta. by rewrite Hcall.
Qed.

(** X4. A client as [New] makes it cannot call the model: every call returns
    "deepseek api key 未设置" and makes no request.  After
    [SetDeepSeekAPIKey] with a key that is blank it still cannot; with any
    other key it holds the trimmed key and its transport, and the first
    request of a call is made. *)
Theorem client_needs_key (config : DeepseekConfig) (c : Client)
    (key systemPrompt userPrompt : string) (w : World) :
  New true config = Returns (Some c) →
  CallWithMessages (Some c) systemPrompt userPrompt w
  = (Err (errors_New "deepseek api key 未设置"), w)
  ∧ (strings_TrimSpace key = "" →
     CallWithMessages (fst (SetDeepSeekAPIKey (Some c) key))
       systemPrompt userPrompt w
     = (Err (errors_New "deepseek api key 未设置"), w))
  ∧ (strings_TrimSpace key ≠ "" →
     ∃ c', fst (SetDeepSeekAPIKey (Some c) key) = Some c'
       ∧ apiKeyValue c' = strings_TrimSpace key
       ∧ mcpClient c' = Some (BaseURL (cfg c)) ∧ cfg c' = cfg c
       ∧ (calls w < calls (snd (CallWithMessages (Some c') systemPrompt
                                  userPrompt w)))%nat).
Proof.
  intros Hnew.
  pose proof (New_returns config c Hnew) as Hc.
  destruct Hc as [Hk Hm]. split; [|split].
  - unfold CallWithMessages. by rewrite Hk.
  - intros Hb. cbn [SetDeepSeekAPIKey fst]. unfold CallWithMessages.
    cbn [apiKey]. by rewrite Hb.
  - intros Hb. eexists. split; [reflexivity|].
    unfold apiKeyValue. cbn [apiKey mcpClient cfg].
    repeat split; [exact Hm|].
    rewrite (CallWithMessages_cases _ (BaseURL (cfg c))) by done.
    cbv zeta.
    repeat (match goal with
            | |- context [match ?o with Ok _ => _ | Err _ => _ end] => destruct o
            | |- context [if ?b then _ else _] => destruct b
            end); cbn [snd calls]; lia.
Qed.

End client_theorems.

Lemma client_needs_key_witness :
  let c := Build_Client (Some "https://api.deepseek.com/v1") (cfg example_client) "" in
  CallWithMessages (Some c) "system" "user" (world_of (λ _, completion "{}"))
  = (Err (errors_New "deepseek api key 未设置"), world_of (λ _, completion "{}"))
  ∧ ∃ c', fst (SetDeepSeekAPIKey (Some c) " sk-0123456789abcdef ") = Some c'
          ∧ apiKeyValue c' = "sk-0123456789abcdef".
Proof.
  intros c.
  pose proof (client_needs_key (cfg example_client) c
                " sk-0123456789abcdef " "system" "user"
                (world_of (λ _, completion "{}")) eq_refl) as (H1 & _ & H3).
  split; [exact H1|].
  destruct H3 as (c' & Hc' & Hk & _); [by vm_compute|].
  exists c'. split; [exact Hc'|]. rewrite Hk. by vm_compute.
Defined.

Lemma no_request_without_key_or_transport_witness :
  let c := Build_Client None (cfg example_client) "sk-0123456789abcdef" in
  let w := world_of (λ _, completion "{}") in
  GenerateDecision (H := example_lib) (Some c) example_request "now" [] w
  = (Err (Errorf_w "deepseek request: " (errors_New "mcp client is nil")), w).
Proof.
  intros c w.
  pose proof (no_request_without_key_or_transport (H := example_lib)
                "system" "user" "now" [] example_request w)
    as (_ & _ & _ & Hc).
  apply (Hc c); [by vm_compute|reflexivity].
Defined.

(** ** Validation: leverage *)

Section validation_extra.
Context `{GoLib}.
#[local] Open Scope float_scope.

(** Validation of a decision whose action passes. *)
Lemma validate_action_ok (d : DecisionResponse) (limits : RiskLimits) :
  action_ok d = true →
  validateDecisionResponse d limits
  = let targetLev := TargetLeverage (Adjustments d) in
    if targetLev <? 0
    then Some (errors_New "targetLeverage 不得为负数") else
    if (0 <? MaxLeverage limits) && (MaxLeverage limits <? targetLev)
    then Some (errors_New ("targetLeverage " +:+ fmt_f false 2 targetLev +:+
                           " 超过上限 " +:+ fmt_f false 2 (MaxLeverage limits)))
    else
    let sl := StopLossPercent (Adjustments d) in
    let tp := TakeProfitPercent (Adjustments d) in
    if (0 <? sl) && (0 <? tp) && (0 <? MinRiskRewardRatio limits)
       && (tp / sl + 1e-9 <? MinRiskRewardRatio limits)
    then Some (risk_reward_error d limits)
    else None.
Proof.
  intros Hact. unfold validateDecisionResponse, action_ok, normalized_action in *.
  apply orb_true_iff in Hact.
  replace (negb (bool_decide (strings_ToLower (strings_TrimSpace (Action d)) ∈ validActions))
           && negb (String.eqb (strings_ToLower (strings_TrimSpace (Action d))) ""))
    with false by (destruct Hact as [-> | ->]; simpl; [done | by rewrite andb_false_r]).
  reflexivity.
Qed.

(** A decision that validation accepts has an action that passes. *)
Lemma validate_None_action (d : DecisionResponse) (limits : RiskLimits) :
  validateDecisionResponse d limits = None → action_ok d = true.
Proof.
  unfold validateDecisionResponse, action_ok, normalized_action.
  destruct (bool_decide _); [done|].
  destruct (String.eqb _ ""); [done | discriminate].
Qed.

(** X5. For an action that passes, validation refuses a negative target
    leverage, and then a target leverage above the maximum when the maximum
    is positive, before it looks at the stop loss and the take profit.  With
    a maximum that is not positive no leverage is too high.  And with the
    leverage in bounds it accepts every decision whose stop loss or take
    profit is not positive, whatever minimum ratio is configured: the
    risk/reward veto needs both. *)
Theorem leverage_bounds (d : DecisionResponse) (limits : RiskLimits) :
  action_ok d = true →
  let lev := TargetLeverage (Adjustments d) in
  ((lev <? 0) = true →
     validateDecisionResponse d limits
     = Some (errors_New "targetLeverage 不得为负数"))
  ∧ ((lev <? 0) = false → (0 <? MaxLeverage limits) = true →
     (MaxLeverage limits <? lev) = true →
     validateDecisionResponse d limits
     = Some (errors_New ("targetLeverage " +:+ fmt_f false 2 lev +:+
                         " 超过上限 " +:+ fmt_f false 2 (MaxLeverage limits))))
  ∧ ((lev <? 0) = false → (0 <? MaxLeverage limits) = false →
     leverage_ok d limits = true)
  ∧ (leverage_ok d limits = true →
     (0 <? StopLossPercent (Adjustments d))
     && (0 <? TakeProfitPercent (Adjustments d)) = false →
     validateDecisionResponse d limits = None).
Proof.
  intros Hact lev. rewrite (validate_action_ok d limits Hact). cbv zeta.
  fold lev. unfold leverage_ok. fold lev.
  split; [|split; [|split]].
  - by intros ->.
  - by intros -> -> ->.
  - by intros -> ->.
  - intros Hlev Hsl. apply andb_true_iff in Hlev as [Hneg Hmax].
    apply negb_true_iff in Hneg, Hmax. by rewrite Hneg, Hmax, Hsl.
Qed.

(** X6. A decision that [GenerateDecision] returns has passed validation
    against the limits of the request: its action, trimmed and in lower
    case, is one of the nine actions or empty, and its target leverage is
    not negative and not above a positive maximum.  It has cost at least one
    and at most three requests. *)
Theorem GenerateDecision_validated (c : option Client)
    (req : DecisionRequest.t) (now : string) (rangeOrder : list string)
    (w w' : World) (decision : DecisionResponse) :
  GenerateDecision c req now rangeOrder w = (Ok decision, w') →
  let limits := DecisionRequest.Limits req in
  validateDecisionResponse decision limits = None
  ∧ normalized_action decision ∈
      ["open_long"; "open_short"; "increase_long"; "increase_short";
       "close"; "exit"; "reduce"; "hold"; "wait"; ""]
  ∧ (TargetLeverage (Adjustments decision) <? 0) = false
  ∧ ((0 <? MaxLeverage limits) = true →
     (MaxLeverage limits <? TargetLeverage (Adjustments decision)) = false)
  ∧ (calls w < calls w' ≤ calls w + 3)%nat.
Proof.
  intros Hgen limits. unfold GenerateDecision in Hgen.
  destruct c as [client|]; [|discriminate].
  destruct (String.eqb_spec (apiKey client) "") as [|Hkey]; [discriminate|].
  cbv zeta in Hgen.
  match type of Hgen with
  | context [CallWithMessages ?c ?sp ?up ?w] =>
    destruct (CallWithMessages c sp up w) as [[respContent|err] w1] eqn:Hcall
  end; [|discriminate].
  destruct (parseFullDecisionResponse respContent) as [d0|err]; [|discriminate].
  match type of Hgen with
  | context [validateDecisionResponse ?d ?l] =>
    set (dd := d) in *; destruct (validateDecisionResponse dd l) eqn:Hv;
      [discriminate|]
  end.
  injection Hgen as Hd Hw. rewrite Hd in Hv. subst w1. fold limits in Hv.
  split; [exact Hv|].
  pose proof (validate_None_action _ _ Hv) as Hact.
  rewrite (validate_action_ok _ _ Hact) in Hv. cbv zeta in Hv.
  split; [|split; [|split]].
  - unfold action_ok in Hact. apply orb_true_iff in Hact as [Hin | He].
    + apply bool_decide_eq_true in Hin. apply validActions_elem in Hin.
      rewrite !elem_of_cons in *. tauto.
    + apply String.eqb_eq in He. rewrite He. rewrite !elem_of_cons. tauto.
  - by destruct (_ <? 0).
  - intros Hmax. destruct (_ <? 0); [discriminate|]. rewrite Hmax in Hv.
    by destruct (MaxLeverage limits <? _).
  - destruct (mcpClient client) as [u|] eqn:Hm.
    + rewrite (CallWithMessages_cases client u) in Hcall by done.
      cbv zeta in Hcall.
      repeat (match type of Hcall with
              | context [match ?o with Ok _ => _ | Err _ => _ end] => destruct o
              | context [if ?b then _ else _] => destruct b
              end); injection Hcall as _ <-; cbn [calls]; lia.
    + pose proof (no_request_without_transport client) as Hno; cbv beta in Hno.
      exfalso. revert Hcall. by rewrite Hno.
Qed.

End validation_extra.

Lemma leverage_bounds_witness :
  validateDecisionResponse (H := example_lib)
    (example_decision "hold" (-1) 1 3) (example_limits 5 3)
  = Some (errors_New "targetLeverage 不得为负数")
  ∧ validateDecisionResponse (H := example_lib)
      (example_decision "open_long" 3 0 100) (example_limits 5 3) = None.
Proof.
  split.
  - apply (proj1 (leverage_bounds (H := example_lib)
              (example_decision "hold" (-1) 1 3) (example_limits 5 3) eq_refl)).
    reflexivity.
  - apply (proj2 (proj2 (proj2 (leverage_bounds (H := example_lib)
              (example_decision "open_long" 3 0 100) (example_limits 5 3)
              eq_refl)))); reflexivity.
Defined.

Lemma GenerateDecision_validated_witness :
  validateDecisionResponse (H := example_lib) (hold_decision hold_fenced "")
    (DecisionRequest.Limits example_request) = None.
Proof.
  apply (GenerateDecision_validated (H := example_lib) (Some example_client)
           example_request "2025-01-01 00:00:00" []
           (world_of (λ _, completion hold_fenced))
           {| exchanges := λ _, completion hold_fenced; calls := 1; slept := [] |}).
  vm_compute. reflexivity.
Defined.

(** ** Classification of wrapped errors *)

Lemma Index_from_start (s sub : string) (i j : Z) :
  0 ≤ i → 0 ≤ j → (0 <=? Index_from i s sub) = (0 <=? Index_from j s sub).
Proof.
  revert i j. induction s as [|c s IH]; intros i j Hi Hj; cbn [Index_from].
  - destruct (String.prefix sub ""); [|reflexivity].
    by rewrite !(proj2 (Z.leb_le 0 _)).
  - destruct (String.prefix sub (String c s)).
    + by rewrite !(proj2 (Z.leb_le 0 _)).
    + apply IH; lia.
Qed.

Lemma Contains_cons (c : ascii) (s sub : string) :
  strings_Contains (String c s) sub
  = String.prefix sub (String c s) || strings_Contains s sub.
Proof.
  unfold strings_Contains, strings_Index. cbn [Index_from].
  destruct (String.prefix sub (String c s)); [reflexivity|].
  apply Index_from_start; lia.
Qed.

(** Up to a byte that a word does not hold, a text decides whether the word
    is a prefix. *)
Lemma prefix_sep (kw p m : string) (c : ascii) :
  no_byte c kw = true →
  String.prefix kw (p +:+ String c m) = String.prefix kw (p +:+ String c "").
Proof.
  revert kw. induction p as [|a p IH]; intros [|k kw] Hkw; try reflexivity.
  - change (no_byte c (String k kw)) with (negb (Ascii.eqb k c) && no_byte c kw) in Hkw.
    apply andb_true_iff in Hkw as [Hk _]. apply negb_true_iff, Ascii.eqb_neq in Hk.
    change ("" +:+ String c m) with (String c m).
    change ("" +:+ String c "") with (String c "").
    cbn [String.prefix]. by destruct (Ascii.ascii_dec k c).
  - change (no_byte c (String k kw)) with (negb (Ascii.eqb k c) && no_byte c kw) in Hkw.
    apply andb_true_iff in Hkw as [_ Hkw].
    change (String a p +:+ String c m) with (String a (p +:+ String c m)).
    change (String a p +:+ String c "") with (String a (p +:+ String c "")).
    cbn [String.prefix]. destruct (Ascii.ascii_dec k a); [by apply IH | reflexivity].
Qed.

(** A word without the byte [c] occurs in [p c m] if it occurs in [p c] or in
    [m]. *)
Lemma Contains_sep (kw p m : string) (c : ascii) :
  no_byte c kw = true → kw ≠ "" →
  strings_Contains (p +:+ String c m) kw
  = strings_Contains (p +:+ String c "") kw || strings_Contains m kw.
Proof.
  intros Hkw Hne. induction p as [|a p IH].
  - change ("" +:+ String c m) with (String c m).
    change ("" +:+ String c "") with (String c "").
    rewrite !Contains_cons.
    destruct kw as [|k kw]; [done|].
    change (no_byte c (String k kw)) with (negb (Ascii.eqb k c) && no_byte c kw) in Hkw.
    apply andb_true_iff in Hkw as [Hk _]. apply negb_true_iff, Ascii.eqb_neq in Hk.
    cbn [String.prefix]. destruct (Ascii.ascii_dec k c); [done|]. reflexivity.
  - change (String a p +:+ String c m) with (String a (p +:+ String c m)).
    change (String a p +:+ String c "") with (String a (p +:+ String c "")).
    rewrite !Contains_cons, IH.
    change (String a (p +:+ String c m)) with (String a p +:+ String c m).
    change (String a (p +:+ String c "")) with (String a p +:+ String c "").
    rewrite (prefix_sep kw (String a p) m c Hkw). by rewrite orb_assoc.
Qed.

(** [isNetworkError] as a disjunction. *)
Lemma isNetworkError_Some (e : error) :
  isNetworkError (Some e)
  = match errors_As implements_net_Error e with
    | Some netErr => Timeout (error_ty netErr)
    | None => false
    end
    || bool_decide (is_Some (errors_As is_DNSError e))
    || bool_decide (is_Some (errors_As is_OpError e))
    || mentions_network (Error e).
Proof.
  unfold isNetworkError, mentions_network.
  destruct (match errors_As implements_net_Error e with
            | Some netErr => Timeout (error_ty netErr) | None => false end);
    [reflexivity|].
  destruct (bool_decide (is_Some (errors_As is_DNSError e))); [reflexivity|].
  destruct (bool_decide (is_Some (errors_As is_OpError e))); [reflexivity|].
  by destruct (_ || _).
Qed.

(** Wrapping by [fmt.Errorf("<p><c>%w", e)] does not change the class of
    [e], when the prefix holds none of the five words and ends in a byte [c]
    that none of them holds. *)
Lemma isNetworkError_Errorf_w (p : string) (c : ascii) (e : error) :
  forallb (no_byte c) ["connection"; "network"; "timeout"; "reset"; "refused"]
  = true →
  mentions_network (p +:+ String c "") = false →
  isNetworkError (Some (Errorf_w (p +:+ String c "") e)) = isNetworkError (Some e).
Proof.
  intros Hc Hp. rewrite !isNetworkError_Some. unfold Errorf_w.
  cbn [errors_As error_ty implements_net_Error is_DNSError is_OpError Error].
  f_equal. unfold mentions_network in *.
  rewrite String_append_assoc. change (String c "" +:+ Error e) with (String c (Error e)).
  cbn [forallb] in Hc. rewrite !andb_true_iff in Hc.
  destruct Hc as (H1 & H2 & H3 & H4 & H5 & _).
  rewrite !orb_false_iff in Hp. destruct Hp as ((((P1 & P2) & P3) & P4) & P5).
  rewrite (Contains_sep "connection"), (Contains_sep "network"),
    (Contains_sep "timeout"), (Contains_sep "reset"), (Contains_sep "refused")
    by done.
  by rewrite P1, P2, P3, P4, P5.
Qed.

(** X7. The prefixes that [PostJSON] and [sendCompletion] put before an error
    of the transport do not change what [isNetworkError] answers: whether a
    failed request is retried is decided by the error of the transport
    alone, by its type or by the five words in its message. *)
Theorem isNetworkError_of_wrapped (e : error) :
  isNetworkError
    (Some (Errorf_w "deepseek request: " (Errorf_w "do request: " e)))
  = isNetworkError (Some e)
  ∧ isNetworkError
      (Some (Errorf_w "deepseek request: " (Errorf_w "decode response: " e)))
    = isNetworkError (Some e)
  ∧ isNetworkError
      (Some (Errorf_w "deepseek request: " (Errorf_w "marshal request: " e)))
    = isNetworkError (Some e)
  ∧ isNetworkError
      (Some (Errorf_w "deepseek request: " (Errorf_w "new request: " e)))
    = isNetworkError (Some e)
  ∧ ∀ (c : Client) (u : string) (w : World),
      apiKey c ≠ "" → mcpClient c = Some u →
      exchanges w (calls w) = DoFails e →
      retryable (attempt_outcome c w 0) = isNetworkError (Some e).
Proof.
  assert (Hout : ∀ e', isNetworkError (Some (Errorf_w "deepseek request: " e'))
                       = isNetworkError (Some e')).
  { intros e'. by apply (isNetworkError_Errorf_w "deepseek request:" " "). }
  repeat split; rewrite ?Hout.
  - by apply (isNetworkError_Errorf_w "do request:" " ").
  - by apply (isNetworkError_Errorf_w "decode response:" " ").
  - by apply (isNetworkError_Errorf_w "marshal request:" " ").
  - by apply (isNetworkError_Errorf_w "new request:" " ").
  - intros c u w Hk Hm Hex.
    rewrite (first_attempt_outcome c u w Hk Hm), Hex. cbn [retryable].
    rewrite Hout. by apply (isNetworkError_Errorf_w "do request:" " ").
Qed.

Lemma isNetworkError_of_wrapped_witness :
  retryable (attempt_outcome example_client (world_of (λ _, connection_refused)) 0)
  = true.
Proof.
  rewrite (proj2 (proj2 (proj2 (proj2 (isNetworkError_of_wrapped
             (NewError (OpError false)
                "dial tcp 127.0.0.1:443: connect: connection refused")))))
           example_client "https://api.deepseek.com/v1"
           (world_of (λ _, connection_refused))); [reflexivity | | |reflexivity];
    [discriminate | reflexivity].
Defined.

(** ** Texts and their parts *)

Lemma String_app_cons (c : ascii) (a b : string) :
  String c a +:+ b = String c (a +:+ b).
Proof. reflexivity. Qed.

Lemma String_app_nil (b : string) : "" +:+ b = b.
Proof. reflexivity. Qed.

(** Appends with a literal on the left are written as conses. *)
Ltac norm_app := rewrite ?String_app_cons, ?String_app_nil.

Lemma prefix_append (a b : string) : String.prefix a (a +:+ b) = true.
Proof.
  induction a as [|c a IH]; [apply prefix_empty|].
  rewrite String_app_cons. cbn [String.prefix].
  by destruct (Ascii.ascii_dec c c).
Qed.

Lemma string_drop_append (a b : string) :
  string_drop (String.length a) (a +:+ b) = b.
Proof. induction a as [|c a IH]; [by destruct b | exact IH]. Qed.

Lemma string_take_append (a b : string) :
  string_take (String.length (a +:+ b) - String.length b) (a +:+ b) = a.
Proof.
  rewrite String_length_append.
  replace (String.length a + String.length b - String.length b)%nat
    with (String.length a) by lia.
  induction a as [|c a IH]; [by destruct b|].
  rewrite String_app_cons. cbn [String.length string_take]. by rewrite IH.
Qed.

Lemma string_forall_append (P : ascii → bool) (a b : string) :
  string_forall P (a +:+ b) = string_forall P a && string_forall P b.
Proof.
  induction a as [|c a IH]; [reflexivity|].
  rewrite String_app_cons. cbn [string_forall]. by rewrite IH, andb_assoc.
Qed.

Lemma string_forall_rev (P : ascii → bool) (s : string) :
  string_forall P (String.rev s) = string_forall P s.
Proof.
  induction s as [|c s IH]; [reflexivity|].
  change (String c s) with (String c "" +:+ s) at 1.
  rewrite rev_append, string_forall_append, IH.
  cbn [string_forall]. change (String.rev (String c "")) with (String c "").
  cbn [string_forall]. by rewrite andb_true_r, andb_comm.
Qed.

(** ** Trimming next to ASCII *)

Lemma DecodeRuneInString_ascii (c : ascii) (s : string) :
  (utf8.byte c <? 0x80)%N = true →
  utf8.DecodeRuneInString (String c s) = (utf8.byte c, 1%nat).
Proof.
  intros Hc. unfold utf8.DecodeRuneInString. cbv zeta.
  change utf8.RuneSelf with 0x80%N. by rewrite Hc.
Qed.

Lemma DecodeLastRuneRev_ascii (c : ascii) (rs : string) :
  (utf8.byte c <? 0x80)%N = true →
  utf8.DecodeLastRuneRev (String c rs) = (utf8.byte c, 1%nat).
Proof.
  intros Hc. unfold utf8.DecodeLastRuneRev.
  change utf8.RuneSelf with 0x80%N. by rewrite Hc.
Qed.

Lemma no_leading_space_ascii (c : ascii) (s : string) :
  ascii_nonspace c = true → no_leading_space (String c s).
Proof.
  intros Hc. apply andb_true_iff in Hc as [Hc Hs]. right.
  rewrite (DecodeRuneInString_ascii c s Hc). by apply negb_true_iff in Hs.
Qed.

Lemma no_trailing_space_rev_ascii (c : ascii) (rs : string) :
  ascii_nonspace c = true → no_trailing_space_rev (String c rs).
Proof.
  intros Hc. apply andb_true_iff in Hc as [Hc Hs]. right.
  rewrite (DecodeLastRuneRev_ascii c rs Hc). by apply negb_true_iff in Hs.
Qed.

(** The second byte of a rune of several bytes is not ASCII. *)
Lemma first_lo (b0 : N) (sz : nat) (lo hi : N) :
  utf8.first b0 = Some (sz, lo, hi) → (0x80 ≤ lo)%N ∧ (0xC2 ≤ b0)%N.
Proof.
  unfold utf8.first.
  destruct (N.ltb_spec b0 0xC2); [discriminate|].
  repeat (match goal with
          | |- context [if ?b then _ else _] => destruct b
          end; [intros [= <- <- <-]; split; [lia | done]|]).
  discriminate.
Qed.

(** Text that starts with an ASCII byte, appended to a text that is not
    empty, does not change its first rune. *)
Lemma DecodeRuneInString_append_ascii (c0 x : ascii) (p q : string) :
  (utf8.byte x <? 0x80)%N = true →
  utf8.DecodeRuneInString (String c0 p +:+ String x q)
  = utf8.DecodeRuneInString (String c0 p).
Proof.
  intros Hx. rewrite String_app_cons.
  assert (Hcont : utf8.is_cont (utf8.byte x) = false).
  { unfold utf8.is_cont. apply N.ltb_lt in Hx.
    by rewrite (proj2 (N.leb_gt 0x80 (utf8.byte x))) by lia. }
  unfold utf8.DecodeRuneInString. cbv beta iota zeta.
  destruct (utf8.byte c0 <? utf8.RuneSelf)%N; [reflexivity|].
  destruct (utf8.first (utf8.byte c0)) as [[[sz lo] hi]|] eqn:Hf;
    [|by destruct p].
  apply first_lo in Hf as [Hlo _].
  assert (Hxlo : (utf8.byte x <? lo)%N = true).
  { apply N.ltb_lt. apply N.ltb_lt in Hx. lia. }
  destruct p as [|c1 p]; norm_app; cbv beta iota zeta.
  { by rewrite Hxlo. }
  destruct ((utf8.byte c1 <? lo)%N || (hi <? utf8.byte c1)%N); [reflexivity|].
  destruct (sz <=? 2)%nat; [reflexivity|].
  destruct p as [|c2 p]; norm_app; cbv beta iota zeta.
  { by rewrite Hcont. }
  destruct (negb (utf8.is_cont (utf8.byte c2))); [reflexivity|].
  destruct (sz <=? 3)%nat; [reflexivity|].
  destruct p as [|c3 p]; norm_app; cbv beta iota zeta.
  { by rewrite Hcont. }
  reflexivity.
Qed.

Lemma no_leading_space_append_ascii (p q : string) (x : ascii) :
  p ≠ "" → no_leading_space p → (utf8.byte x <? 0x80)%N = true →
  no_leading_space (p +:+ String x q).
Proof.
  intros Hne [->|Hp] Hx; [done|]. destruct p as [|c0 p]; [done|].
  right. by rewrite DecodeRuneInString_append_ascii.
Qed.

(** A trimmed text followed by a line feed is trimmed to the text. *)
Lemma TrimSpace_append_LF (body : string) :
  body ≠ "" → strings_TrimSpace body = body →
  strings_TrimSpace (body +:+ LF) = body.
Proof.
  intros Hne Hb.
  pose proof (TrimSpace_result body) as [Hl Hr]. rewrite Hb in Hl, Hr.
  unfold strings_TrimSpace, strings_TrimLeftFunc.
  rewrite trimL_fixed by (by apply no_leading_space_append_ascii).
  unfold strings_TrimRightFunc. rewrite rev_append.
  change (String.rev LF) with LF. unfold LF at 1. norm_app.
  cbn [TrimRightFunc_from].
  rewrite DecodeLastRuneRev_ascii by reflexivity.
  change (unicode_IsSpace (utf8.byte (ascii_of_N 10))) with true. cbv iota.
  change (1 - 1)%nat with 0%nat.
  by rewrite (trimR_fixed _ Hr), rev_involutive.
Qed.

(** The text, reversed, starts with a backquote. *)
Ltac ends_in_backquote :=
  rewrite !rev_append; change (String.rev "```") with "```";
  rewrite !String_append_assoc; by apply (no_trailing_space_rev_ascii "`").

Section fence_extra.
Context `{GoLib}.

(** Lower case of a text that starts with an ASCII byte. *)
Lemma ToLower_ascii (c : ascii) (s : string) :
  (utf8.byte c <? 0x80)%N = true →
  strings_ToLower (String c s)
  = utf8.EncodeRune (rune_ToLower (utf8.byte c)) +:+ strings_ToLower s.
Proof.
  intros Hc. unfold strings_ToLower, strings_Map, utf8.runes.
  cbn [utf8.runes_from]. rewrite (DecodeRuneInString_ascii c s Hc).
  reflexivity.
Qed.

Lemma ToLower_json (s : string) :
  strings_HasPrefix (strings_ToLower ("json" +:+ s)) "json" = true.
Proof.
  norm_app. rewrite !ToLower_ascii by reflexivity.
  unfold strings_HasPrefix.
  change (utf8.EncodeRune (rune_ToLower (utf8.byte "j"))) with "j".
  change (utf8.EncodeRune (rune_ToLower (utf8.byte "s"))) with "s".
  change (utf8.EncodeRune (rune_ToLower (utf8.byte "o"))) with "o".
  change (utf8.EncodeRune (rune_ToLower (utf8.byte "n"))) with "n".
  norm_app. apply (prefix_append "json").
Qed.

Lemma trimJSONFences_fenced_json (body : string) :
  strings_TrimSpace body = body → trimJSONFences (fenced_json body) = body.
Proof.
  intros Hb. destruct body as [|b0 body]; [by vm_compute|].
  set (b := String b0 body) in *.
  assert (Hne : b ≠ "") by done.
  pose proof (TrimSpace_result b) as [Hl Hr]. rewrite Hb in Hl, Hr.
  unfold trimJSONFences, fenced_json.
  rewrite (TrimSpace_fixed ("```json" +:+ LF +:+ b +:+ LF +:+ "```"))
    by first [by apply (no_leading_space_ascii "`") | ends_in_backquote].
  change ("```json" +:+ LF +:+ b +:+ LF +:+ "```")
    with (FENCE +:+ ("json" +:+ LF +:+ b +:+ LF +:+ "```")).
  unfold strings_TrimPrefix, strings_HasPrefix.
  rewrite (prefix_append FENCE), (string_drop_append FENCE).
  rewrite (TrimSpace_fixed ("json" +:+ LF +:+ b +:+ LF +:+ "```"))
    by first [by apply (no_leading_space_ascii "j") | ends_in_backquote].
  fold (strings_HasPrefix (strings_ToLower ("json" +:+ LF +:+ b +:+ LF +:+ "```")) "json").
  rewrite ToLower_json.
  change (strings_Index ("json" +:+ LF +:+ b +:+ LF +:+ "```") LF) with 4.
  change (negb (4 =? -1)) with true. cbv iota.
  change (string_drop (Z.to_nat (4 + 1)) ("json" +:+ LF +:+ b +:+ LF +:+ "```"))
    with (b +:+ LF +:+ "```").
  rewrite (TrimSpace_fixed (b +:+ LF +:+ "```"))
    by first [by apply no_leading_space_append_ascii | ends_in_backquote].
  unfold strings_TrimSuffix, strings_HasSuffix. rewrite !rev_append.
  change (String.rev FENCE) with "```". change (String.rev "```") with "```".
  rewrite !String_append_assoc, (prefix_append "```").
  rewrite <- (String_append_assoc b LF "```").
  change "```" with FENCE. rewrite (string_take_append (b +:+ LF) FENCE).
  by apply TrimSpace_append_LF.
Qed.

(** X8. A reply that is a text in a fence with the tag "json", each on a
    line of its own, is stripped to the text: for every text without white
    space at its ends, what [trimJSONFences] (and so [cleanJSON]) returns for
    the fenced text is the text itself. *)
Theorem fenced_json_stripped (body : string) :
  strings_TrimSpace body = body →
  trimJSONFences (fenced_json body) = body
  ∧ cleanJSON (fenced_json body) = body.
Proof.
  intros Hb. split; [by apply trimJSONFences_fenced_json|].
  change (cleanJSON (fenced_json body)) with (trimJSONFences (fenced_json body)).
  by apply trimJSONFences_fenced_json.
Qed.

End fence_extra.

Lemma fenced_json_stripped_witness :
  trimJSONFences (H := example_lib) (fenced_json hold_json) = hold_json.
Proof.
  apply (fenced_json_stripped (H := example_lib) hold_json). by vm_compute.
Defined.

(** ** Trimming stops at ASCII *)

(** A rune of several bytes starts with a byte that is not ASCII. *)
Lemma DecodeRuneInString_size (c : ascii) (s : string) (r : N) (n : nat) :
  utf8.DecodeRuneInString (String c s) = (r, n) →
  (1 ≤ n)%nat ∧ ((2 ≤ n)%nat → (0x80 <=? utf8.byte c)%N = true).
Proof.
  unfold utf8.DecodeRuneInString. cbv beta iota zeta.
  change utf8.RuneSelf with 0x80%N.
  destruct (N.ltb_spec (utf8.byte c) 0x80) as [Hc|Hc].
  { intros [= <- <-]. split; lia. }
  intros Hd. split; [|intros _; by apply N.leb_le].
  revert Hd.
  repeat (match goal with
          | |- context [match ?x with _ => _ end] => destruct x
          end; try (intros [= <- <-]; lia)).
Qed.

(** The window of [DecodeLastRuneInString], decoded. *)
Lemma decode_window (w : string) (c : ascii) (w' : string) (r : N) (n k : nat) :
  w = String c w' → String.length w = S k →
  (let '(r', size) := utf8.DecodeRuneInString w in
   if (size =? String.length w)%nat then (r', size)
   else (utf8.RuneError, 1%nat)) = (r, n) →
  n = 1%nat ∨ (n = S k ∧ (0x80 <=? utf8.byte c)%N = true).
Proof.
  intros -> Hlen.
  destruct (utf8.DecodeRuneInString (String c w')) as [r' size] eqn:Hd.
  apply DecodeRuneInString_size in Hd as [H1 H2].
  destruct (Nat.eqb_spec size (String.length (String c w'))) as [He|He];
    intros [= <- <-]; [|by left].
  rewrite Hlen in He. subst size.
  destruct k as [|k]; [by left|]. right. split; [done|]. apply H2. lia.
Qed.

(** The bytes of the last rune, but for the last one, are not ASCII. *)
Lemma DecodeLastRuneRev_high (c1 : ascii) (r1 : string) (r : N) (n : nat) :
  utf8.DecodeLastRuneRev (String c1 r1) = (r, n) →
  (1 ≤ n)%nat ∧ high_bytes (n - 1) r1 = true.
Proof.
  assert (Hstart : ∀ c, utf8.RuneStart c = false → (0x80 <=? utf8.byte c)%N = true).
  { intros c. unfold utf8.RuneStart, utf8.is_cont.
    destruct (0x80 <=? utf8.byte c)%N; [done | discriminate]. }
  unfold utf8.DecodeLastRuneRev.
  destruct (utf8.byte c1 <? utf8.RuneSelf)%N; [by intros [= <- <-]|].
  destruct r1 as [|c2 r2]; [by intros [= <- <-]|].
  destruct (utf8.RuneStart c2) eqn:S2.
  { intros Hw. eapply (decode_window _ c2 _ r n 1) in Hw; [|done..].
    destruct Hw as [-> | [-> Hc]]; [done|]. split; [lia|].
    cbn [Nat.sub high_bytes]. by rewrite Hc. }
  apply Hstart in S2.
  destruct r2 as [|c3 r3]; [by intros [= <- <-]|].
  destruct (utf8.RuneStart c3) eqn:S3.
  { intros Hw. eapply (decode_window _ c3 _ r n 2) in Hw; [|done..].
    destruct Hw as [-> | [-> Hc]]; [done|]. split; [lia|].
    cbn [Nat.sub high_bytes]. by rewrite S2, Hc. }
  apply Hstart in S3.
  destruct r3 as [|c4 r4]; [by intros [= <- <-]|].
  destruct (utf8.RuneStart c4) eqn:S4; [|by intros [= <- <-]].
  intros Hw. eapply (decode_window _ c4 _ r n 3) in Hw; [|done..].
  destruct Hw as [-> | [-> Hc]]; [done|]. split; [lia|].
  cbn [Nat.sub high_bytes]. by rewrite S2, S3, Hc.
Qed.

(** Trimming on the right does not go past an ASCII byte that is not white
    space. *)
Lemma TrimRightFunc_from_keeps (x : string) (c : ascii) (y : string) (k : nat) :
  ascii_nonspace c = true → high_bytes k (x +:+ String c y) = true →
  ∃ d x', x = d +:+ x'
          ∧ TrimRightFunc_from unicode_IsSpace k (x +:+ String c y)
            = x' +:+ String c y.
Proof.
  intros Hc. revert k. induction x as [|a x IH]; intros k Hk.
  - exists "", "". split; [done|]. norm_app.
    pose proof Hc as Hc'. apply andb_true_iff in Hc' as [Hc1 Hc2].
    destruct k as [|k].
    + cbn [TrimRightFunc_from]. rewrite (DecodeLastRuneRev_ascii c y Hc1).
      apply negb_true_iff in Hc2. by rewrite Hc2.
    + rewrite String_app_nil in Hk. cbn [high_bytes] in Hk.
      apply N.ltb_lt in Hc1. apply andb_true_iff in Hk as [Hk _].
      apply N.leb_le in Hk. lia.
  - rewrite String_app_cons in *.
    assert (Hrec : ∀ j, high_bytes j (x +:+ String c y) = true →
      ∃ d x', String a x = d +:+ x'
              ∧ TrimRightFunc_from unicode_IsSpace j (x +:+ String c y)
                = x' +:+ String c y).
    { intros j Hj. destruct (IH j Hj) as (d & x' & -> & Hx).
      by exists (String a d), x'. }
    destruct k as [|k].
    + cbn [TrimRightFunc_from].
      destruct (utf8.DecodeLastRuneRev (String a (x +:+ String c y)))
        as [r n] eqn:Hd.
      apply DecodeLastRuneRev_high in Hd as [_ Hd].
      destruct (unicode_IsSpace r); [by apply Hrec|].
      by exists "", (String a x).
    + cbn [TrimRightFunc_from]. apply Hrec.
      cbn [high_bytes] in Hk. by apply andb_true_iff in Hk as [_ Hk].
Qed.

(** [strings.TrimSpace] of a text that starts with an ASCII byte that is not
    white space, and goes on after another such byte: the text up to that
    byte stays, and a prefix of what follows it. *)
Lemma TrimSpace_keeps (a : ascii) (p : string) (c : ascii) (y t : string) :
  ascii_nonspace a = true → ascii_nonspace c = true →
  String.rev (String a p) = String c y →
  ∃ t1 t2, t = t1 +:+ t2
           ∧ strings_TrimSpace (String a p +:+ t) = String a p +:+ t1.
Proof.
  intros Ha Hc Hrev. unfold strings_TrimSpace, strings_TrimLeftFunc.
  rewrite trimL_fixed by (rewrite String_app_cons; by apply no_leading_space_ascii).
  unfold strings_TrimRightFunc. rewrite rev_append, Hrev.
  destruct (TrimRightFunc_from_keeps (String.rev t) c y 0 Hc eq_refl)
    as (d & x' & Hx & ->).
  exists (String.rev x'), (String.rev d). split.
  - by rewrite <- rev_append, <- Hx, rev_involutive.
  - by rewrite rev_append, <- Hrev, rev_involutive.
Qed.

Lemma Index_from_none (c : ascii) (s : string) (i : Z) :
  no_byte c s = true → Index_from i s (String c "") = -1.
Proof.
  revert i. induction s as [|a s IH]; intros i Hs; [reflexivity|].
  change (no_byte c (String a s)) with (negb (Ascii.eqb a c) && no_byte c s) in Hs.
  apply andb_true_iff in Hs as [Ha Hs]. apply negb_true_iff, Ascii.eqb_neq in Ha.
  cbn [Index_from String.prefix].
  destruct (Ascii.ascii_dec c a) as [->|]; [done|]. by apply IH.
Qed.

Section no_content.
Context `{GoLib}.

Lemma trimJSONFences_one_line (t : string) :
  no_byte "010" t = true → trimJSONFences ("```json" +:+ t) = "".
Proof.
  intros Ht. unfold trimJSONFences.
  destruct (TrimSpace_keeps "`" "``json" "n" "osj```" t)
    as (t1 & t2 & -> & E1); [done..|].
  change ("```json" +:+ t1 +:+ t2) with (String "`" "``json" +:+ t1 +:+ t2).
  rewrite E1.
  change (String "`" "``json" +:+ t1) with (FENCE +:+ ("json" +:+ t1)).
  unfold strings_TrimPrefix, strings_HasPrefix.
  rewrite (prefix_append FENCE), (string_drop_append FENCE).
  destruct (TrimSpace_keeps "j" "son" "n" "osj" t1)
    as (t3 & t4 & -> & E2); [done..|].
  change ("json" +:+ t3 +:+ t4) with (String "j" "son" +:+ t3 +:+ t4).
  rewrite E2. change (String "j" "son" +:+ t3) with ("json" +:+ t3).
  fold (strings_HasPrefix (strings_ToLower ("json" +:+ t3)) "json").
  rewrite ToLower_json.
  unfold no_byte in Ht. rewrite !string_forall_append in Ht.
  apply andb_true_iff in Ht as [Ht _]. apply andb_true_iff in Ht as [Ht _].
  unfold strings_Index, LF. change (ascii_of_N 10) with "010"%char.
  rewrite (Index_from_none "010" ("json" +:+ t3) 0)
    by (unfold no_byte; by rewrite string_forall_append, Ht).
  reflexivity.
Qed.

(** X9. Replies in which [parseFullDecisionResponse] finds no content: a
    reply of white space only, and a reply that opens a fence with the tag
    "json" and has no line feed after it.  Such a reply is dropped whole,
    with the error "模型未返回内容", although it may hold a decision between
    the tag and a closing fence on the same line. *)
Theorem reply_without_content :
  (∀ raw, strings_TrimSpace raw = "" →
     parseFullDecisionResponse raw = Err (errors_New "模型未返回内容"))
  ∧ (∀ t, no_byte "010" t = true →
       trimJSONFences ("```json" +:+ t) = ""
       ∧ parseFullDecisionResponse ("```json" +:+ t)
         = Err (errors_New "模型未返回内容")).
Proof.
  split.
  - intros raw Hraw. unfold parseFullDecisionResponse, trimJSONFences.
    by rewrite Hraw.
  - intros t Ht. split; [by apply trimJSONFences_one_line|].
    unfold parseFullDecisionResponse. by rewrite trimJSONFences_one_line.
Qed.

End no_content.

Lemma reply_without_content_witness :
  parseFullDecisionResponse (H := example_lib) ("```json" +:+ " " +:+ hold_json +:+ "```")
  = Err (errors_New "模型未返回内容").
Proof.
  apply (proj2 (reply_without_content (H := example_lib))). by vm_compute.
Defined.

(** ** The reasoning trace *)

(** Trimming on the left keeps a suffix. *)
Lemma trimL_suffix (k : nat) (s : string) :
  ∃ d, s = d +:+ TrimLeftFunc_from unicode_IsSpace k s.
Proof.
  revert k. induction s as [|c s IH]; intros k; [by exists ""|].
  assert (Hrec : ∀ j, ∃ d, String c s = d +:+ TrimLeftFunc_from unicode_IsSpace j s).
  { intros j. destruct (IH j) as [d Hd]. exists (String c d).
    rewrite String_app_cons. by rewrite <- Hd. }
  destruct k as [|k]; [|apply Hrec].
  cbn [TrimLeftFunc_from].
  destruct (utf8.DecodeRuneInString (String c s)) as [r n].
  destruct (unicode_IsSpace r); [apply Hrec | by exists ""].
Qed.

(** What holds of every byte of a text holds of every byte of the text
    trimmed. *)
Lemma string_forall_TrimSpace (P : ascii → bool) (s : string) :
  string_forall P s = true → string_forall P (strings_TrimSpace s) = true.
Proof.
  intros Hs. unfold strings_TrimSpace, strings_TrimLeftFunc.
  destruct (trimL_suffix 0 s) as [d Hd].
  set (l := TrimLeftFunc_from unicode_IsSpace 0 s) in *.
  destruct (TrimRightFunc_prefix l) as [q Hq].
  rewrite Hd, Hq, !string_forall_append in Hs.
  apply andb_true_iff in Hs as [_ Hs]. by apply andb_true_iff in Hs as [Hs _].
Qed.

Lemma string_forall_take (P : ascii → bool) (n : nat) (s : string) :
  string_forall P s = true → string_forall P (string_take n s) = true.
Proof.
  revert s. induction n as [|n IH]; intros [|c s] Hs; try reflexivity.
  cbn [string_take string_forall] in *.
  apply andb_true_iff in Hs as [Hc Hs]. by rewrite Hc, IH.
Qed.

Lemma string_forall_trimLeftByte (P : ascii → bool) (s : string) (c : ascii) :
  string_forall P s = true → string_forall P (trimLeftByte s c) = true.
Proof.
  induction s as [|a s IH]; [done|]. intros Hs. cbn [trimLeftByte].
  destruct (Ascii.eqb a c); [|done].
  cbn [string_forall] in Hs. apply andb_true_iff in Hs as [_ Hs]. by apply IH.
Qed.

Lemma string_forall_Trim1 (P : ascii → bool) (s : string) (c : ascii) :
  string_forall P s = true → string_forall P (strings_Trim1 s c) = true.
Proof.
  intros Hs. unfold strings_Trim1, trimRightByte.
  apply string_forall_trimLeftByte. rewrite string_forall_rev.
  apply string_forall_trimLeftByte. by rewrite string_forall_rev.
Qed.

Lemma Index_from_range (s sub : string) (i : Z) :
  Index_from i s sub = -1 ∨ i ≤ Index_from i s sub.
Proof.
  revert i. induction s as [|c s IH]; intros i; cbn [Index_from].
  - destruct (String.prefix sub ""); [right; lia | by left].
  - destruct (String.prefix sub (String c s)); [right; lia|].
    destruct (IH (i + 1)) as [->|Hi]; [by left | right; lia].
Qed.

(** The text before the first occurrence of a byte does not hold it. *)
Lemma no_byte_take_Index (c : ascii) (s : string) (i : Z) :
  0 ≤ i →
  no_byte c (string_take (Z.to_nat (Index_from i s (String c "") - i)) s) = true.
Proof.
  revert i. induction s as [|a s IH]; intros i Hi.
  { by destruct (Z.to_nat _). }
  cbn [Index_from String.prefix].
  destruct (Ascii.ascii_dec c a) as [->|Hne].
  { rewrite prefix_empty. by rewrite Z.sub_diag. }
  destruct (Index_from_range s (String c "") (i + 1)) as [Hr|Hr].
  { rewrite Hr. by replace (Z.to_nat (-1 - i)) with 0%nat by lia. }
  replace (Z.to_nat (Index_from (i + 1) s (String c "") - i))
    with (S (Z.to_nat (Index_from (i + 1) s (String c "") - (i + 1)))) by lia.
  cbn [string_take]. unfold no_byte. cbn [string_forall].
  rewrite (proj2 (Ascii.eqb_neq a c)) by done.
  apply IH. lia.
Qed.

Section trace_theorems.
Context `{GoLib}.

(** A reply that starts with the opening brace has no reasoning before
    it. *)
Lemma extractCoTTrace_object (raw : string) :
  strings_HasPrefix (strings_TrimSpace raw) "{" = true →
  extractCoTTrace raw = "".
Proof.
  intros Hp. unfold extractCoTTrace. cbv zeta.
  unfold strings_HasPrefix in *.
  destruct (strings_TrimSpace raw) as [|c rest]; [discriminate|].
  cbn [String.prefix] in Hp.
  destruct (Ascii.ascii_dec "{" c) as [<-|]; [|discriminate].
  rewrite ToLower_ascii by reflexivity.
  change (utf8.EncodeRune (rune_ToLower (utf8.byte "{"))) with "{".
  norm_app. unfold FENCE. norm_app. cbn [String.prefix].
  destruct (Ascii.ascii_dec "`" "{"); [discriminate|].
  unfold strings_Index. cbn [Index_from String.prefix].
  destruct (Ascii.ascii_dec "{" "{"); [|done].
  by rewrite prefix_empty.
Qed.

(** X10. The reasoning trace that [extractCoTTrace] returns holds no opening
    brace, so nothing of the object that follows the reasoning, and has no
    white space at its ends.  It is empty when the reply, white space
    aside, starts with the opening brace. *)
Theorem extractCoTTrace_trace (raw : string) :
  no_byte "{" (extractCoTTrace raw) = true
  ∧ strings_TrimSpace (extractCoTTrace raw) = extractCoTTrace raw
  ∧ (strings_HasPrefix (strings_TrimSpace raw) "{" = true →
     extractCoTTrace raw = "").
Proof.
  split; [|split].
  - unfold extractCoTTrace. cbv zeta.
    match goal with
    | |- context [strings_Index ?t "{"] => generalize t
    end.
    intros t. destruct (strings_Index t "{" <=? 0); [reflexivity|].
    apply string_forall_TrimSpace, string_forall_Trim1, string_forall_TrimSpace.
    pose proof (no_byte_take_Index "{" t 0) as Hn.
    rewrite Z.sub_0_r in Hn. by apply Hn.
  - unfold extractCoTTrace. cbv zeta.
    match goal with
    | |- context [if ?b then "" else _] => destruct b
    end; [by vm_compute | apply TrimSpace_idempotent].
  - apply extractCoTTrace_object.
Qed.

End trace_theorems.

Lemma extractCoTTrace_trace_witness :
  extractCoTTrace (H := example_lib) hold_json = "".
Proof.
  apply (proj2 (proj2 (extractCoTTrace_trace (H := example_lib) hold_json))).
  by vm_compute.
Defined.

(** ** Decoding a reply *)

Lemma scan_string_plain (a rest : string) :
  plain_text a = true →
  scan_string InString (a +:+ String "034" rest) = Some (a, rest).
Proof.
  induction a as [|c a IH]; intros Ha; [reflexivity|].
  unfold plain_text in Ha. cbn [string_forall] in Ha.
  apply andb_true_iff in Ha as [Hc Ha].
  rewrite !andb_true_iff in Hc. destruct Hc as (((H20 & _) & Hq) & Hb).
  apply negb_true_iff in Hq, Hb.
  rewrite String_app_cons. cbn [scan_string]. rewrite Hq, Hb.
  apply N.leb_le in H20.
  rewrite (proj2 (N.ltb_ge (utf8.byte c) 0x20)) by done.
  by rewrite (IH Ha).
Qed.

Lemma unquote_plain (a : string) : plain_text a = true → unquote a = Some a.
Proof.
  unfold unquote. induction a as [|c a IH]; intros Ha; [reflexivity|].
  unfold plain_text in Ha. cbn [string_forall] in Ha.
  apply andb_true_iff in Ha as [Hc Ha].
  rewrite !andb_true_iff in Hc. destruct Hc as (((H20 & H80) & Hq) & Hb).
  apply negb_true_iff in Hq, Hb.
  cbn [unquote_from unquote_step]. rewrite Hb, Hq. cbn [orb].
  apply N.leb_le in H20.
  rewrite (proj2 (N.ltb_ge (utf8.byte c) 0x20)) by done.
  change utf8.RuneSelf with 0x80%N. rewrite H80.
  change (1 - 1)%nat with 0%nat. by rewrite (IH Ha).
Qed.

(** A string literal of plain text is read as that text. *)
Lemma parse_value_plain (fuel : nat) (depth : N) (a rest : string) :
  plain_text a = true →
  parse_value (S fuel) depth (String "034" (a +:+ String "034" rest))
  = Parsed (JString a, rest).
Proof.
  intros Ha. cbn [parse_value skip_ws is_json_space].
  change DQUOTE with "034"%char.
  cbn [Ascii.eqb Bool.eqb andb].
  by rewrite (scan_string_plain a rest Ha), (unquote_plain a Ha).
Qed.

Lemma string_take_length_append (a b : string) :
  string_take (String.length a) (a +:+ b) = a.
Proof.
  induction a as [|c a IH]; [by destruct b|].
  rewrite String_app_cons. cbn [String.length string_take]. by rewrite IH.
Qed.

(** An object with one member whose name and value are string literals of
    plain text: the member holds the name, the literal as it stands and the
    text. *)
Lemma parse_value_member (fuel : nat) (key a rest : string) :
  plain_text key = true → plain_text a = true →
  parse_value (S (S (S fuel))) 0
    (String "{" (String "034" (key +:+ String "034" (String ":"
       (String "034" (a +:+ String "034" (String "}" rest)))))))
  = Parsed (JObject [(key, (String "034" (a +:+ String "034" ""), JString a))],
            rest).
Proof.
  intros Hk Ha.
  cbn [parse_value skip_ws is_json_space Ascii.eqb Bool.eqb andb].
  change (maxNestingDepth <=? 0)%N with false. cbv iota.
  cbn [parse_members]. change DQUOTE with "034"%char.
  cbn [Ascii.eqb Bool.eqb andb negb].
  rewrite (scan_string_plain key _ Hk), (unquote_plain key Hk).
  cbn [skip_ws is_json_space].
  rewrite (parse_value_plain fuel _ a _ Ha).
  cbn [skip_ws is_json_space].
  replace (String "034" (a +:+ String "034" (String "}" rest)))
    with (String "034" (a +:+ String "034" "") +:+ String "}" rest)
    by (by rewrite String_app_cons, String_append_assoc).
  rewrite String_length_append.
  replace (String.length (String "034" (a +:+ String "034" ""))
           + String.length (String "}" rest) - String.length (String "}" rest))%nat
    with (String.length (String "034" (a +:+ String "034" ""))) by lia.
  by rewrite string_take_length_append.
Qed.

Lemma json_parse_member_reply (key a : string) :
  plain_text key = true → plain_text a = true →
  json_parse (member_reply key a)
  = Some (JObject [(key, (String "034" (a +:+ String "034" ""), JString a))]).
Proof.
  intros Hk Ha. unfold json_parse.
  assert (1 ≤ String.length (member_reply key a))%nat as Hlen
    by (unfold member_reply; norm_app; cbn [String.length]; lia).
  remember (2 * String.length (member_reply key a) + 2)%nat as fuel eqn:Hf.
  assert (3 ≤ fuel)%nat as Hfuel by lia.
  clear Hf Hlen. destruct fuel as [|[|[|fuel]]]; try lia. clear Hfuel.
  change (member_reply key a)
    with (String "{" (String "034" (key +:+ String "034" (String ":"
            (String "034" (a +:+ String "034" (String "}" ""))))))).
  by rewrite (parse_value_member fuel key a "" Hk Ha).
Qed.

(** A string literal of plain text, as the value of [riskNotes]. *)
Lemma json_parse_literal (a : string) :
  plain_text a = true →
  json_parse (String "034" (a +:+ String "034" "")) = Some (JString a).
Proof.
  intros Ha. unfold json_parse.
  change (2 * String.length (String "034" (a +:+ String "034" "")) + 2)%nat
    with (S (String.length (a +:+ String "034" "")
             + S (String.length (a +:+ String "034" "") + 0) + 2)).
  by rewrite (parse_value_plain _ 0 a "" Ha).
Qed.

Section reply_theorems.
Context `{GoLib}.

Lemma action_reply_trimmed (a : string) :
  strings_TrimSpace (action_reply a) = action_reply a.
Proof.
  unfold action_reply. apply TrimSpace_fixed.
  - by apply (no_leading_space_ascii "{").
  - rewrite !rev_append. change (String.rev "}") with "}".
    rewrite !String_append_assoc. by apply (no_trailing_space_rev_ascii "}").
Qed.

Lemma decodeDecision_action_reply (a : string) :
  plain_text a = true →
  decodeDecision (action_reply a)
  = Ok {| Action := a; Confidence := 0%float; Reason := "";
          Adjustments := zero_AdjustmentPlan; RiskNotes := [];
          RawContent := ""; CoTTrace := "" |}.
Proof.
  intros Ha. unfold decodeDecision, json_Unmarshal_rawDecision, json_parse.
  assert (1 ≤ String.length (action_reply a))%nat as Hlen
    by (unfold action_reply; norm_app; cbn [String.length]; lia).
  remember (2 * String.length (action_reply a) + 2)%nat as fuel eqn:Hf.
  assert (3 ≤ fuel)%nat as Hfuel by lia.
  clear Hf Hlen. destruct fuel as [|[|[|fuel]]]; try lia. clear Hfuel.
  change (action_reply a)
    with (String "{" (String "034" ("action" +:+ String "034" (String ":"
            (String "034" (a +:+ String "034" (String "}" ""))))))).
  by rewrite (parse_value_member fuel "action" a "" eq_refl Ha).
Qed.

Lemma ToLower_fence_json (s : string) :
  strings_HasPrefix (strings_ToLower ("```json" +:+ s)) (FENCE +:+ "json") = true.
Proof.
  norm_app. rewrite !ToLower_ascii by reflexivity.
  unfold strings_HasPrefix.
  change (utf8.EncodeRune (rune_ToLower (utf8.byte "`"))) with "`".
  change (utf8.EncodeRune (rune_ToLower (utf8.byte "j"))) with "j".
  change (utf8.EncodeRune (rune_ToLower (utf8.byte "s"))) with "s".
  change (utf8.EncodeRune (rune_ToLower (utf8.byte "o"))) with "o".
  change (utf8.EncodeRune (rune_ToLower (utf8.byte "n"))) with "n".
  norm_app. apply (prefix_append "```json").
Qed.

(** In a fence, an object has no reasoning before it either. *)
Lemma extractCoTTrace_fenced_object (x : string) :
  extractCoTTrace (fenced_json (String "{" x)) = "".
Proof.
  unfold extractCoTTrace, fenced_json. cbv zeta.
  rewrite (TrimSpace_fixed ("```json" +:+ LF +:+ String "{" x +:+ LF +:+ "```"))
    by first [by apply (no_leading_space_ascii "`") | ends_in_backquote].
  rewrite ToLower_fence_json.
  change (strings_Index ("```json" +:+ LF +:+ String "{" x +:+ LF +:+ "```") LF)
    with 7.
  change (negb (7 =? -1)) with true. cbv iota.
  change (string_drop (Z.to_nat (7 + 1))
            ("```json" +:+ LF +:+ String "{" x +:+ LF +:+ "```"))
    with (String "{" x +:+ LF +:+ "```").
  rewrite (TrimSpace_fixed (String "{" x +:+ LF +:+ "```"))
    by first [by apply (no_leading_space_ascii "{") | ends_in_backquote].
  unfold strings_Index. norm_app. cbn [Index_from String.prefix].
  destruct (Ascii.ascii_dec "{" "{"); [|done].
  by rewrite prefix_empty.
Qed.

(** X11. A reply that is the object with the one member "action", its value
    a string literal of plain text, is decoded to a decision with that
    action and every other field zero, bare and in a fence with the tag
    "json" alike; in both cases [RawContent] is the object and there is no
    reasoning trace. *)
Theorem action_reply_parsed (a : string) :
  plain_text a = true →
  let decision :=
    {| Action := a; Confidence := 0%float; Reason := "";
       Adjustments := zero_AdjustmentPlan; RiskNotes := [];
       RawContent := action_reply a; CoTTrace := "" |} in
  parseFullDecisionResponse (action_reply a) = Ok decision
  ∧ parseFullDecisionResponse (fenced_json (action_reply a)) = Ok decision.
Proof.
  intros Ha decision. subst decision.
  assert (Hne : String.eqb (action_reply a) "" = false) by reflexivity.
  split; unfold parseFullDecisionResponse.
  - rewrite trimJSONFences_unfenced; rewrite action_reply_trimmed;
      [|reflexivity].
    rewrite Hne, (decodeDecision_action_reply a Ha).
    rewrite extractCoTTrace_object; [reflexivity|].
    by rewrite action_reply_trimmed.
  - rewrite (trimJSONFences_fenced_json _ (action_reply_trimmed a)).
    rewrite Hne, (decodeDecision_action_reply a Ha).
    unfold action_reply at 2. norm_app.
    by rewrite extractCoTTrace_fenced_object.
Qed.

(** X12. How one member of a reply is decoded.  For the object with one
    member whose name and value are string literals of plain text: a name
    that is "action" or "reason", in any case of its letters, sets that
    field; "riskNotes" gives the one note, or none if the text is blank;
    "confidence" and "adjustments" do not take a string, and the reply is
    refused; and under any other name the member is ignored and the
    decision is the zero value. *)
Theorem member_reply_decoded (key a : string) :
  plain_text key = true → plain_text a = true →
  decodeDecision (member_reply key a)
  = if key_matches "action" key then
      Ok {| Action := a; Confidence := 0%float; Reason := "";
            Adjustments := zero_AdjustmentPlan; RiskNotes := [];
            RawContent := ""; CoTTrace := "" |}
    else if key_matches "confidence" key then Err json_error
    else if key_matches "reason" key then
      Ok {| Action := ""; Confidence := 0%float; Reason := a;
            Adjustments := zero_AdjustmentPlan; RiskNotes := [];
            RawContent := ""; CoTTrace := "" |}
    else if key_matches "adjustments" key then Err json_error
    else if key_matches "riskNotes" key then
      Ok {| Action := ""; Confidence := 0%float; Reason := "";
            Adjustments := zero_AdjustmentPlan;
            RiskNotes := if String.eqb (strings_TrimSpace a) "" then [] else [a];
            RawContent := ""; CoTTrace := "" |}
    else Ok zero_DecisionResponse.
Proof.
  intros Hk Ha. unfold decodeDecision, json_Unmarshal_rawDecision.
  rewrite (json_parse_member_reply key a Hk Ha).
  cbn [mbind option_bind foldl]. unfold decode_rawDecision_member.
  destruct (key_matches "action" key); [reflexivity|].
  destruct (key_matches "confidence" key); [reflexivity|].
  destruct (key_matches "reason" key); [reflexivity|].
  destruct (key_matches "adjustments" key); [reflexivity|].
  destruct (key_matches "riskNotes" key); [|reflexivity].
  cbn [rawDecision.RiskNotes rawDecision.zero rawDecision.Action
       rawDecision.Confidence rawDecision.Reason rawDecision.Adjustments].
  unfold parseRiskNotes.
  replace (Z.of_nat (String.length (String "034" (a +:+ String "034" ""))) =? 0)
    with false by (symmetry; apply Z.eqb_neq; cbn [String.length]; lia).
  cbn [String.eqb Ascii.eqb Bool.eqb andb orb].
  rewrite (json_parse_literal a Ha).
  cbn [mbind option_bind decode_string_slice decode_string].
  by destruct (String.eqb (strings_TrimSpace a) "").
Qed.

End reply_theorems.

Lemma action_reply_parsed_witness :
  parseFullDecisionResponse (H := example_lib) (fenced_json (action_reply "hold"))
  = Ok (hold_decision (action_reply "hold") "").
Proof.
  apply (proj2 (action_reply_parsed (H := example_lib) "hold" eq_refl)).
Defined.

Lemma member_reply_decoded_witness :
  decodeDecision (H := example_lib) (member_reply "RiskNotes" "thin book")
  = Ok {| Action := ""; Confidence := 0%float; Reason := "";
          Adjustments := zero_AdjustmentPlan; RiskNotes := ["thin book"];
          RawContent := ""; CoTTrace := "" |}.
Proof.
  apply (member_reply_decoded (H := example_lib) "RiskNotes" "thin book");
    reflexivity.
Defined.

(** ** Replies without fields, and replies with commentary *)

Lemma float_pos_not_neg (x : float) :
  ((0 <? x) && (x <? 0))%float = false.
Proof.
  rewrite !ltb_spec. change (Prim2SF 0) with (S754_zero false).
  by destruct (Prim2SF x) as [[]|[]| |[] m e].
Qed.

Lemma Index_from_first (c : ascii) (pre x : string) (i : Z) :
  no_byte c pre = true →
  Index_from i (pre +:+ String c x) (String c "")
  = i + Z.of_nat (String.length pre).
Proof.
  revert i. induction pre as [|a pre IH]; intros i Hp.
  - rewrite String_app_nil. cbn [Index_from String.prefix String.length].
    destruct (Ascii.ascii_dec c c); [|done]. rewrite prefix_empty. lia.
  - change (no_byte c (String a pre))
      with (negb (Ascii.eqb a c) && no_byte c pre) in Hp.
    apply andb_true_iff in Hp as [Ha Hp].
    apply negb_true_iff, Ascii.eqb_neq in Ha.
    rewrite String_app_cons. cbn [Index_from String.prefix String.length].
    destruct (Ascii.ascii_dec c a) as [->|]; [done|].
    rewrite (IH _ Hp). lia.
Qed.

Lemma LastIndex_from_none (c : ascii) (s : string) (i last : Z) :
  no_byte c s = true → LastIndex_from i last s (String c "") = last.
Proof.
  revert i. induction s as [|a s IH]; intros i Hs; [reflexivity|].
  change (no_byte c (String a s)) with (negb (Ascii.eqb a c) && no_byte c s) in Hs.
  apply andb_true_iff in Hs as [Ha Hs].
  apply negb_true_iff, Ascii.eqb_neq in Ha.
  cbn [LastIndex_from String.prefix].
  destruct (Ascii.ascii_dec c a) as [->|]; [done|]. by apply IH.
Qed.

Lemma LastIndex_from_last (c : ascii) (y post : string) (i last : Z) :
  no_byte c post = true →
  LastIndex_from i last (y +:+ String c post) (String c "")
  = i + Z.of_nat (String.length y).
Proof.
  intros Hp. revert i last. induction y as [|a y IH]; intros i last.
  - rewrite String_app_nil. cbn [LastIndex_from String.prefix String.length].
    destruct (Ascii.ascii_dec c c); [|done]. rewrite prefix_empty.
    rewrite (LastIndex_from_none c post _ _ Hp). lia.
  - rewrite String_app_cons. cbn [LastIndex_from String.length].
    rewrite IH. lia.
Qed.

Section fallback_theorems.
Context `{GoLib}.
#[local] Open Scope float_scope.

(** A decision without action and with zero adjustments passes validation
    under every limits. *)
Lemma validate_empty (d : DecisionResponse) (limits : RiskLimits) :
  Action d = "" → Adjustments d = zero_AdjustmentPlan →
  validateDecisionResponse d limits = None.
Proof.
  intros Ha Hadj.
  assert (Hok : action_ok d = true).
  { unfold action_ok, normalized_action. rewrite Ha. reflexivity. }
  rewrite (validate_action_ok d limits Hok). rewrite Hadj. cbv zeta.
  cbn [TargetLeverage StopLossPercent TakeProfitPercent zero_AdjustmentPlan].
  change (0 <? 0) with false. cbv iota.
  by rewrite float_pos_not_neg.
Qed.

(** X13. A reply without any field is a decision.  When the model answers
    [null] or [{}], [GenerateDecision] returns, from the first request, the
    decision with no action, no reason, confidence 0 and every adjustment 0,
    and validation lets it pass under every limits. *)
Theorem reply_without_fields (c : Client) (u content now : string)
    (req : DecisionRequest.t) (rangeOrder : list string) (w : World) :
  apiKey c ≠ "" → mcpClient c = Some u →
  content = "null" ∨ content = "{}" →
  exchanges w (calls w) = completion content →
  GenerateDecision (Some c) req now rangeOrder w
  = (Ok {| Action := ""; Confidence := 0; Reason := "";
           Adjustments := zero_AdjustmentPlan; RiskNotes := [];
           RawContent := content; CoTTrace := "" |},
     advance w).
Proof.
  intros Hk Hm Hc Hex. unfold GenerateDecision.
  rewrite (proj2 (String.eqb_neq _ _) Hk). cbv zeta.
  rewrite (CallWithMessages_cases c u) by done. cbv zeta.
  rewrite (first_attempt_outcome c u w Hk Hm), Hex. unfold completion.
  change (400 <=? 200)%Z with false. cbv iota.
  cbn [ErrorField Choices Content].
  replace {| exchanges := exchanges w; calls := calls w + 1;
             slept := slept w ++ [] |} with (advance w)
    by (unfold advance; rewrite app_nil_r; f_equal; lia).
  assert (Hparse : parseFullDecisionResponse content
    = Ok {| Action := ""; Confidence := 0; Reason := "";
            Adjustments := zero_AdjustmentPlan; RiskNotes := [];
            RawContent := content; CoTTrace := "" |}).
  { destruct Hc as [-> | ->]; by vm_compute. }
  rewrite Hparse.
  cbn [set_RawContent_CoTTrace CoTTrace RawContent Action Confidence Reason
       Adjustments RiskNotes String.eqb].
  assert (Htrace : extractCoTTrace content = "").
  { destruct Hc as [-> | ->]; by vm_compute. }
  rewrite Htrace.
  by rewrite validate_empty.
Qed.

(** X14. The second attempt of [parseFullDecisionResponse].  When the
    fence-stripped text does not decode as a whole and is an object with
    commentary around it, with no opening brace before the object and no
    closing brace after it, the object is what is decoded: the result is the
    decision of the object, with the whole text as [RawContent], or the
    error that quotes the whole text. *)
Theorem fallback_snippet (raw pre m post : string) (e : error) :
  trimJSONFences raw = pre +:+ "{" +:+ m +:+ "}" +:+ post →
  no_byte "{" pre = true → no_byte "}" post = true →
  decodeDecision (trimJSONFences raw) = Err e →
  parseFullDecisionResponse raw
  = match decodeDecision ("{" +:+ m +:+ "}") with
    | Ok resp =>
      Ok (set_RawContent_CoTTrace (trimJSONFences raw) (extractCoTTrace raw) resp)
    | Err _ => Err (errors_New ("无法解析模型输出: " +:+ trimJSONFences raw))
    end.
Proof.
  intros Hcontent Hpre Hpost Hdec. unfold parseFullDecisionResponse.
  rewrite Hdec, Hcontent.
  assert (Hne : String.eqb (pre +:+ "{" +:+ m +:+ "}" +:+ post) "" = false).
  { destruct pre; reflexivity. }
  rewrite Hne.
  assert (Hstart : strings_Index (pre +:+ "{" +:+ m +:+ "}" +:+ post) "{"
                   = Z.of_nat (String.length pre)).
  { unfold strings_Index. norm_app.
    by rewrite (Index_from_first "{" pre _ 0 Hpre). }
  assert (Hend : strings_LastIndex (pre +:+ "{" +:+ m +:+ "}" +:+ post) "}"
                 = Z.of_nat (String.length (pre +:+ "{" +:+ m))).
  { unfold strings_LastIndex.
    replace (pre +:+ "{" +:+ m +:+ "}" +:+ post)
      with ((pre +:+ "{" +:+ m) +:+ String "}" post)
      by (by rewrite !String_append_assoc).
    by rewrite (LastIndex_from_last "}" _ post 0 (-1) Hpost). }
  rewrite Hstart, Hend.
  rewrite !String_length_append. change (String.length "{") with 1%nat.
  replace ((0 <=? Z.of_nat (String.length pre))%Z
           && (Z.of_nat (String.length pre)
               <? Z.of_nat (String.length pre + (1 + String.length m)))%Z)
    with true by (symmetry; apply andb_true_iff; split;
                  [apply Z.leb_le | apply Z.ltb_lt]; lia).
  assert (Hslice :
    string_slice (Z.of_nat (String.length pre))
      (Z.of_nat (String.length pre + (1 + String.length m)) + 1)
      (pre +:+ "{" +:+ m +:+ "}" +:+ post)
    = "{" +:+ m +:+ "}").
  { unfold string_slice. rewrite Nat2Z.id, string_drop_append.
    replace (Z.to_nat (Z.of_nat (String.length pre + (1 + String.length m)) + 1
                       - Z.of_nat (String.length pre)))
      with (String.length ("{" +:+ m +:+ "}"))
      by (rewrite !String_length_append; simpl; lia).
    replace ("{" +:+ m +:+ "}" +:+ post) with (("{" +:+ m +:+ "}") +:+ post)
      by (by rewrite !String_append_assoc).
    apply string_take_length_append. }
  rewrite Hslice.
  by destruct (decodeDecision ("{" +:+ m +:+ "}")).
Qed.

End fallback_theorems.

Lemma reply_without_fields_witness :
  fst (GenerateDecision (H := example_lib) (Some example_client) example_request
         "2025-01-01 00:00:00" [] (world_of (λ _, completion "null")))
  = Ok {| Action := ""; Confidence := 0%float; Reason := "";
          Adjustments := zero_AdjustmentPlan; RiskNotes := [];
          RawContent := "null"; CoTTrace := "" |}.
Proof.
  rewrite (reply_without_fields (H := example_lib) example_client
             "https://api.deepseek.com/v1" "null" "2025-01-01 00:00:00"
             example_request [] (world_of (λ _, completion "null")));
    [reflexivity | discriminate | reflexivity | by left | reflexivity].
Defined.

Lemma fallback_snippet_witness :
  parseFullDecisionResponse (H := example_lib) hold_with_commentary
  = Ok (hold_decision hold_with_commentary "I think so").
Proof.
  rewrite (fallback_snippet (H := example_lib) hold_with_commentary
             "I think so " (QUOTE +:+ "action" +:+ QUOTE +:+ ":" +:+ QUOTE
                            +:+ "hold" +:+ QUOTE)
             " done" json_error); by vm_compute.
Defined.

(** ** The fuel of the JSON parser *)

(** The three functions of the parser, one step each. *)
Lemma parse_value_S (fuel : nat) (depth : N) (s : string) :
  parse_value (S fuel) depth s
  = match skip_ws s with
    | "" => SyntaxError
    | String c rest =>
      if Ascii.eqb c "{" then
        if (maxNestingDepth <=? depth)%N then SyntaxError else
        match head_is "}" (skip_ws rest) with
        | Some rest' => Parsed (JObject [], rest')
        | None =>
          match parse_members fuel (depth + 1)%N (skip_ws rest) with
          | Parsed (ms, r) => Parsed (JObject ms, r)
          | SyntaxError => SyntaxError
          | OutOfFuel => OutOfFuel
          end
        end
      else if Ascii.eqb c "[" then
        if (maxNestingDepth <=? depth)%N then SyntaxError else
        match head_is "]" (skip_ws rest) with
        | Some rest' => Parsed (JArray [], rest')
        | None =>
          match parse_elements fuel (depth + 1)%N (skip_ws rest) with
          | Parsed (vs, r) => Parsed (JArray vs, r)
          | SyntaxError => SyntaxError
          | OutOfFuel => OutOfFuel
          end
        end
      else if Ascii.eqb c DQUOTE then
        match scan_string InString rest with
        | Some (body, rest') =>
          match unquote body with
          | Some str => Parsed (JString str, rest')
          | None => SyntaxError
          end
        | None => SyntaxError
        end
      else if Ascii.eqb c "-" || is_digit c then
        match scan_number (String c rest) with
        | Some (lit, rest') => Parsed (JNumber lit, rest')
        | None => SyntaxError
        end
      else if String.prefix "true" (String c rest)
      then Parsed (JBool true, string_drop 4 (String c rest))
      else if String.prefix "false" (String c rest)
      then Parsed (JBool false, string_drop 5 (String c rest))
      else if String.prefix "null" (String c rest)
      then Parsed (JNull, string_drop 4 (String c rest))
      else SyntaxError
    end.
Proof.
  cbn [parse_value]. destruct (skip_ws s) as [|c rest]; [reflexivity|].
  destruct (Ascii.eqb c "{").
  { destruct (maxNestingDepth <=? depth)%N; [reflexivity|].
    destruct (skip_ws rest) as [|[[] [] [] [] [] [] [] []] r]; reflexivity. }
  destruct (Ascii.eqb c "["); [|reflexivity].
  destruct (maxNestingDepth <=? depth)%N; [reflexivity|].
  destruct (skip_ws rest) as [|[[] [] [] [] [] [] [] []] r]; reflexivity.
Qed.

Lemma parse_elements_S (fuel : nat) (depth : N) (s : string) :
  parse_elements (S fuel) depth s
  = match parse_value fuel depth s with
    | Parsed (v, rest) =>
      match head_is "," (skip_ws rest) with
      | Some rest' =>
        match parse_elements fuel depth rest' with
        | Parsed (vs, r) => Parsed (v :: vs, r)
        | SyntaxError => SyntaxError
        | OutOfFuel => OutOfFuel
        end
      | None =>
        match head_is "]" (skip_ws rest) with
        | Some rest' => Parsed ([v], rest')
        | None => SyntaxError
        end
      end
    | SyntaxError => SyntaxError
    | OutOfFuel => OutOfFuel
    end.
Proof.
  cbn [parse_elements].
  destruct (parse_value fuel depth s) as [[v rest]| |]; try reflexivity.
  destruct (skip_ws rest) as [|[[] [] [] [] [] [] [] []] r]; reflexivity.
Qed.

Lemma parse_members_S (fuel : nat) (depth : N) (s : string) :
  parse_members (S fuel) depth s
  = match s with
    | String c rest =>
      if negb (Ascii.eqb c DQUOTE) then SyntaxError else
      match scan_string InString rest with
      | Some (body, rest1) =>
        match unquote body with
        | Some key =>
          match head_is ":" (skip_ws rest1) with
          | Some rest2 =>
            match parse_value fuel depth (skip_ws rest2) with
            | Parsed (v, rest3) =>
              let raw :=
                string_take (String.length (skip_ws rest2) - String.length rest3)
                  (skip_ws rest2) in
              match head_is "," (skip_ws rest3) with
              | Some rest4 =>
                match parse_members fuel depth (skip_ws rest4) with
                | Parsed (ms, r) => Parsed ((key, (raw, v)) :: ms, r)
                | SyntaxError => SyntaxError
                | OutOfFuel => OutOfFuel
                end
              | None =>
                match head_is "}" (skip_ws rest3) with
                | Some rest4 => Parsed ([(key, (raw, v))], rest4)
                | None => SyntaxError
                end
              end
            | SyntaxError => SyntaxError
            | OutOfFuel => OutOfFuel
            end
          | None => SyntaxError
          end
        | None => SyntaxError
        end
      | None => SyntaxError
      end
    | "" => SyntaxError
    end.
Proof.
  cbn [parse_members]. destruct s as [|c rest]; [reflexivity|].
  destruct (negb (Ascii.eqb c DQUOTE)); [reflexivity|].
  destruct (scan_string InString rest) as [[body rest1]|]; [|reflexivity].
  destruct (unquote body) as [key|].
  2:{ by destruct (skip_ws rest1) as [|[[] [] [] [] [] [] [] []] r]. }
  destruct (skip_ws rest1) as [|[[] [] [] [] [] [] [] []] rest2];
    try reflexivity.
  cbn [head_is Ascii.eqb Bool.eqb andb]. cbv zeta.
  destruct (parse_value fuel depth (skip_ws rest2)) as [[v rest3]| |];
    try reflexivity.
  destruct (skip_ws rest3) as [|[[] [] [] [] [] [] [] []] r]; reflexivity.
Qed.

Lemma skip_ws_length (s : string) :
  (String.length (skip_ws s) ≤ String.length s)%nat.
Proof.
  induction s as [|c s IH]; [done|]. cbn [skip_ws].
  destruct (is_json_space c); cbn [String.length]; lia.
Qed.

Lemma head_is_length (c : ascii) (s r : string) :
  head_is c s = Some r → String.length s = S (String.length r).
Proof.
  destruct s as [|a s]; [discriminate|]. cbn [head_is].
  destruct (Ascii.eqb a c); [|discriminate]. by intros [= ->].
Qed.

Lemma scan_string_length (st : string_state) (s body rest : string) :
  scan_string st s = Some (body, rest) →
  (String.length rest < String.length s)%nat.
Proof.
  revert st body. induction s as [|c s IH]; intros st body; [discriminate|].
  assert (Hcont : ∀ st',
    match scan_string st' s with
    | Some (body0, rest0) => Some (String c body0, rest0)
    | None => None
    end = Some (body, rest) →
    (String.length rest < String.length (String c s))%nat).
  { intros st'. destruct (scan_string st' s) as [[b r]|] eqn:E; [|discriminate].
    intros [= <- <-]. apply IH in E. cbn [String.length]. lia. }
  cbn [scan_string]. destruct st as [| |n].
  - destruct (Ascii.eqb c DQUOTE).
    { intros [= <- <-]. cbn [String.length]. lia. }
    destruct (Ascii.eqb c "\"); [apply Hcont|].
    destruct (utf8.byte c <? 32)%N; [discriminate | apply Hcont].
  - destruct (existsb _ _); [apply Hcont|].
    destruct (Ascii.eqb c "u"); [apply Hcont | discriminate].
  - destruct (is_hex c); [apply Hcont | discriminate].
Qed.

Lemma span_digits_length (s ds rest : string) :
  span_digits s = (ds, rest) → (String.length rest ≤ String.length s)%nat.
Proof.
  revert ds rest. induction s as [|c s IH]; intros ds rest.
  { by intros [= <- <-]. }
  cbn [span_digits]. destruct (is_digit c).
  - destruct (span_digits s) as [ds' rest'] eqn:E. intros [= <- <-].
    specialize (IH _ _ eq_refl). cbn [String.length]. lia.
  - by intros [= <- <-].
Qed.

Lemma scan_number_length (s lit rest : string) :
  scan_number s = Some (lit, rest) →
  (String.length rest < String.length s)%nat.
Proof.
  unfold scan_number.
  set (signed := match s with String "-" s' => ("-", s') | _ => ("", s) end).
  assert (Hsign : (String.length signed.2 ≤ String.length s)%nat).
  { subst signed. destruct s as [|c s']; [done|].
    destruct (Ascii.eqb_spec c "-") as [->|Hc]; [cbn; lia|].
    by destruct c as [[] [] [] [] [] [] [] []]. }
  replace (match s with String "-" s' => ("-", s') | _ => ("", s) end)
    with signed by done.
  destruct signed as [sign s0]. cbn [snd] in Hsign.
  set (int_scan := match s0 with
                   | String "0" s' => Some ("0", s')
                   | String c s' =>
                     if is_digit c
                     then let '(ds, rest0) := span_digits s' in
                          Some (String c ds, rest0)
                     else None
                   | "" => None
                   end).
  assert (Hint : ∀ ip s1, int_scan = Some (ip, s1) →
                          (String.length s1 < String.length s0)%nat).
  { subst int_scan. intros ip s1. destruct s0 as [|c s']; [discriminate|].
    assert (Hd : (if is_digit c
                  then let '(ds, rest0) := span_digits s' in
                       Some (String c ds, rest0)
                  else None) = Some (ip, s1) →
                 (String.length s1 < String.length (String c s'))%nat).
    { destruct (is_digit c); [|discriminate].
      destruct (span_digits s') as [ds r0] eqn:E. intros [= <- <-].
      apply span_digits_length in E. cbn [String.length]. lia. }
    destruct (Ascii.eqb_spec c "0") as [->|Hc].
    - intros [= <- <-]. cbn [String.length]. lia.
    - by destruct c as [[] [] [] [] [] [] [] []]. }
  fold int_scan.
  destruct int_scan as [[int_part s1]|]; [|discriminate].
  specialize (Hint _ _ eq_refl).
  set (frac_scan := match s1 with
                    | String "." s' =>
                      let '(ds, rest0) := span_digits s' in
                      if String.eqb ds "" then None else Some ("." +:+ ds, rest0)
                    | _ => Some ("", s1)
                    end).
  assert (Hfrac : ∀ fp s2, frac_scan = Some (fp, s2) →
                           (String.length s2 ≤ String.length s1)%nat).
  { subst frac_scan. intros fp s2. destruct s1 as [|c s']; [by intros [= <- <-]|].
    destruct (Ascii.eqb_spec c ".") as [->|Hc].
    - destruct (span_digits s') as [ds r0] eqn:E.
      destruct (String.eqb ds ""); [discriminate|]. intros [= <- <-].
      apply span_digits_length in E. cbn [String.length]. lia.
    - destruct c as [[] [] [] [] [] [] [] []];
        first [done | by intros [= <- <-]]. }
  fold frac_scan.
  destruct frac_scan as [[frac_part s2]|]; [|discriminate].
  specialize (Hfrac _ _ eq_refl).
  destruct s2 as [|c s'].
  { intros [= <- <-]. lia. }
  destruct (Ascii.eqb c "e" || Ascii.eqb c "E").
  - set (exp_sign := match s' with
                     | String "+" t => ("+", t)
                     | String "-" t => ("-", t)
                     | _ => ("", s')
                     end).
    assert (Hes : (String.length exp_sign.2 ≤ String.length s')%nat).
    { subst exp_sign. destruct s' as [|c' t]; [done|].
      destruct (Ascii.eqb_spec c' "+") as [->|H1]; [cbn; lia|].
      destruct (Ascii.eqb_spec c' "-") as [->|H2]; [cbn; lia|].
      by destruct c' as [[] [] [] [] [] [] [] []]. }
    destruct exp_sign as [esign s'']. cbn [snd] in Hes.
    destruct (span_digits s'') as [ds r0] eqn:E.
    destruct (String.eqb ds ""); [discriminate|]. intros [= <- <-].
    apply span_digits_length in E. cbn [String.length] in *. lia.
  - intros [= <- <-]. lia.
Qed.

(** What the parser leaves is shorter than what it was given. *)
Lemma parse_consumes (fuel : nat) :
  (∀ depth s v r, parse_value fuel depth s = Parsed (v, r) →
                  (String.length r < String.length s)%nat)
  ∧ (∀ depth s vs r, parse_elements fuel depth s = Parsed (vs, r) →
                     (String.length r < String.length s)%nat)
  ∧ (∀ depth s ms r, parse_members fuel depth s = Parsed (ms, r) →
                     (String.length r < String.length s)%nat).
Proof.
  induction fuel as [|fuel (IHv & IHe & IHm)]; [by repeat split|].
  split; [|split].
  - intros depth s v r. rewrite parse_value_S.
    pose proof (skip_ws_length s) as Hs.
    destruct (skip_ws s) as [|c rest] eqn:Es; [discriminate|].
    pose proof (skip_ws_length rest) as Hrest.
    cbn [String.length] in Hs.
    destruct (Ascii.eqb c "{").
    { destruct (maxNestingDepth <=? depth)%N; [discriminate|].
      destruct (head_is "}" (skip_ws rest)) as [r'|] eqn:Eh.
      - intros [= <- <-]. apply head_is_length in Eh. lia.
      - destruct (parse_members fuel (depth + 1) (skip_ws rest))
          as [[ms r0]| |] eqn:Em; try discriminate.
        intros [= <- <-]. apply IHm in Em. lia. }
    destruct (Ascii.eqb c "[").
    { destruct (maxNestingDepth <=? depth)%N; [discriminate|].
      destruct (head_is "]" (skip_ws rest)) as [r'|] eqn:Eh.
      - intros [= <- <-]. apply head_is_length in Eh. lia.
      - destruct (parse_elements fuel (depth + 1) (skip_ws rest))
          as [[vs r0]| |] eqn:Ee; try discriminate.
        intros [= <- <-]. apply IHe in Ee. lia. }
    destruct (Ascii.eqb c DQUOTE).
    { destruct (scan_string InString rest) as [[body r0]|] eqn:Esc;
        [|discriminate].
      destruct (unquote body); [|discriminate].
      intros [= <- <-]. apply scan_string_length in Esc. lia. }
    destruct (Ascii.eqb c "-" || is_digit c).
    { destruct (scan_number (String c rest)) as [[lit r0]|] eqn:En;
        [|discriminate].
      intros [= <- <-]. apply scan_number_length in En.
      cbn [String.length] in En. lia. }
    assert (Hd : ∀ n, (1 ≤ n)%nat →
      (String.length (string_drop n (String c rest)) < String.length s)%nat).
    { intros n Hn. rewrite string_drop_length. cbn [String.length]. lia. }
    pose proof (Hd 4%nat ltac:(lia)) as H4. pose proof (Hd 5%nat ltac:(lia)) as H5.
    revert H4 H5. generalize (string_drop 4 (String c rest)).
    generalize (string_drop 5 (String c rest)). intros d5 d4 H4 H5.
    repeat (match goal with
            | |- context [if ?b then _ else _] => destruct b
            end; [by intros [= <- <-]|]).
    discriminate.
  - intros depth s vs r. rewrite parse_elements_S.
    destruct (parse_value fuel depth s) as [[v rest]| |] eqn:Ev;
      try discriminate.
    apply IHv in Ev. pose proof (skip_ws_length rest) as Hrest.
    destruct (head_is "," (skip_ws rest)) as [r'|] eqn:Eh.
    + apply head_is_length in Eh.
      destruct (parse_elements fuel depth r') as [[vs0 r0]| |] eqn:Ee;
        try discriminate.
      intros [= <- <-]. apply IHe in Ee. lia.
    + destruct (head_is "]" (skip_ws rest)) as [r'|] eqn:Eh2; [|discriminate].
      intros [= <- <-]. apply head_is_length in Eh2. lia.
  - intros depth s ms r. rewrite parse_members_S.
    destruct s as [|c rest]; [discriminate|].
    destruct (negb (Ascii.eqb c DQUOTE)); [discriminate|].
    destruct (scan_string InString rest) as [[body rest1]|] eqn:Esc;
      [|discriminate].
    apply scan_string_length in Esc.
    destruct (unquote body) as [key|]; [|discriminate].
    pose proof (skip_ws_length rest1) as H1.
    destruct (head_is ":" (skip_ws rest1)) as [rest2|] eqn:Eh; [|discriminate].
    apply head_is_length in Eh. pose proof (skip_ws_length rest2) as H2.
    destruct (parse_value fuel depth (skip_ws rest2)) as [[v rest3]| |] eqn:Ev;
      try discriminate.
    apply IHv in Ev. pose proof (skip_ws_length rest3) as H3. cbv zeta.
    cbn [String.length].
    destruct (head_is "," (skip_ws rest3)) as [rest4|] eqn:Eh3.
    + apply head_is_length in Eh3. pose proof (skip_ws_length rest4) as H4.
      destruct (parse_members fuel depth (skip_ws rest4)) as [[ms0 r0]| |] eqn:Em;
        try discriminate.
      intros [= <- <-]. apply IHm in Em. lia.
    + destruct (head_is "}" (skip_ws rest3)) as [rest4|] eqn:Eh4;
        [|discriminate].
      intros [= <- <-]. apply head_is_length in Eh4. lia.
Qed.

(** Fuel of twice the length of the text, and two, is enough. *)
Lemma parse_fuel_enough (fuel : nat) :
  (∀ depth s, (2 * String.length s + 1 ≤ fuel)%nat →
              parse_value fuel depth s ≠ OutOfFuel)
  ∧ (∀ depth s, (2 * String.length s + 2 ≤ fuel)%nat →
                parse_elements fuel depth s ≠ OutOfFuel)
  ∧ (∀ depth s, (2 * String.length s + 2 ≤ fuel)%nat →
                parse_members fuel depth s ≠ OutOfFuel).
Proof.
  induction fuel as [|fuel (IHv & IHe & IHm)]; [repeat split; intros; lia|].
  split; [|split].
  - intros depth s Hf. rewrite parse_value_S.
    pose proof (skip_ws_length s) as Hs.
    destruct (skip_ws s) as [|c rest] eqn:Es; [discriminate|].
    pose proof (skip_ws_length rest) as Hrest.
    cbn [String.length] in Hs.
    destruct (Ascii.eqb c "{").
    { destruct (maxNestingDepth <=? depth)%N; [discriminate|].
      destruct (head_is "}" (skip_ws rest)); [discriminate|].
      specialize (IHm (depth + 1)%N (skip_ws rest) ltac:(lia)).
      by destruct (parse_members fuel (depth + 1) (skip_ws rest)) as [[ms r0]| |]. }
    destruct (Ascii.eqb c "[").
    { destruct (maxNestingDepth <=? depth)%N; [discriminate|].
      destruct (head_is "]" (skip_ws rest)); [discriminate|].
      specialize (IHe (depth + 1)%N (skip_ws rest) ltac:(lia)).
      by destruct (parse_elements fuel (depth + 1) (skip_ws rest)) as [[vs r0]| |]. }
    repeat (match goal with
            | |- context [match ?x with _ => _ end] => destruct x
            end; try discriminate).
  - intros depth s Hf. rewrite parse_elements_S.
    specialize (IHv depth s ltac:(lia)).
    destruct (parse_value fuel depth s) as [[v rest]| |] eqn:Ev;
      [|discriminate|done].
    apply (proj1 (parse_consumes fuel)) in Ev.
    pose proof (skip_ws_length rest) as Hrest.
    destruct (head_is "," (skip_ws rest)) as [r'|] eqn:Eh.
    + apply head_is_length in Eh.
      specialize (IHe depth r' ltac:(lia)).
      by destruct (parse_elements fuel depth r') as [[vs0 r0]| |].
    + by destruct (head_is "]" (skip_ws rest)).
  - intros depth s Hf. rewrite parse_members_S.
    destruct s as [|c rest]; [discriminate|]. cbn [String.length] in Hf.
    destruct (negb (Ascii.eqb c DQUOTE)); [discriminate|].
    destruct (scan_string InString rest) as [[body rest1]|] eqn:Esc;
      [|discriminate].
    apply scan_string_length in Esc.
    destruct (unquote body) as [key|]; [|discriminate].
    pose proof (skip_ws_length rest1) as H1.
    destruct (head_is ":" (skip_ws rest1)) as [rest2|] eqn:Eh; [|discriminate].
    apply head_is_length in Eh. pose proof (skip_ws_length rest2) as H2.
    specialize (IHv depth (skip_ws rest2) ltac:(lia)).
    destruct (parse_value fuel depth (skip_ws rest2)) as [[v rest3]| |] eqn:Ev;
      [|discriminate|done].
    apply (proj1 (parse_consumes fuel)) in Ev.
    pose proof (skip_ws_length rest3) as H3. cbv zeta.
    destruct (head_is "," (skip_ws rest3)) as [rest4|] eqn:Eh3.
    + apply head_is_length in Eh3. pose proof (skip_ws_length rest4) as H4.
      specialize (IHm depth (skip_ws rest4) ltac:(lia)).
      by destruct (parse_members fuel depth (skip_ws rest4)) as [[ms0 r0]| |].
    + by destruct (head_is "}" (skip_ws rest3)).
Qed.

(** A result that did not run out of fuel is the result with more fuel. *)
Lemma parse_fuel_more (fuel : nat) :
  (∀ depth s, parse_value fuel depth s ≠ OutOfFuel →
              parse_value (S fuel) depth s = parse_value fuel depth s)
  ∧ (∀ depth s, parse_elements fuel depth s ≠ OutOfFuel →
                parse_elements (S fuel) depth s = parse_elements fuel depth s)
  ∧ (∀ depth s, parse_members fuel depth s ≠ OutOfFuel →
                parse_members (S fuel) depth s = parse_members fuel depth s).
Proof.
  induction fuel as [|fuel (IHv & IHe & IHm)]; [by repeat split|].
  split; [|split].
  - intros depth s. rewrite (parse_value_S (S fuel)), (parse_value_S fuel).
    destruct (skip_ws s) as [|c rest]; [done|].
    destruct (Ascii.eqb c "{").
    { destruct (maxNestingDepth <=? depth)%N; [done|].
      destruct (head_is "}" (skip_ws rest)); [done|].
      intros Hne. rewrite IHm; [done|].
      by destruct (parse_members fuel (depth + 1) (skip_ws rest)) as [[ms r0]| |]. }
    destruct (Ascii.eqb c "["); [|done].
    destruct (maxNestingDepth <=? depth)%N; [done|].
    destruct (head_is "]" (skip_ws rest)); [done|].
    intros Hne. rewrite IHe; [done|].
    by destruct (parse_elements fuel (depth + 1) (skip_ws rest)) as [[vs r0]| |].
  - intros depth s. rewrite (parse_elements_S (S fuel)), (parse_elements_S fuel).
    intros Hne.
    rewrite IHv by (by destruct (parse_value fuel depth s) as [[v rest]| |]).
    destruct (parse_value fuel depth s) as [[v rest]| |]; try done.
    destruct (head_is "," (skip_ws rest)) as [r'|]; [|done].
    rewrite IHe; [done|].
    by destruct (parse_elements fuel depth r') as [[vs0 r0]| |].
  - intros depth s. rewrite (parse_members_S (S fuel)), (parse_members_S fuel).
    destruct s as [|c rest]; [done|].
    destruct (negb (Ascii.eqb c DQUOTE)); [done|].
    destruct (scan_string InString rest) as [[body rest1]|]; [|done].
    destruct (unquote body) as [key|]; [|done].
    destruct (head_is ":" (skip_ws rest1)) as [rest2|]; [|done].
    intros Hne.
    rewrite IHv
      by (by destruct (parse_value fuel depth (skip_ws rest2)) as [[v r]| |]).
    destruct (parse_value fuel depth (skip_ws rest2)) as [[v rest3]| |];
      try done.
    cbv zeta in *.
    destruct (head_is "," (skip_ws rest3)) as [rest4|]; [|done].
    rewrite IHm; [done|].
    by destruct (parse_members fuel depth (skip_ws rest4)) as [[ms0 r0]| |].
Qed.

(** X15. The parser that stands for [json.Unmarshal] never gives up for
    lack of fuel: with the fuel that [json_parse] gives it, twice the length
    of the text and two, it ends with a value or a syntax error, and every
    larger amount of fuel gives the same result.  So [decodeDecision] and
    [parseRiskNotes] refuse a text only for what it holds. *)
Theorem json_parse_fuel (data : string) (fuel : nat) :
  (2 * String.length data + 2 ≤ fuel)%nat →
  parse_value (2 * String.length data + 2) 0 data ≠ OutOfFuel
  ∧ parse_value fuel 0 data = parse_value (2 * String.length data + 2) 0 data.
Proof.
  intros Hf.
  assert (Hne : parse_value (2 * String.length data + 2) 0 data ≠ OutOfFuel).
  { apply (proj1 (parse_fuel_enough _)). lia. }
  split; [exact Hne|].
  induction Hf as [|fuel Hf IH]; [done|].
  rewrite <- IH. apply (proj1 (parse_fuel_more fuel)). by rewrite IH.
Qed.

Lemma json_parse_fuel_witness :
  parse_value 1000 0 hold_json
  = parse_value (2 * String.length hold_json + 2) 0 hold_json.
Proof.
  apply (proj2 (json_parse_fuel hold_json 1000 ltac:(vm_compute; lia))).
Defined.

(** ** News sentiment *)

(** A call that succeeds has made at least one and at most three
    requests. *)
Lemma CallWithMessages_Ok_calls (c : Client) (s u r : string) (w w' : World) :
  CallWithMessages (Some c) s u w = (Ok r, w') →
  (calls w < calls w' ≤ calls w + 3)%nat.
Proof.
  intros Hcall.
  destruct (String.eqb_spec (apiKey c) "") as [Hk|Hk].
  { unfold CallWithMessages in Hcall. rewrite Hk in Hcall. discriminate. }
  destruct (mcpClient c) as [url|] eqn:Hm.
  - rewrite (CallWithMessages_cases c url) in Hcall by done.
    cbv zeta in Hcall.
    repeat (match type of Hcall with
            | context [match ?o with Ok _ => _ | Err _ => _ end] => destruct o
            | context [if ?b then _ else _] => destruct b
            end); injection Hcall as _ <-; cbn [calls]; lia.
  - by rewrite (no_request_without_transport c s u w Hk Hm) in Hcall.
Qed.

Section news_theorems.
Context `{GoLib} `{NewsJSON}.

(** A summary that [AnalyzeNews] returns. *)
Lemma AnalyzeNews_Ok (c : option Client) (articles : list Article.t)
    (w w' : World) (summary : SentimentSummary.t) :
  AnalyzeNews c articles w = (Ok summary, w') →
  SentimentSummary.Sentiment summary ≠ ""
  ∧ (articles = [] → summary = neutral_summary ∧ w' = w)
  ∧ (articles ≠ [] → (calls w < calls w' ≤ calls w + 3)%nat).
Proof.
  unfold AnalyzeNews. destruct c as [client|]; [|discriminate].
  destruct (String.eqb (apiKeyValue client) ""); [discriminate|].
  destruct articles as [|art articles].
  { change (len [] =? 0) with true. cbv iota. intros [= <- <-].
    by repeat split. }
  replace (len (art :: articles) =? 0) with false
    by (symmetry; apply Z.eqb_neq; unfold len; cbn [length]; lia).
  cbv iota zeta.
  match goal with
  | |- context [CallWithMessages ?c ?sp ?up ?w] =>
    destruct (CallWithMessages c sp up w) as [[respContent|err] w1] eqn:Hcall
  end; [|discriminate].
  apply CallWithMessages_Ok_calls in Hcall.
  destruct (json_Unmarshal_SentimentSummary (cleanJSON respContent))
    as [s0|err]; [|discriminate].
  intros [= <- <-]. split; [|by split].
  destruct (String.eqb_spec (SentimentSummary.Sentiment s0) ""); [done|].
  done.
Qed.

(** X16. [AnalyzeNews] fails without a request on a [nil] client and on a
    client without a key.  On a client with a key an empty list of articles
    gives the neutral summary, again without a request.  And a summary that
    it returns never has an empty sentiment: where the model gave none it is
    "neutral"; for a list that is not empty the summary has cost at least
    one and at most three requests. *)
Theorem AnalyzeNews_sentiment (articles : list Article.t) (w : World) :
  AnalyzeNews None articles w = (Err (errors_New "deepseek client is nil"), w)
  ∧ (∀ client, apiKey client = "" →
       AnalyzeNews (Some client) articles w
       = (Err (errors_New "deepseek api key 未设置"), w))
  ∧ (∀ client, apiKey client ≠ "" →
       AnalyzeNews (Some client) [] w = (Ok neutral_summary, w))
  ∧ (∀ c summary w',
       AnalyzeNews c articles w = (Ok summary, w') →
       SentimentSummary.Sentiment summary ≠ ""
       ∧ (articles = [] → summary = neutral_summary ∧ w' = w)
       ∧ (articles ≠ [] → (calls w < calls w' ≤ calls w + 3)%nat)).
Proof.
  split; [reflexivity|]. split; [|split].
  - intros client Hk. unfold AnalyzeNews, apiKeyValue. by rewrite Hk.
  - intros client Hk. unfold AnalyzeNews, apiKeyValue.
    by rewrite (proj2 (String.eqb_neq _ _) Hk).
  - intros c summary w'. apply AnalyzeNews_Ok.
Qed.

End news_theorems.

Lemma AnalyzeNews_sentiment_witness :
  AnalyzeNews (H := example_lib) (H0 := example_news_json)
    (Some example_client) [] (world_of (λ _, completion "{}"))
  = (Ok neutral_summary, world_of (λ _, completion "{}"))
  ∧ AnalyzeNews (H := example_lib) (H0 := example_news_json)
      (Some example_client) [example_article] (world_of (λ _, completion "{}"))
    = (Ok neutral_summary,
       {| exchanges := λ _, completion "{}"; calls := 1; slept := [] |}).
Proof.
  split.
  - apply (proj1 (proj2 (proj2 (AnalyzeNews_sentiment (H := example_lib)
                                  (H0 := example_news_json) []
                                  (world_of (λ _, completion "{}"))))) example_client).
    discriminate.
  - vm_compute. reflexivity.
Defined.

(** ** The leverage in the system prompt *)

Section leverage_theorems.
Context `{GoLib}.


End leverage_theorems.


(** ** The audit fields of a parsed decision: the reasoning trace *)

(** The first occurrence of a byte splits the text. *)
Lemma Index_from_split (c : ascii) (s : string) (i : Z) :
  (Index_from i s (String c "") = -1 ∧ no_byte c s = true)
  ∨ ∃ pre post,
      s = pre +:+ String c post ∧ no_byte c pre = true
      ∧ Index_from i s (String c "") = i + Z.of_nat (String.length pre).
Proof.
  revert i. induction s as [|a s IH]; intros i; [by left|].
  cbn [Index_from String.prefix].
  destruct (Ascii.ascii_dec c a) as [->|Hne].
  - rewrite prefix_empty. right. exists "", s. rewrite String_app_nil.
    repeat split. cbn [String.length]. lia.
  - assert (Ha : negb (Ascii.eqb a c) = true).
    { apply negb_true_iff, Ascii.eqb_neq. congruence. }
    destruct (IH (i + 1)) as [[Hi Hn]|(pre & post & -> & Hn & Hi)].
    + left. split; [done|].
      change (negb (Ascii.eqb a c) && no_byte c s = true). by rewrite Ha, Hn.
    + right. exists (String a pre), post. rewrite String_app_cons.
      split; [done|]. split.
      * change (negb (Ascii.eqb a c) && no_byte c pre = true).
        by rewrite Ha, Hn.
      * rewrite Hi. cbn [String.length]. lia.
Qed.

Lemma string_take_app (a b : string) :
  string_take (String.length a) (a +:+ b) = a.
Proof.
  induction a as [|c a IH]; [by destruct b|].
  rewrite String_app_cons. cbn [String.length string_take]. by rewrite IH.
Qed.

Lemma string_drop_app_cons (a : string) (c : ascii) (b : string) :
  string_drop (S (String.length a)) (a +:+ String c b) = b.
Proof.
  induction a as [|x a IH]; [reflexivity|].
  rewrite String_app_cons. cbn [String.length string_drop]. exact IH.
Qed.

Lemma no_byte_split (c : ascii) (pre post : string) :
  no_byte c (pre +:+ String c post) = false.
Proof.
  unfold no_byte. rewrite string_forall_append. cbn [string_forall].
  rewrite Ascii.eqb_refl. cbn [negb andb]. apply andb_false_r.
Qed.

(** The split at the first occurrence of a byte is unique. *)
Lemma first_split_unique (c : ascii) (p1 r1 p2 r2 : string) :
  p1 +:+ String c r1 = p2 +:+ String c r2 →
  no_byte c p1 = true → no_byte c p2 = true → p1 = p2 ∧ r1 = r2.
Proof.
  revert p2. induction p1 as [|a p1 IH]; intros [|b p2] Heq H1 H2.
  - rewrite !String_app_nil in Heq. by injection Heq.
  - rewrite String_app_nil, String_app_cons in Heq. injection Heq as <- _.
    change (negb (Ascii.eqb c c) && no_byte c p2 = true) in H2.
    by rewrite Ascii.eqb_refl in H2.
  - rewrite String_app_nil, String_app_cons in Heq. injection Heq as -> _.
    change (negb (Ascii.eqb c c) && no_byte c p1 = true) in H1.
    by rewrite Ascii.eqb_refl in H1.
  - rewrite !String_app_cons in Heq. injection Heq as <- Heq.
    change (negb (Ascii.eqb a c) && no_byte c p1 = true) in H1.
    change (negb (Ascii.eqb a c) && no_byte c p2 = true) in H2.
    apply andb_true_iff in H1 as [_ H1]. apply andb_true_iff in H2 as [_ H2].
    destruct (IH p2 Heq H1 H2) as [-> ->]. done.
Qed.

Section trace_preamble.
Context `{GoLib}.

(** What [extractCoTTrace] returns is the preamble of the reply. *)
Lemma extractCoTTrace_preamble (raw : string) :
  preamble_of raw (extractCoTTrace raw).
Proof.
  unfold extractCoTTrace, preamble_of. cbv zeta.
  fold (opens_json_fence raw).
  set (t := strings_TrimSpace raw).
  match goal with
  | |- context [strings_Index (if ?b then ?x else ?y) _] =>
    assert (Hbody : ∃ body, trace_body raw body ∧ (if b then x else y) = body)
  end.
  { unfold trace_body. fold t.
    destruct (opens_json_fence raw) eqn:Hf.
    2:{ exists t. split; [right; split; [by left|done]|done]. }
    unfold strings_Index. change LF with (String "010"%char "").
    destruct (Index_from_split "010" t 0)
      as [[Hi Hn]|(line & rest & Ht & Hn & Hi)].
    - rewrite Hi. exists t. split; [right; split; [by right|done]|done].
    - rewrite Hi.
      replace (0 + Z.of_nat (String.length line) =? -1) with false
        by (symmetry; apply Z.eqb_neq; lia).
      cbn [negb].
      replace (Z.to_nat (0 + Z.of_nat (String.length line) + 1))
        with (S (String.length line)) by lia.
      exists (strings_TrimSpace rest). split.
      + left. split; [done|]. by exists line, rest.
      + by rewrite Ht, string_drop_app_cons. }
  destruct Hbody as (body & Hb & ->).
  exists body. split; [exact Hb|].
  unfold strings_Index.
  destruct (Index_from_split "{" body 0)
    as [[Hi Hn]|(pre & rest & Hbd & Hn & Hi)].
  - rewrite Hi. left. by split.
  - rewrite Hi. right. exists pre, rest. split; [exact Hbd|]. split; [exact Hn|].
    destruct pre as [|a pre].
    + reflexivity.
    + replace (0 + Z.of_nat (String.length (String a pre)) <=? 0) with false
        by (symmetry; apply Z.leb_gt; cbn [String.length]; lia).
      replace (Z.to_nat (0 + Z.of_nat (String.length (String a pre))))
        with (String.length (String a pre)) by lia.
      rewrite Hbd. change ("{" +:+ rest) with (String "{" rest).
      by rewrite string_take_app.
Qed.

(** A reply has one preamble. *)
Lemma preamble_of_unique (raw t1 t2 : string) :
  preamble_of raw t1 → preamble_of raw t2 → t1 = t2.
Proof.
  assert (Hbody : ∀ b1 b2, trace_body raw b1 → trace_body raw b2 → b1 = b2).
  { intros b1 b2
      [[Hf1 (l1 & r1 & E1 & N1 & ->)]|[C1 ->]]
      [[Hf2 (l2 & r2 & E2 & N2 & ->)]|[C2 ->]]; [| | |done].
    - rewrite E1 in E2. change (LF +:+ r1) with (String "010" r1) in E2.
      change (LF +:+ r2) with (String "010" r2) in E2.
      by destruct (first_split_unique _ _ _ _ _ E2 N1 N2) as [_ ->].
    - destruct C2 as [C2|C2]; [congruence|].
      rewrite E1 in C2. change (LF +:+ r1) with (String "010" r1) in C2.
      by rewrite no_byte_split in C2.
    - destruct C1 as [C1|C1]; [congruence|].
      rewrite E2 in C1. change (LF +:+ r2) with (String "010" r2) in C1.
      by rewrite no_byte_split in C1. }
  intros (b1 & Hb1 & T1) (b2 & Hb2 & T2).
  rewrite (Hbody b2 b1 Hb2 Hb1) in T2. clear Hb1 Hb2 Hbody b2.
  destruct T1 as [[N1 ->]|(p1 & r1 & E1 & N1 & ->)],
           T2 as [[N2 ->]|(p2 & r2 & E2 & N2 & ->)]; [done| | |].
  - rewrite E2 in N1. change ("{" +:+ r2) with (String "{" r2) in N1.
    by rewrite no_byte_split in N1.
  - rewrite E1 in N2. change ("{" +:+ r1) with (String "{" r1) in N2.
    by rewrite no_byte_split in N2.
  - rewrite E1 in E2. change ("{" +:+ r1) with (String "{" r1) in E2.
    change ("{" +:+ r2) with (String "{" r2) in E2.
    by destruct (first_split_unique _ _ _ _ _ E2 N1 N2) as [-> _].
Qed.

(** C6 (amended). On success [parseFullDecisionResponse] sets [RawContent]
    to the whole fence-stripped text, on the direct path and on the fallback
    path alike, and [CoTTrace] to [extractCoTTrace] of the raw text.  That
    trace is the preamble of the reply and nothing else is: the text before
    the first opening brace of the trimmed reply or, when the reply opens a
    fence with the tag "json" and has a line feed, of what follows its first
    line; trimmed of white space, then of backquotes at both ends, then of
    white space again; and empty when that text has no opening brace.
    [GenerateDecision] then replaces [RawContent] by the model's text as
    received, fences included, and keeps that [CoTTrace]. *)
Theorem C6_audit_fields :
  (∀ raw resp,
     parseFullDecisionResponse raw = Ok resp →
     RawContent resp = trimJSONFences raw
     ∧ CoTTrace resp = extractCoTTrace raw
     ∧ preamble_of raw (CoTTrace resp)
     ∧ ∀ trace, preamble_of raw trace → trace = CoTTrace resp)
  ∧ (∀ c req now rangeOrder w decision w',
       GenerateDecision c req now rangeOrder w = (Ok decision, w') →
       ∃ systemPrompt userPrompt respContent,
         CallWithMessages c systemPrompt userPrompt w = (Ok respContent, w')
         ∧ RawContent decision = respContent
         ∧ CoTTrace decision = extractCoTTrace respContent
         ∧ preamble_of respContent (CoTTrace decision)
         ∧ ∀ trace, preamble_of respContent trace → trace = CoTTrace decision).
Proof.
  assert (Hpre : ∀ raw t, t = extractCoTTrace raw →
            preamble_of raw t ∧ ∀ trace, preamble_of raw trace → trace = t).
  { intros raw t ->. split; [apply extractCoTTrace_preamble|].
    intros trace Ht.
    exact (preamble_of_unique raw _ _ Ht (extractCoTTrace_preamble raw)). }
  split.
  { intros raw resp Hparse.
    destruct (parseFullDecisionResponse_audit raw resp Hparse) as [Hraw Hcot].
    split; [exact Hraw|]. split; [exact Hcot|]. by apply Hpre. }
  intros c req now rangeOrder w decision w'. unfold GenerateDecision.
  destruct c as [client|]; [|discriminate].
  destruct (String.eqb (apiKey client) ""); [discriminate|].
  match goal with
  | |- context [CallWithMessages ?c ?sp ?up ?w] =>
    set (sp0 := sp); set (up0 := up);
    destruct (CallWithMessages c sp0 up0 w) as [[respContent|err] w1] eqn:Hcall
  end; [|discriminate].
  destruct (parseFullDecisionResponse respContent) as [d0|err] eqn:Hparse;
    [|discriminate].
  apply parseFullDecisionResponse_audit in Hparse as [_ Hcot].
  destruct (validateDecisionResponse _ _); [discriminate|].
  intros [= <- <-]. exists sp0, up0, respContent.
  split; [done|].
  cbn [set_RawContent_CoTTrace CoTTrace RawContent].
  destruct (String.eqb_spec (CoTTrace d0) "") as [He|He]; cbn;
    (split; [done|]); (split; [congruence|]); apply Hpre; congruence.
Qed.

End trace_preamble.

Lemma C6_audit_fields_witness :
  RawContent (hold_decision hold_with_commentary "I think so")
  = trimJSONFences (H := example_lib) hold_with_commentary
  ∧ CoTTrace (hold_decision hold_with_commentary "I think so")
    = extractCoTTrace (H := example_lib) hold_with_commentary
  ∧ preamble_of (H := example_lib) hold_with_commentary "I think so".
Proof.
  destruct (proj1 (C6_audit_fields (H := example_lib)) hold_with_commentary
              (hold_decision hold_with_commentary "I think so"))
    as (H1 & H2 & H3 & _).
  - vm_compute. reflexivity.
  - split; [exact H1|]. split; [exact H2|exact H3].
Defined.
